(** * Cover_Image_extractor.py: a shallow embedding and its properties

    The script extracts a cover image from PDF, EPUB and TXT files.  Its own
    logic (the cover heuristic over the OPF manifest, the archive lookups,
    the text truncation, the size computation and the per-file dispatch) is
    embedded below function by function.  The libraries it calls (EbookLib,
    zipfile, ElementTree's parser, Pillow, mimetypes' tables, textwrap,
    pypdf/pdf2image) are taken as a record of functions, [Libs], so every
    theorem holds for whatever these libraries compute.  What the script
    relies on in the standard library is embedded as CPython 3.11 has it:
    [posixpath], the tag tests of ElementPath, [repr], and the parsing of
    the command line by the [argparse] parser the script builds.

    Conventions of the model:
    - a Python [str] is a [string]; each [ascii] stands for one character
      (a code point below 256), and [lower], [isspace] and [splitlines]
      are those of Python on that range; Python integers are [Z];
    - [os.path] is [posixpath];
    - the state of a run is the content of the disk and the lines printed;
      [print] and the writing of a file always succeed, and [img.save]
      either writes the whole file or, when the bytes cannot be decoded,
      raises before anything is written;
    - an exception is a class and its message; only subclasses of
      [Exception] are raised by the functions of the script, and argparse
      ends a run by an exit status; what goes to [stderr] is not kept. *)

From Stdlib Require Import String Ascii List ZArith Lia Bool Arith.
Import ListNotations.
Open Scope string_scope.

Set Implicit Arguments.

(** ** Python string operations *)

Module PyStr.

(** [c.lower()] on one character: A-Z, and the upper-case letters of the
    Latin-1 block (U+00C0..U+00DE except the multiplication sign). *)
Definition lower_char (c : ascii) : ascii :=
  let n := nat_of_ascii c in
  if ((65 <=? n) && (n <=? 90))%nat then ascii_of_nat (n + 32)
  else if ((192 <=? n) && (n <=? 222) && negb (n =? 215))%nat
       then ascii_of_nat (n + 32)
  else c.

Fixpoint lower (s : string) : string :=
  match s with
  | EmptyString => EmptyString
  | String c t => String (lower_char c) (lower t)
  end.

(** [s.startswith(p)] *)
Definition startswith (s p : string) : bool := String.prefix p s.

(** [sub in s] *)
Fixpoint contains (sub s : string) : bool :=
  String.prefix sub s ||
  match s with
  | EmptyString => false
  | String _ t => contains sub t
  end.

(** [s.endswith(suffix)] *)
Fixpoint endswith (s suffix : string) : bool :=
  String.eqb s suffix ||
  match s with
  | EmptyString => false
  | String _ t => endswith t suffix
  end.

(** [s.split(sep)] for a one-character separator: never the empty list. *)
Fixpoint split (sep : ascii) (s : string) : list string :=
  match s with
  | EmptyString => [EmptyString]
  | String c t =>
      if Ascii.eqb c sep then EmptyString :: split sep t
      else match split sep t with
           | [] => [String c EmptyString]
           | h :: r => String c h :: r
           end
  end.

(** [s.replace(a, b)] for one-character [a] and [b]. *)
Fixpoint replace (a b : ascii) (s : string) : string :=
  match s with
  | EmptyString => EmptyString
  | String c t => String (if Ascii.eqb c a then b else c) (replace a b t)
  end.

(** [s.lstrip(c)], [s.rstrip(c)], [s.strip(c)] for a set of characters
    given by a predicate. *)
Fixpoint lstrip (p : ascii -> bool) (s : string) : string :=
  match s with
  | EmptyString => EmptyString
  | String c t => if p c then lstrip p t else s
  end.

Fixpoint rstrip (p : ascii -> bool) (s : string) : string :=
  match s with
  | EmptyString => EmptyString
  | String c t =>
      match rstrip p t with
      | EmptyString => if p c then EmptyString else String c EmptyString
      | r => String c r
      end
  end.

Definition strip (p : ascii -> bool) (s : string) : string :=
  rstrip p (lstrip p s).

(** [s[:n]] and [s[n:]] for [0 <= n]. *)
Fixpoint take (n : nat) (s : string) : string :=
  match n, s with
  | O, _ => EmptyString
  | S _, EmptyString => EmptyString
  | S k, String c t => String c (take k t)
  end.

Fixpoint drop (n : nat) (s : string) : string :=
  match n, s with
  | O, _ => s
  | S _, EmptyString => EmptyString
  | S k, String _ t => drop k t
  end.

(** [s.rfind(c) + 1] for a one-character [c]: the position just after the
    last occurrence, 0 when there is none. *)
Fixpoint rfind1 (c : ascii) (s : string) : nat :=
  match s with
  | EmptyString => 0
  | String d t =>
      match rfind1 c t with
      | O => if Ascii.eqb d c then 1 else 0
      | S k => S (S k)
      end
  end.

(** [str.isspace] for one character, on the code points below 256. *)
Definition isspace (c : ascii) : bool :=
  let n := nat_of_ascii c in
  (((9 <=? n) && (n <=? 13)) || ((28 <=? n) && (n <=? 32))
   || (n =? 133) || (n =? 160))%nat.

(** Truth value of a string: the empty string is false. *)
Definition truthy (s : string) : bool := negb (String.eqb s EmptyString).

(** Every character of [s] passes [p]. *)
Fixpoint all_chars (p : ascii -> bool) (s : string) : bool :=
  match s with
  | EmptyString => true
  | String c t => p c && all_chars p t
  end.

(** [str.isprintable] for one character, on the code points below 256:
    the ASCII range from the space to the tilde, and the Latin-1 block
    from U+00A1 on without the soft hyphen. *)
Definition isprintable (c : ascii) : bool :=
  let n := nat_of_ascii c in
  (((32 <=? n) && (n <=? 126)) || ((161 <=? n) && negb (n =? 173)))%nat.

Definition hex_digit (n : nat) : ascii :=
  if (n <? 10)%nat then ascii_of_nat (48 + n) else ascii_of_nat (87 + n).

Definition backslash : ascii := "\"%char.
Definition single_quote : ascii := "'"%char.
Definition double_quote : ascii := "034"%char.

(** One character of [repr(s)], inside the quotes [quote]. *)
Definition repr_char (quote c : ascii) : string :=
  let n := nat_of_ascii c in
  if Ascii.eqb c quote || Ascii.eqb c backslash
  then String backslash (String c EmptyString)
  else if (n =? 9)%nat then "\t"
  else if (n =? 10)%nat then "\n"
  else if (n =? 13)%nat then "\r"
  else if isprintable c then String c EmptyString
  else String backslash
         (String "x" (String (hex_digit (n / 16))
                        (String (hex_digit (n mod 16)) EmptyString))).

Fixpoint repr_body (quote : ascii) (s : string) : string :=
  match s with
  | EmptyString => EmptyString
  | String c t => repr_char quote c ++ repr_body quote t
  end.

(** [repr(s)]: in single quotes, or in double quotes when [s] holds a
    single quote and no double quote. *)
Definition repr (s : string) : string :=
  let quote :=
    if contains (String single_quote EmptyString) s
       && negb (contains (String double_quote EmptyString) s)
    then double_quote else single_quote in
  String quote (repr_body quote s ++ String quote EmptyString).

End PyStr.

(** ** posixpath *)

Module posixpath.
Import PyStr.

Definition sep : ascii := "/"%char.

(** [posixpath.join(a, b)] with one extra component. *)
Definition join (a b : string) : string :=
  if startswith b "/" then b
  else if negb (truthy a) || endswith a "/" then a ++ b
  else a ++ "/" ++ b.

(** One turn of the loop of [normpath] over the components. *)
Definition norm_step (initial_slashes : nat) (new_comps : list string)
                     (comp : string) : list string :=
  if String.eqb comp "" || String.eqb comp "." then new_comps
  else if negb (String.eqb comp "..")
          || ((initial_slashes =? 0)%nat && match new_comps with [] => true | _ => false end)
          || match new_comps with
             | [] => false
             | _ => String.eqb (last new_comps "") ".."
             end
       then new_comps ++ [comp]
  else match new_comps with
       | [] => new_comps
       | _ => removelast new_comps
       end.

Fixpoint repeat_str (n : nat) (s : string) : string :=
  match n with
  | O => ""
  | S k => s ++ repeat_str k s
  end.

(** [posixpath.normpath(path)] *)
Definition normpath (path : string) : string :=
  if String.eqb path "" then "."
  else
    let initial_slashes :=
      if startswith path "/" then
        if startswith path "//" && negb (startswith path "///") then 2%nat
        else 1%nat
      else 0%nat in
    let comps := fold_left (norm_step initial_slashes) (split sep path) [] in
    let p := String.concat "/" comps in
    let p := repeat_str initial_slashes "/" ++ p in
    if truthy p then p else ".".

(** [posixpath.dirname(p)] *)
Definition dirname (p : string) : string :=
  let i := rfind1 sep p in
  let head := take i p in
  if truthy head && negb (String.eqb head (repeat_str (String.length head) "/"))
  then rstrip (Ascii.eqb sep) head
  else head.

(** [posixpath.basename(p)] *)
Definition basename (p : string) : string := drop (rfind1 sep p) p.

(** The loop of [genericpath._splitext] that skips the leading dots of the
    last component: [fuel] counts the positions from [filenameIndex] up to
    [dotIndex]. *)
Fixpoint splitext_scan (p : string) (dotIndex filenameIndex fuel : nat)
  : string * string :=
  match fuel with
  | O => (p, "")
  | S k =>
      if String.eqb (take 1 (drop filenameIndex p)) "."
      then splitext_scan p dotIndex (S filenameIndex) k
      else (take dotIndex p, drop dotIndex p)
  end.

(** [posixpath.splitext(p)].  [rfind1] is [rfind + 1], so the source's
    [dotIndex > sepIndex] reads [rfind1 "." p > rfind1 "/" p]. *)
Definition splitext (p : string) : string * string :=
  let sep1 := rfind1 sep p in
  let dot1 := rfind1 "."%char p in
  if (sep1 <? dot1)%nat
  then splitext_scan p (dot1 - 1) sep1 (dot1 - 1 - sep1)
  else (p, "").

End posixpath.

(** ** Exceptions, results and the effects of the script *)

Definition bytes := list Byte.byte.

(** The exception classes the script tells apart; every one is a subclass
    of [Exception]. *)
Inductive exn_class : Type :=
| KeyError
| ValueError
| AttributeError
| OtherError.

(** An exception: its class and [str(e)]. *)
Record exn : Type := Exn { exn_cls : exn_class; exn_str : string }.

Definition is_class (c : exn_class) (e : exn) : bool :=
  match c, exn_cls e with
  | KeyError, KeyError | ValueError, ValueError
  | AttributeError, AttributeError | OtherError, OtherError => true
  | _, _ => false
  end.

(** The result of a call: a value or a raised exception. *)
Inductive outcome (A : Type) : Type :=
| Return (a : A)
| Raise (e : exn).
Arguments Return {A} a.
Arguments Raise {A} e.

(** What the script can change: the files on disk and the lines printed.
    The newest write of a path comes first in [st_fs]; lines are appended
    to [st_out]. *)
Record State : Type := MkState {
  st_fs : list (string * bytes);
  st_out : list string
}.

(** A statement sequence: runs from a state, ends with a value or an
    exception, and in both cases leaves a state. *)
Definition M (A : Type) : Type := State -> outcome A * State.

Definition ret {A} (a : A) : M A := fun s => (Return a, s).
Definition raise {A} (e : exn) : M A := fun s => (Raise e, s).

Definition bind {A B} (m : M A) (k : A -> M B) : M B :=
  fun s => match m s with
           | (Return a, s') => k a s'
           | (Raise e, s') => (Raise e, s')
           end.

(** A library call, which has no effect on the state of the script. *)
Definition lift {A} (o : outcome A) : M A := fun s => (o, s).

(** [try: body  except Exception as e: handler(e)] *)
Definition try_except {A} (body : M A) (handler : exn -> M A) : M A :=
  fun s => match body s with
           | (Return a, s') => (Return a, s')
           | (Raise e, s') => handler e s'
           end.

Declare Scope py_scope.
Delimit Scope py_scope with py.
Notation "x <- m ;; k" := (bind m (fun x => k))
  (at level 61, m at next level, right associativity) : py_scope.
Notation "m ;;; k" := (bind m (fun _ => k))
  (at level 61, right associativity) : py_scope.
Open Scope py_scope.

(** [print(line)] *)
Definition print (line : string) : M unit :=
  fun s => (Return tt, MkState (st_fs s) (st_out s ++ [line])).

Fixpoint fs_lookup (fs : list (string * bytes)) (path : string) : option bytes :=
  match fs with
  | [] => None
  | (p, d) :: rest => if String.eqb p path then Some d else fs_lookup rest path
  end.

(** Reading the whole of a file; a missing file raises
    [FileNotFoundError], whose message ends with [repr(path)]. *)
Definition read_file (path : string) : M bytes :=
  fun s => match fs_lookup (st_fs s) path with
           | Some d => (Return d, s)
           | None => (Raise (Exn OtherError ("[Errno 2] No such file or directory: "
                                             ++ PyStr.repr path)), s)
           end.

(** [with open(path, 'wb') as out: out.write(data)], and the writing done
    by [img.save(path)]. *)
Definition write_file (path : string) (data : bytes) : M unit :=
  fun s => (Return tt, MkState ((path, data) :: st_fs s) (st_out s)).

(** ** xml.etree.ElementTree *)

Module ET.
Import PyStr.

(** An element: its tag (with the namespace in Clark notation, [{uri}local]),
    its attributes and its children in document order. *)
#[warnings="-register-all"]
Inductive Element : Type :=
| Elem (tag : string) (attrib : list (string * string)) (children : list Element).

Definition tag (e : Element) : string := match e with Elem t _ _ => t end.
Definition attrib (e : Element) : list (string * string) :=
  match e with Elem _ a _ => a end.
Definition children (e : Element) : list Element :=
  match e with Elem _ _ c => c end.

(** [e.attrib.get(k)] *)
Fixpoint get (a : list (string * string)) (k : string) : option string :=
  match a with
  | [] => None
  | (k', v) :: rest => if String.eqb k' k then Some v else get rest k
  end.

(** [e.attrib.get(k, d)] *)
Definition get_d (a : list (string * string)) (k d : string) : string :=
  match get a k with Some v => v | None => d end.

(** [e.iter()]: the element, then its descendants, in document order. *)
Fixpoint iter (e : Element) : list Element :=
  match e with
  | Elem _ _ cs => e :: flat_map iter cs
  end.

(** The elements strictly below [e], in document order: what the step
    [.//] of a path ranges over. *)
Definition descendants (e : Element) : list Element :=
  flat_map iter (children e).

(** ElementPath's test of a tag against the name [pattern] of a path
    step.  A pattern that starts with [{*}] or ends with [}*] is a
    wildcard: [{*}*] takes every tag, [{}*] a tag in no namespace,
    [{*}local] the tag [local] in any namespace or in none, [{uri}*] every
    tag of the namespace.  Any other pattern takes the tag equal to it,
    [{}local] standing for [local]. *)
Definition is_wildcard_tag (pattern : string) : bool :=
  startswith pattern "{*}" || endswith pattern "}*".

Definition select_tag (pattern t : string) : bool :=
  if String.eqb pattern "{*}*" then true
  else if String.eqb pattern "{}*" then negb (startswith t "{")
  else if startswith pattern "{*}"
  then String.eqb t (drop 3 pattern) || endswith t (drop 2 pattern)
  else startswith t (take (String.length pattern - 1) pattern).

Definition matches (pattern t : string) : bool :=
  if is_wildcard_tag pattern then select_tag pattern t
  else String.eqb t (if startswith pattern "{}" then drop 2 pattern
                     else pattern).

(** [e.findall('.//' + a + '/' + b)] for two names [a] and [b], each with
    or without a namespace in braces: for every element below [e] that
    [a] takes, in document order, its children that [b] takes. *)
Definition findall_desc_child (e : Element) (a b : string) : list Element :=
  flat_map (fun m => filter (fun c => matches b (tag c)) (children m))
           (filter (fun d => matches a (tag d)) (descendants e)).

(** [e.find('.//{*}local')]: the first descendant whose tag is [local] in
    any namespace or in none. *)
Definition find_desc_anyns (e : Element) (local : string) : option Element :=
  find (fun d => String.eqb (tag d) local
                 || endswith (tag d) ("}" ++ local))
       (descendants e).

(** [e.find('.//local')] *)
Definition find_desc (e : Element) (local : string) : option Element :=
  find (fun d => String.eqb (tag d) local) (descendants e).

End ET.

(** ** A Python dict with string keys

    Iteration follows insertion order; assigning to a key that is present
    replaces the value and keeps the key's place. *)

Module PyDict.
Section Dict.
Variable V : Type.

Definition t := list (string * V).

Fixpoint set (d : t) (k : string) (v : V) : t :=
  match d with
  | [] => [(k, v)]
  | (k', v') :: rest =>
      if String.eqb k' k then (k, v) :: rest else (k', v') :: set rest k v
  end.

Fixpoint lookup (d : t) (k : string) : option V :=
  match d with
  | [] => None
  | (k', v) :: rest => if String.eqb k' k then Some v else lookup rest k
  end.

(** [k in d] *)
Definition mem (d : t) (k : string) : bool :=
  match lookup d k with Some _ => true | None => false end.

(** [d.items()] *)
Definition items (d : t) : list (string * V) := d.
End Dict.
End PyDict.

(** ** The libraries the script calls *)

(** An item of an EbookLib book, as the script looks at it: the attributes
    [id] (which [get_id()] returns too), [file_name] (which [get_name()]
    returns too) and [media_type], each a string or [None] (EbookLib
    leaves [media_type] at [None] for a manifest item without a media
    type); the call [get_content()]; and the attributes [content] and
    [raw] the script falls back to ([None] when absent). *)
Record EpubItem : Type := MkItem {
  it_id : option string;
  it_file_name : option string;
  it_media_type : option string;
  it_get_content : outcome (option bytes);
  it_content : option bytes;
  it_raw : option bytes
}.

(** An EbookLib book: [book.get_items()]. *)
Record EpubBook : Type := MkBook { book_get_items : outcome (list EpubItem) }.

(** An open zip archive: its entries in archive order, each with what
    reading it gives. *)
Record ZipFile : Type := MkZip { zip_entries : list (string * outcome bytes) }.

(** What Pillow paints into an image. *)
Inductive paint : Type :=
| Fill (color : string)
| Decoded (raw : bytes)
| Text (x y : Z) (line fill : string).

(** A Pillow image: mode, size, and what was painted, oldest first. *)
Record Image : Type := MkImage {
  img_mode : string;
  img_width : Z;
  img_height : Z;
  img_paint : list paint
}.

Record Libs : Type := MkLibs {
  (** [epub.read_epub] on the bytes of the file *)
  epub_read_epub : bytes -> outcome EpubBook;
  (** [zipfile.ZipFile(..., 'r')] on the bytes of the file *)
  zip_open : bytes -> outcome ZipFile;
  (** [ET.fromstring] *)
  et_fromstring : bytes -> outcome ET.Element;
  (** [Image.open] followed by the loading of the pixels *)
  pil_open : bytes -> outcome Image;
  (** the PNG encoder behind [img.save] *)
  pil_png : Image -> bytes;
  (** [temp_draw.textsize('A', font=font)] with the default font *)
  pil_textsize : outcome (Z * Z);
  (** [temp_draw.textbbox((0, 0), 'A', font=font)] *)
  pil_textbbox : outcome (Z * Z * Z * Z);
  (** [mimetypes.guess_type(url)[0]] *)
  mt_guess_type : string -> option string;
  (** the table behind [mimetypes.guess_extension] for a type that is a
      string *)
  mt_extension_of : string -> option string;
  (** [textwrap.fill(text, width=w)] *)
  textwrap_fill : string -> Z -> string;
  (** decoding as UTF-8 with [errors='ignore'], newlines translated *)
  utf8_decode_ignore : bytes -> string;
  (** the first page of a PDF as PNG: [PdfReader], [pages[0]], [PdfWriter],
      [convert_from_bytes] and the encoding done by [images[0].save] *)
  pdf_first_page_png : bytes -> outcome bytes
}.

(** ** The EPUB cover locator *)

Import PyStr.

(** [_ns_tag(tag, ns)] *)
Definition _ns_tag (tag ns : string) : string :=
  if truthy ns then "{" ++ ns ++ "}" ++ tag else tag.

(** Lines 63-65: the namespace of the root element, [''] when it has none. *)
Definition root_ns (tree : ET.Element) : string :=
  if startswith (ET.tag tree) "{"
  then strip (Ascii.eqb "{"%char) (hd "" (split "}"%char (ET.tag tree)))
  else "".

(** A value of the manifest map: [(href, media-type, properties)]. *)
Definition entry : Type := (string * string * string)%type.
Definition e_href (e : entry) : string := fst (fst e).
Definition e_mtype (e : entry) : string := snd (fst e).
Definition e_props (e : entry) : string := snd e.

(** The elements the two [findall] calls range over. *)
Definition manifest_items (tree : ET.Element) : list ET.Element :=
  let ns := root_ns tree in
  ET.findall_desc_child tree (_ns_tag "manifest" ns) (_ns_tag "item" ns).

Definition metadata_metas (tree : ET.Element) : list ET.Element :=
  let ns := root_ns tree in
  ET.findall_desc_child tree (_ns_tag "metadata" ns) (_ns_tag "meta" ns).

(** One turn of the loop of lines 69-75. *)
Definition manifest_add (manifest : PyDict.t entry) (item : ET.Element)
  : PyDict.t entry :=
  let iid := ET.get (ET.attrib item) "id" in
  let href := ET.get (ET.attrib item) "href" in
  let mtype := ET.get_d (ET.attrib item) "media-type" "" in
  let props := ET.get_d (ET.attrib item) "properties" "" in
  match iid, href with
  | Some i, Some h =>
      if truthy i && truthy h then PyDict.set manifest i (h, mtype, props)
      else manifest
  | _, _ => manifest
  end.

Definition build_manifest (items : list ET.Element) : PyDict.t entry :=
  fold_left manifest_add items [].

Definition manifest_of (tree : ET.Element) : PyDict.t entry :=
  build_manifest (manifest_items tree).

(** [os.path.normpath(os.path.join(rootfile_dir, href))] *)
Definition resolve (rootfile_dir href : string) : string :=
  posixpath.normpath (posixpath.join rootfile_dir href).

(** Lines 78-82: the loop over the [meta] elements. *)
Fixpoint cover_by_meta (manifest : PyDict.t entry) (rootfile_dir : string)
                       (metas : list ET.Element) : option string :=
  match metas with
  | [] => None
  | meta :: rest =>
      if String.eqb (lower (ET.get_d (ET.attrib meta) "name" "")) "cover" then
        match ET.get (ET.attrib meta) "content" with
        | Some cover_id =>
            if truthy cover_id then
              match PyDict.lookup manifest cover_id with
              | Some e => Some (resolve rootfile_dir (e_href e))
              | None => cover_by_meta manifest rootfile_dir rest
              end
            else cover_by_meta manifest rootfile_dir rest
        | None => cover_by_meta manifest rootfile_dir rest
        end
      else cover_by_meta manifest rootfile_dir rest
  end.

(** The shape of the loops of lines 85-87, 90-92 and 95-97: return the
    resolved href of the first item of [manifest.items()] that passes the
    test. *)
Fixpoint cover_by_test (test : string * entry -> bool) (rootfile_dir : string)
                       (items : list (string * entry)) : option string :=
  match items with
  | [] => None
  | it :: rest =>
      if test it then Some (resolve rootfile_dir (e_href (snd it)))
      else cover_by_test test rootfile_dir rest
  end.

(** The tests of steps 2, 3 and 4. *)
Definition has_cover_image (it : string * entry) : bool :=
  contains "cover-image" (e_props (snd it)).

Definition is_image (it : string * entry) : bool :=
  startswith (e_mtype (snd it)) "image/".

Definition is_cover_named (it : string * entry) : bool :=
  is_image it
  && (contains "cover" (lower (fst it))
      || contains "cover" (lower (e_href (snd it)))).

(** The body of [_find_cover_href] from line 62 on, for the parsed tree. *)
Definition find_cover_in_tree (tree : ET.Element) (rootfile_dir : string)
  : option string :=
  let manifest := manifest_of tree in
  match cover_by_meta manifest rootfile_dir (metadata_metas tree) with
  | Some r => Some r
  | None =>
  match cover_by_test has_cover_image rootfile_dir (PyDict.items manifest) with
  | Some r => Some r
  | None =>
  match cover_by_test is_cover_named rootfile_dir (PyDict.items manifest) with
  | Some r => Some r
  | None => cover_by_test is_image rootfile_dir (PyDict.items manifest)
  end end end.

(** [_find_cover_href(opf_data, rootfile_dir)] *)
Definition _find_cover_href (L : Libs) (opf_data : bytes) (rootfile_dir : string)
  : outcome (option string) :=
  match et_fromstring L opf_data with
  | Raise e => Raise e
  | Return tree => Return (find_cover_in_tree tree rootfile_dir)
  end.

(** ** zipfile *)

Module zipfile.

(** The name table of an archive: a later entry of the same name replaces
    an earlier one. *)
Fixpoint getinfo (entries : list (string * outcome bytes)) (name : string)
  : option (outcome bytes) :=
  match entries with
  | [] => None
  | (n, d) :: rest =>
      match getinfo rest name with
      | Some r => Some r
      | None => if String.eqb n name then Some d else None
      end
  end.

(** [z.read(name)]: [KeyError] when the archive has no such entry.  The
    message is built with [%r], and [str] of a [KeyError] is the [repr] of
    its message. *)
Definition read (z : ZipFile) (name : string) : outcome bytes :=
  match getinfo (zip_entries z) name with
  | Some r => r
  | None =>
      Raise (Exn KeyError (PyStr.repr ("There is no item named "
                                       ++ PyStr.repr name
                                       ++ " in the archive")))
  end.

(** [z.namelist()] *)
Definition namelist (z : ZipFile) : list string := map fst (zip_entries z).

End zipfile.

(** ** mimetypes *)

Module mimetypes.

(** [mimetypes.guess_extension(type)].  The function starts with
    [type.lower()], so [None] raises [AttributeError]. *)
Definition guess_extension (L : Libs) (type : option string)
  : outcome (option string) :=
  match type with
  | None => Raise (Exn AttributeError "'NoneType' object has no attribute 'lower'")
  | Some t => Return (mt_extension_of L t)
  end.

End mimetypes.

(** [x or d] for an optional string [x]: [d] when [x] is [None] or empty. *)
Definition str_or (x : option string) (d : string) : string :=
  match x with
  | Some s => if truthy s then s else d
  | None => d
  end.

(** [a or b] for optional byte strings. *)
Definition bytes_or (a b : option bytes) : option bytes :=
  match a with
  | Some (_ :: _) => a
  | _ => b
  end.

(** [str(x)] for a value that is a string or [None]. *)
Definition str_of (x : option string) : string :=
  match x with
  | Some s => s
  | None => "None"
  end.

(** ** extract_epub_cover *)

Section Script.
Variable L : Libs.

(** [_get_rootfile_path(zipf)] *)
Definition _get_rootfile_path (zipf : ZipFile) : outcome string :=
  match
    match zipfile.read zipf "META-INF/container.xml" with
    | Raise e =>
        if is_class KeyError e
        then Raise (Exn ValueError "Invalid EPUB: missing META-INF/container.xml")
        else Raise e
    | Return container => Return container
    end
  with
  | Raise e => Raise e
  | Return container =>
      match et_fromstring L container with
      | Raise e => Raise e
      | Return root =>
          let rootfile :=
            match ET.find_desc_anyns root "rootfile" with
            | Some r => Some r
            | None => ET.find_desc root "rootfile"
            end in
          match rootfile with
          | None =>
              Raise (Exn ValueError "Invalid EPUB: could not find rootfile in container.xml")
          | Some r =>
              match ET.get (ET.attrib r) "full-path" with
              | None =>
                  Raise (Exn ValueError "Invalid EPUB: could not find rootfile in container.xml")
              | Some p => Return p
              end
          end
      end
  end.

(** Lines 141-144 and 195-197: open the bytes as an image and bring it to
    a mode PNG takes. *)
Definition open_for_png (data : bytes) : outcome Image :=
  match pil_open L data with
  | Raise e => Raise e
  | Return img =>
      if String.eqb (img_mode img) "RGB" || String.eqb (img_mode img) "RGBA"
      then Return img
      else Return (MkImage "RGBA" (img_width img) (img_height img) (img_paint img))
  end.

(** Line 151: the name the raw bytes take their extension from: the
    file name, or the id when the file name is [None] or empty. *)
Definition item_name (cover_item : EpubItem) : option string :=
  match it_file_name cover_item with
  | Some f => if truthy f then Some f else it_id cover_item
  | None => it_id cover_item
  end.

(** [os.path.splitext(name)[1]]; [None] is no path. *)
Definition splitext_ext (name : option string) : outcome string :=
  match name with
  | Some n => Return (snd (posixpath.splitext n))
  | None =>
      Raise (Exn OtherError
               "expected str, bytes or os.PathLike object, not NoneType")
  end.

(** Lines 140-159: write the cover of the item EbookLib found. *)
Definition save_item_cover (input_file : string) (cover_item : EpubItem)
                           (data : bytes) : M unit :=
  try_except
    (img <- lift (open_for_png data) ;;
     let output_file := fst (posixpath.splitext input_file) ++ ".png" in
     write_file output_file (pil_png L img) ;;;
     print ("Done, your cover photo has been saved as " ++ output_file))
    (fun _ =>
       ext <- lift (splitext_ext (item_name cover_item)) ;;
       ext <- (if truthy ext then ret ext
               else g <- lift (mimetypes.guess_extension L
                                 (it_media_type cover_item)) ;;
                    ret (str_or g ".img")) ;;
       let output_file := fst (posixpath.splitext input_file) ++ ext in
       write_file output_file data ;;;
       print ("Done, your cover photo has been saved as " ++ output_file
              ++ " (raw bytes)")).

(** Line 115: the list comprehension that keeps the items of an image
    media type; [startswith] on a [media_type] that is [None] raises
    [AttributeError]. *)
Fixpoint image_items (items : list EpubItem) : outcome (list EpubItem) :=
  match items with
  | [] => Return []
  | it :: rest =>
      match it_media_type it with
      | None =>
          Raise (Exn AttributeError
                   "'NoneType' object has no attribute 'startswith'")
      | Some t =>
          match image_items rest with
          | Return kept =>
              Return (if startswith t "image/" then it :: kept else kept)
          | Raise e => Raise e
          end
      end
  end.

(** Lines 119-121: the test of the loop that prefers an item named cover,
    on [str(iid)] and [str(fname)]. *)
Definition item_named_cover (it : EpubItem) : bool :=
  contains "cover" (lower (str_of (it_id it)))
  || contains "cover" (lower (str_or (it_file_name it) "")).

(** Lines 106-159, the body of the first [try]: [true] when the function
    has returned from inside it, [false] when control falls out of it. *)
Definition ebooklib_path (input_file : string) : M bool :=
  file <- read_file input_file ;;
  book <- lift (epub_read_epub L file) ;;
  let items := match book_get_items book with
               | Return l => l
               | Raise _ => []
               end in
  image_items <- lift (image_items items) ;;
  let cover_item :=
    match find item_named_cover image_items with
    | Some it => Some it
    | None => hd_error image_items
    end in
  match cover_item with
  | None => ret false
  | Some it =>
      let data := match it_get_content it with
                  | Return d => d
                  | Raise _ => bytes_or (it_content it) (it_raw it)
                  end in
      match data with
      | None => raise (Exn ValueError "Could not read image bytes from EbookLib item")
      | Some d => save_item_cover input_file it d ;;; ret true
      end
  end.

(** Lines 184-188: the scan of the name list after a [KeyError]. *)
Fixpoint scan_names (z : ZipFile) (cover_href : string) (names : list string)
  : outcome (option (bytes * string)) :=
  match names with
  | [] => Return None
  | name :: rest =>
      if endswith (lower name) (lower (posixpath.basename cover_href))
      then match zipfile.read z name with
           | Return image_data => Return (Some (image_data, name))
           | Raise e => Raise e
           end
      else scan_names z cover_href rest
  end.

(** Lines 179-191: the bytes of the cover and the name they were found
    under, [None] when neither the href nor the scan gives an entry. *)
Definition read_cover (z : ZipFile) (cover_href : string)
  : outcome (option (bytes * string)) :=
  match zipfile.read z cover_href with
  | Return image_data => Return (Some (image_data, cover_href))
  | Raise e =>
      if is_class KeyError e
      then scan_names z cover_href (zipfile.namelist z)
      else Raise e
  end.

(** Lines 194-210: write the cover found in the archive. *)
Definition save_zip_cover (input_file cover_href : string) (image_data : bytes)
  : M unit :=
  try_except
    (img <- lift (open_for_png image_data) ;;
     let output_file := fst (posixpath.splitext input_file) ++ ".png" in
     write_file output_file (pil_png L img) ;;;
     print ("Done, your cover photo has been saved as " ++ output_file))
    (fun _ =>
       let ext := snd (posixpath.splitext cover_href) in
       ext <- (if truthy ext then ret ext
               else let mtype := mt_guess_type L cover_href in
                    g <- lift (mimetypes.guess_extension L mtype) ;;
                    ret (str_or g ".img")) ;;
       let output_file := fst (posixpath.splitext input_file) ++ ext in
       write_file output_file image_data ;;;
       print ("Done, your cover photo has been saved as " ++ output_file
              ++ " (raw bytes)")).

(** Lines 167-210, the body of the second [try]. *)
Definition zip_path (input_file : string) : M unit :=
  file <- read_file input_file ;;
  z <- lift (zip_open L file) ;;
  rootfile_path <- lift (_get_rootfile_path z) ;;
  let rootfile_dir := posixpath.dirname rootfile_path in
  opf_data <- lift (zipfile.read z rootfile_path) ;;
  cover_href <- lift (_find_cover_href L opf_data rootfile_dir) ;;
  match cover_href with
  | None => print "Cover image not found in EPUB manifest."
  | Some cover_href =>
      if negb (truthy cover_href)
      then print "Cover image not found in EPUB manifest."
      else
        let cover_href := replace "\"%char "/"%char cover_href in
        found <- lift (read_cover z cover_href) ;;
        match found with
        | None =>
            print ("Could not read cover image " ++ cover_href ++ " from EPUB.")
        | Some (image_data, cover_href) =>
            save_zip_cover input_file cover_href image_data
        end
  end.

(** Lines 105-163: the first [try] with its handler. *)
Definition ebooklib_try (input_file : string) : M bool :=
  try_except (ebooklib_path input_file)
    (fun e => print ("EbookLib extraction failed, falling back to zip parsing: "
                     ++ exn_str e) ;;; ret false).

(** Lines 211-212: the handler of the second [try]. *)
Definition zip_error (input_file : string) (e : exn) : M unit :=
  print ("Error extracting EPUB cover from " ++ input_file
         ++ ": " ++ exn_str e).

(** Lines 166-212: the second [try] with its handler. *)
Definition zip_try (input_file : string) : M unit :=
  try_except (zip_path input_file) (zip_error input_file).

(** [extract_epub_cover(input_file)] *)
Definition extract_epub_cover (input_file : string) : M unit :=
  print ("Extracting cover photo from " ++ input_file ++ "...") ;;;
  returned <- ebooklib_try input_file ;;
  if returned then ret tt else zip_try input_file.

(** ** extract_txt_cover *)

Definition newline : ascii := "010"%char.
Definition carriage_return : ascii := "013"%char.

(** [f.readline()] on the text that is left to read: the line with its
    newline, and the text after it.  At the end of the file the line is
    empty. *)
Fixpoint readline (s : string) : string * string :=
  match s with
  | EmptyString => (EmptyString, EmptyString)
  | String c t =>
      if Ascii.eqb c newline then (String c EmptyString, t)
      else let (line, rest) := readline t in (String c line, rest)
  end.

(** Lines 225-230: the loop that reads at most [max_lines] lines. *)
Fixpoint read_lines (max_lines : nat) (f : string) : list string :=
  match max_lines with
  | O => []
  | S k =>
      let (line, rest) := readline f in
      if negb (truthy line) then []
      else rstrip (Ascii.eqb newline) line :: read_lines k rest
  end.

(** Lines 236-238: join the lines and cut the text at [max_chars]. *)
Definition cut_text (max_chars : nat) (lines : list string) : string :=
  let text := String.concat (String newline EmptyString) lines in
  if (max_chars <? String.length text)%nat
  then rstrip isspace (take max_chars text) ++ "..."
  else text.

(** The characters [str.splitlines] breaks a line at, below code point
    256. *)
Definition is_linebreak (c : ascii) : bool :=
  let n := nat_of_ascii c in
  (((10 <=? n) && (n <=? 13)) || ((28 <=? n) && (n <=? 30)) || (n =? 133))%nat.

(** [s.splitlines()]; [after_cr] tells that the character before was a
    carriage return, whose line feed belongs to the same break. *)
Fixpoint splitlines_from (after_cr : bool) (s : string) : list string :=
  match s with
  | EmptyString => []
  | String c t =>
      if after_cr && Ascii.eqb c newline then splitlines_from false t
      else if is_linebreak c
      then EmptyString :: splitlines_from (Ascii.eqb c carriage_return) t
      else match splitlines_from false t with
           | [] => [String c EmptyString]
           | l :: r => String c l :: r
           end
  end.

Definition splitlines (s : string) : list string := splitlines_from false s.

(** [Image.new(mode, (width, height), color)] *)
Definition Image_new (mode : string) (width height : Z) (color : string)
  : outcome Image :=
  if (width <? 0)%Z || (height <? 0)%Z
  then Raise (Exn ValueError "Width and height must be >= 0")
  else Return (MkImage mode width height [Fill color]).

(** [draw.text((x, y), line, fill=fill, font=font)] *)
Definition draw_text (img : Image) (x y : Z) (line fill : string) : Image :=
  MkImage (img_mode img) (img_width img) (img_height img)
          (img_paint img ++ [Text x y line fill]).

(** Lines 269-272: the loop that draws the lines. *)
Fixpoint draw_lines (img : Image) (margin y line_height : Z)
                    (lines : list string) : Image :=
  match lines with
  | [] => img
  | line :: rest =>
      draw_lines (draw_text img margin y line "black") margin
                 (y + line_height)%Z line_height rest
  end.

(** Lines 250-256: the size of the glyph 'A', by [textsize] or, when
    Pillow has none, by [textbbox]. *)
Definition measure_glyph : outcome (Z * Z) :=
  match pil_textsize L with
  | Return wh => Return wh
  | Raise e =>
      if is_class AttributeError e
      then match pil_textbbox L with
           | Return (x0, y0, x1, y1) => Return ((x1 - x0)%Z, (y1 - y0)%Z)
           | Raise e' => Raise e'
           end
      else Raise e
  end.

(** Lines 257-258: [avg_char_w or 7], then the characters per line. *)
Definition chars_per_line (width margin avg_char_w : Z) : Z :=
  let avg_char_w := if (avg_char_w =? 0)%Z then 7%Z else avg_char_w in
  Z.max 40 ((width - 2 * margin) / avg_char_w).

(** Line 264: the height of the canvas. *)
Definition canvas_height (margin char_h : Z) (n_lines : nat) : Z :=
  let line_height := (char_h + 6)%Z in
  (margin * 2 + line_height * Z.max 1 (Z.of_nat n_lines))%Z.

(** Lines 224-276, the body of the [try]. *)
Definition txt_body (input_file : string) (max_lines max_chars : nat) : M unit :=
  file <- read_file input_file ;;
  let f := utf8_decode_ignore L file in
  let lines := read_lines max_lines f in
  match lines with
  | [] => print "TXT file is empty; no cover created."
  | _ =>
      let text := cut_text max_chars lines in
      let width := 1200%Z in
      let margin := 40%Z in
      wh <- lift measure_glyph ;;
      let (avg_char_w, char_h) := wh : Z * Z in
      let cpl := chars_per_line width margin avg_char_w in
      let wrapped := textwrap_fill L text cpl in
      let lines := splitlines wrapped in
      let line_height := (char_h + 6)%Z in
      let height := canvas_height margin char_h (List.length lines) in
      img <- lift (Image_new "RGBA" width height "white") ;;
      let img := draw_lines img margin margin line_height lines in
      let output_file := fst (posixpath.splitext input_file) ++ ".png" in
      write_file output_file (pil_png L img) ;;;
      print ("Done, your text cover has been saved as " ++ output_file)
  end.

(** [extract_txt_cover(input_file, max_lines, max_chars)] *)
Definition extract_txt_cover (input_file : string) (max_lines max_chars : nat)
  : M unit :=
  print ("Creating text cover image from " ++ input_file ++ "...") ;;;
  try_except (txt_body input_file max_lines max_chars)
    (fun e => print ("Error creating TXT cover from " ++ input_file
                     ++ ": " ++ exn_str e)).

(** The defaults of [max_lines] and [max_chars]. *)
Definition default_max_lines : nat := 20.
Definition default_max_chars : nat := 2000.

(** ** The loop over the input files *)

(** Lines 285-314: the PDF branch. *)
Definition pdf_branch (input_file : string) : M unit :=
  print ("Extracting cover photo from " ++ input_file ++ "...") ;;;
  file <- read_file input_file ;;
  png <- lift (pdf_first_page_png L file) ;;
  let output_file := fst (posixpath.splitext input_file) ++ ".png" in
  write_file output_file png ;;;
  try_except (print output_file) (fun _ => ret tt) ;;;
  print ("Done, your cover photo has been saved as " ++ output_file).

(** Lines 283-320: the body of the loop for one input file. *)
Definition process_file (input_file : string) : M unit :=
  let ext := lower (snd (posixpath.splitext input_file)) in
  if String.eqb ext ".pdf" then pdf_branch input_file
  else if String.eqb ext ".epub" then extract_epub_cover input_file
  else if String.eqb ext ".txt"
       then extract_txt_cover input_file default_max_lines default_max_chars
  else print ("Unsupported file type for " ++ input_file
              ++ "; supported: .pdf, .epub").

(** Line 282: the loop; an exception ends it. *)
Fixpoint main_loop (files : list string) : M unit :=
  match files with
  | [] => ret tt
  | input_file :: rest => process_file input_file ;;; main_loop rest
  end.

End Script.

(** ** argparse: the parser of lines 15-26 *)

(** The values [--type] accepts. *)
Inductive type_choice : Type := pdf | epub | txt.

(** What [args.type] can be: [None] when the flag is absent, one of the
    choices, or the empty list that [--type=--] leaves there. *)
Inductive type_value : Type :=
| type_absent
| type_chosen (c : type_choice)
| type_empty_list.

(** The namespace [parser.parse_args()] returns. *)
Record Namespace : Type := MkArgs {
  input_files : list string;
  type : type_value
}.

(** [ArgumentParser.parse_args] for the parser the script builds, as in
    CPython 3.11: the positional [input_files] with [nargs='+'], the
    option [--type] with its three choices, and the [-h]/[--help] that
    argparse adds.  Prefixes of the long options are accepted
    ([allow_abbrev]).  What goes to [stderr] is not kept: an error is the
    exit with status 2. *)
Module argparse.

Inductive action : Type := help | store_type.

(** [parser._option_string_actions], in its order. *)
Definition option_string_actions : list (string * action) :=
  [("-h", help); ("--help", help); ("--type", store_type)].

Fixpoint get (table : list (string * action)) (option_string : string)
  : option action :=
  match table with
  | [] => None
  | (o, a) :: rest => if String.eqb o option_string then Some a
                      else get rest option_string
  end.

(** [s.split('=', 1)] when ['=' in s]. *)
Fixpoint split_equals (s : string) : option (string * string) :=
  match s with
  | EmptyString => None
  | String c t =>
      if Ascii.eqb c "="%char then Some (EmptyString, t)
      else match split_equals t with
           | Some (a, b) => Some (String c a, b)
           | None => None
           end
  end.

Definition is_digit (c : ascii) : bool :=
  let n := nat_of_ascii c in ((48 <=? n) && (n <=? 57))%nat.

(** What follows the minus sign in [-\d+] or [-\d*\.\d+]. *)
Definition number_body (body : string) : bool :=
  match split "."%char body with
  | [d] => truthy d && all_chars is_digit d
  | [d1; d2] => all_chars is_digit d1 && truthy d2 && all_chars is_digit d2
  | _ => false
  end.

(** [parser._negative_number_matcher.match(s)]; the [$] of the pattern
    also matches before a newline that ends the string. *)
Definition negative_number (s : string) : bool :=
  match s with
  | EmptyString => false
  | String c t =>
      Ascii.eqb c "-"%char
      && (number_body t
          || (endswith t (String "010"%char EmptyString)
              && number_body (take (String.length t - 1) t)))
  end.

(** [parser._get_option_tuples(option_string)], for a string of two
    characters or more that starts with [-]. *)
Definition _get_option_tuples (option_string : string)
  : list (action * string * option string) :=
  if startswith option_string "--" then
    let '(option_prefix, explicit_arg) :=
      match split_equals option_string with
      | Some (a, b) => (a, Some b)
      | None => (option_string, None)
      end in
    flat_map (fun oa : string * action =>
                if startswith (fst oa) option_prefix
                then [(snd oa, fst oa, explicit_arg)] else [])
             option_string_actions
  else
    flat_map (fun oa : string * action =>
                if String.eqb (fst oa) (take 2 option_string)
                then [(snd oa, fst oa, Some (drop 2 option_string))]
                else if startswith (fst oa) option_string
                then [(snd oa, fst oa, None)] else [])
             option_string_actions.

(** What [parser._parse_optional(arg_string)] answers: [None] for a
    positional; the action (or [None] for an option the parser does not
    know), the option string and the explicit argument; or the error of
    an ambiguous prefix. *)
Inductive parsed_optional : Type :=
| positional
| optional (a : option action) (option_string : string)
           (explicit_arg : option string)
| ambiguous.

Definition _parse_optional (arg_string : string) : parsed_optional :=
  if negb (truthy arg_string) then positional
  else if negb (startswith arg_string "-") then positional
  else
    match get option_string_actions arg_string with
    | Some a => optional (Some a) arg_string None
    | None =>
        if (String.length arg_string =? 1)%nat then positional
        else
          match
            match split_equals arg_string with
            | Some (option_string, explicit_arg) =>
                match get option_string_actions option_string with
                | Some a => Some (a, option_string, explicit_arg)
                | None => None
                end
            | None => None
            end
          with
          | Some (a, option_string, explicit_arg) =>
              optional (Some a) option_string (Some explicit_arg)
          | None =>
              match _get_option_tuples arg_string with
              | _ :: _ :: _ => ambiguous
              | [(a, option_string, explicit_arg)] =>
                  optional (Some a) option_string explicit_arg
              | [] =>
                  if negative_number arg_string then positional
                  else if contains " " arg_string then positional
                  else optional None arg_string None
              end
          end
    end.

(** An argument string with its letter in [arg_strings_pattern]: ['A'],
    ['O'] (with what [_parse_optional] said), or ['-'] for the first
    [--]. *)
Inductive token : Type :=
| tok_arg (arg_string : string)
| tok_option (a : option action) (option_string : string)
             (explicit_arg : option string) (arg_string : string)
| tok_dashes.

Definition arg_string_of (t : token) : string :=
  match t with
  | tok_arg s => s
  | tok_option _ _ _ s => s
  | tok_dashes => "--"
  end.

(** The first loop of [_parse_known_args]; [None] when an ambiguous
    prefix ends the parsing.  All the strings after [--] are
    arguments. *)
Fixpoint tokens (arg_strings : list string) : option (list token) :=
  match arg_strings with
  | [] => Some []
  | arg_string :: rest =>
      if String.eqb arg_string "--" then Some (tok_dashes :: map tok_arg rest)
      else
        match _parse_optional arg_string with
        | ambiguous => None
        | positional => option_map (cons (tok_arg arg_string)) (tokens rest)
        | optional a option_string explicit_arg =>
            option_map (cons (tok_option a option_string explicit_arg arg_string))
                       (tokens rest)
        end
  end.

(** What the parsing has gathered: [input_files] once the positional has
    been consumed, the value of [type], and the strings left over. *)
Record progress : Type := MkProgress {
  seen_files : option (list string);
  seen_type : type_value;
  extras : list string
}.

(** How [parse_args] ends: with the namespace, with the help printed and
    the exit status 0, or with an error and the exit status 2. *)
Inductive result : Type :=
| Parsed (args : Namespace)
| HelpExit
| ErrorExit.

(** [consume_positionals] on a run of arguments before an option: the
    run goes to [input_files] when that is still to fill, else to the
    strings left over. *)
Definition consume_positionals (p : progress) (run : list string) : progress :=
  match run with
  | [] => p
  | _ :: _ =>
      match seen_files p with
      | None => MkProgress (Some run) (seen_type p) (extras p)
      | Some _ => MkProgress (seen_files p) (seen_type p) (extras p ++ run)
      end
  end.

Definition choice_of (value : string) : option type_choice :=
  if String.eqb value "pdf" then Some pdf
  else if String.eqb value "epub" then Some epub
  else if String.eqb value "txt" then Some txt
  else None.

(** [take_action] for [--type] with one argument string: [_get_values]
    drops a [--], which leaves the empty list; any other value has to be
    one of the choices.  [None] is the error of an invalid choice. *)
Definition store_type_value (p : progress) (value : string) : option progress :=
  if String.eqb value "--"
  then Some (MkProgress (seen_files p) type_empty_list (extras p))
  else match choice_of value with
       | Some c => Some (MkProgress (seen_files p) (type_chosen c) (extras p))
       | None => None
       end.

(** [consume_optional] for the help option with an explicit argument:
    after [-h] the argument is read as more one-letter options. *)
Fixpoint help_with_explicit (explicit_arg : string) : result :=
  match explicit_arg with
  | EmptyString => ErrorExit
  | String c t =>
      if Ascii.eqb c "h"%char
      then match t with
           | EmptyString => HelpExit
           | String _ _ => help_with_explicit t
           end
      else ErrorExit
  end.

(** The end of [_parse_known_args] and of [parse_args]: the positional is
    required, and no string may be left over. *)
Definition finish (p : progress) : result :=
  match seen_files p with
  | None => ErrorExit
  | Some files =>
      match extras p with
      | [] => Parsed (MkArgs files (seen_type p))
      | _ :: _ => ErrorExit
      end
  end.

(** The last [consume_positionals] when the strings left hold the first
    [--]: [run] before it and [rest] after it.  The positional takes all
    of them, without the [--], when there is one argument at least. *)
Definition consume_with_dashes (p : progress) (run rest : list string)
  : progress :=
  match seen_files p with
  | None =>
      match (run ++ rest)%list with
      | [] => MkProgress None (seen_type p) (extras p ++ ["--"])
      | _ :: _ => MkProgress (Some (run ++ rest)%list) (seen_type p) (extras p)
      end
  | Some _ =>
      MkProgress (seen_files p) (seen_type p)
                 (extras p ++ run ++ "--" :: rest)
  end.

(** The loop that consumes positionals and optionals in turn; [run] holds
    the arguments met since the last option. *)
Fixpoint consume (toks : list token) (p : progress) (run : list string)
  : result :=
  match toks with
  | [] => finish (consume_positionals p run)
  | tok_arg arg_string :: rest => consume rest p (run ++ [arg_string])
  | tok_dashes :: rest =>
      finish (consume_with_dashes p run (map arg_string_of rest))
  | tok_option a option_string explicit_arg arg_string :: rest =>
      let p := consume_positionals p run in
      match a with
      | None =>
          consume rest
                  (MkProgress (seen_files p) (seen_type p)
                              (extras p ++ [arg_string]))
                  []
      | Some help =>
          match explicit_arg with
          | None => HelpExit
          | Some e =>
              if String.eqb option_string "-h" then help_with_explicit e
              else ErrorExit
          end
      | Some store_type =>
          match explicit_arg with
          | Some value =>
              match store_type_value p value with
              | Some p' => consume rest p' []
              | None => ErrorExit
              end
          | None =>
              match rest with
              | tok_arg value :: rest' =>
                  match store_type_value p value with
                  | Some p' => consume rest' p' []
                  | None => ErrorExit
                  end
              | _ => ErrorExit
              end
          end
      end
  end.

(** [parser.parse_args()] on [sys.argv[1:]]. *)
Definition parse_args (arg_strings : list string) : result :=
  match tokens arg_strings with
  | None => ErrorExit
  | Some toks => consume toks (MkProgress None type_absent []) []
  end.

End argparse.

(** The script after the parsing of the command line. *)
Definition main (L : Libs) (args : Namespace) : M unit :=
  main_loop L (input_files args).

(** How a run of the script ends: its last statement is reached (or an
    exception leaves it), or argparse exits with a status. *)
Inductive run_end : Type :=
| Ended (o : outcome unit)
| Exited (status : Z).

Definition ended (r : outcome unit * State) : run_end * State :=
  (Ended (fst r), snd r).

(** The script on the command line [argv] (without the name of the
    program).  The help, [help_lines], goes to the standard output. *)
Definition script (L : Libs) (help_lines : list string) (argv : list string)
  : State -> run_end * State :=
  fun s =>
    match argparse.parse_args argv with
    | argparse.Parsed args => ended (main L args s)
    | argparse.HelpExit =>
        (Exited 0, MkState (st_fs s) (st_out s ++ help_lines))
    | argparse.ErrorExit => (Exited 2, s)
    end.

(** The name of a choice of [--type]. *)
Definition choice_name (c : type_choice) : string :=
  match c with
  | pdf => "pdf"
  | epub => "epub"
  | txt => "txt"
  end.

(** ** Notions the statements use *)

(** [x] is the first element of [l] that passes [p]. *)
Definition first_with {A} (p : A -> bool) (l : list A) (x : A) : Prop :=
  exists l1 l2, l = (l1 ++ x :: l2)%list /\ p x = true
                /\ forall y, In y l1 -> p y = false.

(** A [meta] element marks a cover: its name is "cover" in any case. *)
Definition names_cover (m : ET.Element) : Prop :=
  lower (ET.get_d (ET.attrib m) "name" "") = "cover".

(** The content of the [meta] element [m] is a key of the manifest of
    [tree]. *)
Definition resolves (tree : ET.Element) (m : ET.Element) : Prop :=
  names_cover m /\
  exists X e, ET.get (ET.attrib m) "content" = Some X
              /\ PyDict.lookup (manifest_of tree) X = Some e.

(** No cover [meta] element of [tree] resolves to a manifest id. *)
Definition no_meta_resolves (tree : ET.Element) : Prop :=
  forall m, In m (metadata_metas tree) -> ~ resolves tree m.

(** The tests behind [resolves] and [no_meta_resolves], to run them. *)
Definition resolvesb (tree : ET.Element) (m : ET.Element) : bool :=
  String.eqb (lower (ET.get_d (ET.attrib m) "name" "")) "cover"
  && match ET.get (ET.attrib m) "content" with
     | Some X => PyDict.mem (manifest_of tree) X
     | None => false
     end.

Definition no_meta_resolvesb (tree : ET.Element) : bool :=
  forallb (fun m => negb (resolvesb tree m)) (metadata_metas tree).

(** No element of [l] passes [p]. *)
Definition none_with {A} (p : A -> bool) (l : list A) : Prop :=
  forall x, In x l -> p x = false.

(** In state [s] the file [input_file] is an archive [z] whose container
    names the package document [rootfile_path], with bytes [opf_data]. *)
Definition package_at (L : Libs) (s : State) (input_file : string)
                      (z : ZipFile) (rootfile_path : string)
                      (opf_data : bytes) : Prop :=
  exists file,
    fs_lookup (st_fs s) input_file = Some file
    /\ zip_open L file = Return z
    /\ _get_rootfile_path L z = Return rootfile_path
    /\ zipfile.read z rootfile_path = Return opf_data.

(** The test of the scan of line 185: the name ends with the basename of
    the href, whatever the case. *)
Definition names_like (cover_href name : string) : bool :=
  endswith (lower name) (lower (posixpath.basename cover_href)).

(** The state after one more printed line. *)
Definition printed (s : State) (line : string) : State :=
  MkState (st_fs s) (st_out s ++ [line]).

(** Two results of the parsing that lead to the same run: the same exit,
    or namespaces with the same input files. *)
Definition same_run (r1 r2 : argparse.result) : Prop :=
  match r1, r2 with
  | argparse.Parsed a1, argparse.Parsed a2 => input_files a1 = input_files a2
  | argparse.HelpExit, argparse.HelpExit => True
  | argparse.ErrorExit, argparse.ErrorExit => True
  | _, _ => False
  end.

(** Two states of the parsing that differ in the value of [type] only. *)
Definition alike (p1 p2 : argparse.progress) : Prop :=
  argparse.seen_files p1 = argparse.seen_files p2
  /\ argparse.extras p1 = argparse.extras p2.

(** ** Sample data *)

Module Samples.

Definition b (s : string) : bytes := list_byte_of_string s.

Definition bytes_eqb (x y : bytes) : bool :=
  String.eqb (string_of_list_byte x) (string_of_list_byte y).

Definition opf_ns : string := "http://www.idpf.org/2007/opf".

Definition opf (local : string) (attrs : list (string * string))
               (cs : list ET.Element) : ET.Element :=
  ET.Elem ("{" ++ opf_ns ++ "}" ++ local) attrs cs.

Definition item (id href mtype props : string) : ET.Element :=
  opf "item" [("id", id); ("href", href); ("media-type", mtype);
              ("properties", props)] [].

Definition meta (name content : string) : ET.Element :=
  opf "meta" [("name", name); ("content", content)] [].

Definition package (metas items : list ET.Element) : ET.Element :=
  opf "package" [("version", "3.0")]
      [opf "metadata" [] metas; opf "manifest" [] items].

(** META-INF/container.xml pointing at OEBPS/content.opf *)
Definition container : ET.Element :=
  let ns := "{urn:oasis:names:tc:opendocument:xmlns:container}" in
  ET.Elem (ns ++ "container") [("version", "1.0")]
    [ET.Elem (ns ++ "rootfiles") []
       [ET.Elem (ns ++ "rootfile")
          [("full-path", "OEBPS/content.opf");
           ("media-type", "application/oebps-package+xml")] []]].

(** Two cover [meta] elements, both naming a manifest item. *)
Definition two_covers : ET.Element :=
  package [meta "cover" "a"; meta "cover" "b"]
          [item "a" "a.jpg" "image/jpeg" ""; item "b" "b.jpg" "image/jpeg" ""].

(** No cover [meta]; one item of each kind the chain looks for. *)
Definition chain : ET.Element :=
  package [meta "author" "x"]
          [item "p1" "images/p1.png" "image/png" "";
           item "p2" "images/FrontCover.png" "image/png" "";
           item "p3" "images/p3.svg" "image/svg+xml" "cover-image";
           item "ch1" "ch1.xhtml" "application/xhtml+xml" ""].

(** A manifest without any image. *)
Definition no_image : ET.Element :=
  package [meta "cover" "missing"]
          [item "ch1" "ch1.xhtml" "application/xhtml+xml" "";
           item "css" "style.css" "text/css" ""].

(** A cover whose href has no extension. *)
Definition bare_href : ET.Element :=
  package [meta "cover" "cvr"] [item "cvr" "cover" "image/jpeg" ""].

(** A cover whose href names no entry of the archive. *)
Definition moved_href : ET.Element :=
  package [meta "cover" "cvr"] [item "cvr" "img/Cover.JPG" "image/jpeg" ""].

(** Two items share the id the second cover [meta] names; the first
    cover [meta] names no item, and one item has an empty href. *)
Definition shared_id : ET.Element :=
  package [meta "cover" "missing"; meta "Cover" "cvr"]
          [item "cvr" "old.jpg" "image/jpeg" "cover-image";
           item "x" "" "image/png" "";
           item "cvr" "new.jpg" "image/jpeg" "";
           item "cvr" "" "image/jpeg" ""].

(** The cover [meta] names an item whose href is empty. *)
Definition empty_href : ET.Element :=
  package [meta "cover" "cvr"]
          [item "cvr" "" "image/jpeg" ""; item "p1" "p1.png" "image/png" ""].

(** The cover [meta] names an item whose id is empty. *)
Definition empty_id : ET.Element :=
  package [meta "cover" ""]
          [item "" "a.jpg" "image/jpeg" ""; item "p1" "p1.png" "image/png" ""].

(** An item marked as the cover image that has no id. *)
Definition no_id : ET.Element :=
  package []
          [opf "item" [("href", "c.jpg"); ("media-type", "image/jpeg");
                       ("properties", "cover-image")] [];
           item "p1" "p1.png" "image/png" ""].

(** The item marked as the cover image shares its id with a later item
    that is not marked. *)
Definition lost_mark : ET.Element :=
  package []
          [item "cvr" "old.jpg" "image/jpeg" "cover-image";
           item "cvr" "new.jpg" "image/jpeg" ""].

(** No item is marked as the cover image; one image is named cover. *)
Definition by_name : ET.Element :=
  package [meta "author" "x"]
          [item "p1" "images/p1.png" "image/png" "";
           item "p2" "images/FrontCover.png" "image/png" "";
           item "cover-page" "cover.xhtml" "application/xhtml+xml" ""].

(** Images that are neither marked nor named as the cover. *)
Definition plain_images : ET.Element :=
  package [meta "author" "x"]
          [item "ch1" "ch1.xhtml" "application/xhtml+xml" "";
           item "p1" "images/p1.png" "image/png" "";
           item "p2" "images/p2.png" "image/png" ""].

(** A parser given by the documents it knows. *)
Fixpoint parse (docs : list (string * ET.Element)) (data : bytes)
  : outcome ET.Element :=
  match docs with
  | [] => Raise (Exn OtherError "syntax error: line 1, column 0")
  | (text, tree) :: rest =>
      if bytes_eqb data (b text) then Return tree else parse rest data
  end.

Definition docs : list (string * ET.Element) :=
  [("<container/>", container); ("<two_covers/>", two_covers);
   ("<chain/>", chain); ("<no_image/>", no_image);
   ("<bare_href/>", bare_href); ("<moved_href/>", moved_href);
   ("<shared_id/>", shared_id); ("<empty_href/>", empty_href);
   ("<empty_id/>", empty_id); ("<no_id/>", no_id);
   ("<lost_mark/>", lost_mark);
   ("<by_name/>", by_name); ("<plain_images/>", plain_images)].

(** An archive with the container, the package document [opf_text] and
    the other entries given. *)
Definition archive (opf_text : string) (others : list (string * outcome bytes))
  : ZipFile :=
  MkZip (("mimetype", Return (b "application/epub+zip"))
         :: ("META-INF/container.xml", Return (b "<container/>"))
         :: ("OEBPS/content.opf", Return (b opf_text))
         :: others).

(** The files of the samples stand for their archives. *)
Definition unzip (data : bytes) : outcome ZipFile :=
  if bytes_eqb data (b "no_image.epub") then
    Return (archive "<no_image/>" [("OEBPS/ch1.xhtml", Return (b "<html/>"))])
  else if bytes_eqb data (b "bare_href.epub") then
    Return (archive "<bare_href/>" [("OEBPS/cover", Return (b "not an image"))])
  else if bytes_eqb data (b "moved_href.epub") then
    Return (archive "<moved_href/>"
              [("OEBPS/ch1.xhtml", Return (b "<html/>"));
               ("OEBPS/Images/cover.jpg", Return (b "not an image"));
               ("cover.jpg", Return (b "another"))])
  else if bytes_eqb data (b "lost_href.epub") then
    Return (archive "<moved_href/>" [("OEBPS/ch1.xhtml", Return (b "<html/>"))])
  else Raise (Exn OtherError "File is not a zip file").

(** A toy image format: [width] zero bytes, a one byte, [height] zero
    bytes. *)
Definition toy_png (img : Image) : bytes :=
  (repeat Byte.x00 (Z.to_nat (img_width img))
   ++ Byte.x01 :: repeat Byte.x00 (Z.to_nat (img_height img)))%list.

Fixpoint toy_scan (data : bytes) (width : nat) : option (nat * nat) :=
  match data with
  | [] => None
  | Byte.x00 :: rest => toy_scan rest (S width)
  | Byte.x01 :: rest =>
      if forallb (fun c => Byte.eqb c Byte.x00) rest
      then Some (width, List.length rest) else None
  | _ :: _ => None
  end.

Definition toy_open (data : bytes) : outcome Image :=
  match toy_scan data 0 with
  | Some (w, h) => Return (MkImage "RGB" (Z.of_nat w) (Z.of_nat h) [Decoded data])
  | None => Raise (Exn OtherError "cannot identify image file")
  end.

(** The table of [mimetypes] for the types of the samples. *)
Definition extension_of (t : string) : option string :=
  if String.eqb t "image/jpeg" then Some ".jpg"
  else if String.eqb t "image/png" then Some ".png"
  else None.

(** [guess_type] knows no type for a name without an extension. *)
Definition guess_type (url : string) : option string :=
  let ext := lower (snd (posixpath.splitext url)) in
  if String.eqb ext ".jpg" then Some "image/jpeg"
  else if String.eqb ext ".png" then Some "image/png"
  else None.

(** Libraries for the samples: EbookLib rejects every file, Pillow has no
    [textsize] and measures the glyph as 6 by 11, [textwrap] has nothing
    to wrap in a short line, no file is a PDF. *)
Definition libs : Libs :=
  MkLibs (fun _ => Raise (Exn OtherError "Document is empty, line 1, column 1"))
         unzip
         (parse docs)
         toy_open
         toy_png
         (Raise (Exn AttributeError "'ImageDraw' object has no attribute 'textsize'"))
         (Return (0, 3, 6, 14)%Z)
         guess_type
         extension_of
         (fun text _ => text)
         string_of_list_byte
         (fun _ => Raise (Exn OtherError "EOF marker not found")).

(** A text of one line, 3600 characters long. *)
Definition long_text : string := posixpath.repeat_str 300 "lorem ipsum ".

(** The files on disk and an empty output. *)
Definition disk : State :=
  MkState [("no_image.epub", b "no_image.epub");
           ("bare_href.epub", b "bare_href.epub");
           ("moved_href.epub", b "moved_href.epub");
           ("lost_href.epub", b "lost_href.epub");
           ("notes.txt", b "Hello world");
           ("long.txt", b long_text);
           ("broken.pdf", b "%PDF-1.7")]
          [].

End Samples.

(** ** More notions the statements use *)

(** The test behind the lookup of line 38: the tag is "rootfile", in any
    namespace or in none. *)
Definition is_rootfile (d : ET.Element) : bool :=
  String.eqb (ET.tag d) "rootfile" || endswith (ET.tag d) "}rootfile".

(** The test of the list comprehension of line 115, for an item whose
    media type is a string. *)
Definition is_image_item (it : EpubItem) : bool :=
  match it_media_type it with
  | Some t => startswith t "image/"
  | None => false
  end.

(** The number of occurrences of a character. *)
Fixpoint count_char (c : ascii) (s : string) : nat :=
  match s with
  | EmptyString => 0
  | String d t => (if Ascii.eqb d c then 1 else 0) + count_char c t
  end.

(** The number of lines of a text: one for each newline, and one more for
    a last line that no newline ends. *)
Definition line_count (f : string) : nat :=
  count_char newline f
  + (if truthy f && negb (endswith f (String newline "")) then 1 else 0).

(** The last character of [s]. *)
Fixpoint last_char (s : string) : option ascii :=
  match s with
  | EmptyString => None
  | String c t =>
      match t with
      | EmptyString => Some c
      | String _ _ => last_char t
      end
  end.

(** ['\n'.join(lines)] *)
Definition join_lines (lines : list string) : string :=
  String.concat (String newline "") lines.

(** The id an [item] element brings to the manifest map: none when its id
    or href is missing or empty (line 74). *)
Definition item_id (item : ET.Element) : list string :=
  match ET.get (ET.attrib item) "id", ET.get (ET.attrib item) "href" with
  | Some i, Some h => if truthy i && truthy h then [i] else []
  | _, _ => []
  end.

Definition item_ids (items : list ET.Element) : list string :=
  flat_map item_id items.

(** The value an [item] element gives to the manifest map (line 75). *)
Definition item_entry (item : ET.Element) : entry :=
  (ET.get_d (ET.attrib item) "href" "",
   ET.get_d (ET.attrib item) "media-type" "",
   ET.get_d (ET.attrib item) "properties" "").

(** [item] is the last of the [item] elements of [tree] that bring the id
    [X] to the manifest map. *)
Definition last_item_with_id (tree : ET.Element) (X : string)
                             (item : ET.Element) : Prop :=
  exists items1 items2,
    manifest_items tree = (items1 ++ item :: items2)%list
    /\ item_id item = [X]
    /\ forall it, In it items2 -> item_id it <> [X].

(** The premise of C1 as it is stated: [m] is a [meta] element of [tree]
    named cover, and its content is the id of the manifest item [item],
    whose href is [href]. *)
Definition cover_meta_names (tree m item : ET.Element) (href : string) : Prop :=
  In m (metadata_metas tree)
  /\ names_cover m
  /\ exists X,
       ET.get (ET.attrib m) "content" = Some X
       /\ In item (manifest_items tree)
       /\ ET.get (ET.attrib item) "id" = Some X
       /\ ET.get (ET.attrib item) "href" = Some href.

(** Keeping the first occurrence of each id: [k] goes to the end of
    [seen] unless it is there. *)
Definition add_new (seen : list string) (k : string) : list string :=
  if existsb (String.eqb k) seen then seen else (seen ++ [k])%list.

(** The name of a written file is the name of [input_file] without its
    extension, followed by something. *)
Definition named_after (input_file : string) (written : string * bytes) : Prop :=
  exists ext, fst written = fst (posixpath.splitext input_file) ++ ext.

(** Between [s] and [s'] nothing was written, and lines were printed. *)
Definition no_write (s s' : State) : Prop :=
  st_fs s' = st_fs s /\ exists lines, st_out s' = (st_out s ++ lines)%list.

(** The same, with an extension that passes [ok]. *)
Definition named_with (ok : string -> Prop) (input_file : string)
                      (written : string * bytes) : Prop :=
  exists ext, ok ext /\ fst written = fst (posixpath.splitext input_file) ++ ext.

(** Between [s] and [s'] at most one file was written, named after
    [input_file] with an extension that passes [ok], and lines were
    printed. *)
Definition one_write (ok : string -> Prop) (input_file : string)
                     (s s' : State) : Prop :=
  (st_fs s' = st_fs s
   \/ exists w, named_with ok input_file w /\ st_fs s' = w :: st_fs s)
  /\ exists lines, st_out s' = (st_out s ++ lines)%list.

(** What [extract_epub_cover] does from state [s] once EbookLib has given
    the cover item [it] and its bytes [data]: it writes the cover from
    them and returns; the zip/OPF path takes over only when the writing
    raises. *)
Definition cover_from_item (L : Libs) (input_file : string) (it : EpubItem)
                           (data : bytes) (s : State) : outcome unit * State :=
  match save_item_cover L input_file it data
          (printed s ("Extracting cover photo from " ++ input_file ++ "..."))
  with
  | (Return _, s') => (Return tt, s')
  | (Raise e, s') =>
      zip_try L input_file
        (printed s' ("EbookLib extraction failed, falling back to zip parsing: "
                     ++ exn_str e))
  end.

(** ** More sample data *)

Module Samples2.
Import Samples.

(** A cover declared by [meta], with two more images. *)
Definition good : ET.Element :=
  package [meta "Cover" "cvr"]
          [item "p1" "images/p1.png" "image/png" "";
           item "cvr" "images/cover.jpg" "image/jpeg" "";
           item "ch1" "ch1.xhtml" "application/xhtml+xml" ""].

Definition docs : list (string * ET.Element) :=
  [("<container/>", container); ("<good/>", good)].

(** A toy image of 2 by 3 pixels. *)
Definition pixels : bytes :=
  [Byte.x00; Byte.x00; Byte.x01; Byte.x00; Byte.x00; Byte.x00].

Definition unzip (data : bytes) : outcome ZipFile :=
  if bytes_eqb data (b "good.epub") then
    Return (archive "<good/>"
              [("OEBPS/images/p1.png", Return (b "not an image"));
               ("OEBPS/images/cover.jpg", Return pixels)])
  else if bytes_eqb data (b "bare.zip") then
    Return (MkZip [("mimetype", Return (b "application/epub+zip"))])
  else if bytes_eqb data (b "bad_opf.epub") then
    Return (archive "<<<" [])
  else Raise (Exn OtherError "File is not a zip file").

(** The items EbookLib gives for "lib.epub": a page, an image, and an
    image named cover. *)
Definition lib_items : list EpubItem :=
  [MkItem (Some "ch1") (Some "ch1.xhtml") (Some "application/xhtml+xml")
          (Return (Some (b "<html/>"))) None None;
   MkItem (Some "img1") (Some "images/p1.png") (Some "image/png")
          (Return (Some (b "not an image"))) None None;
   MkItem (Some "img2") (Some "images/Cover.jpg") (Some "image/jpeg")
          (Return (Some pixels)) None None].

Definition read_epub (data : bytes) : outcome EpubBook :=
  if bytes_eqb data (b "lib.epub") then Return (MkBook (Return lib_items))
  else Raise (Exn OtherError "Document is empty, line 1, column 1").

(** A PDF whose first page renders to the toy image. *)
Definition render (data : bytes) : outcome bytes :=
  if bytes_eqb data (b "%PDF-1.7 one page") then Return pixels
  else Raise (Exn OtherError "EOF marker not found").

Definition libs : Libs :=
  MkLibs read_epub
         unzip
         (parse docs)
         toy_open
         toy_png
         (Return (6, 11)%Z)
         (Return (0, 3, 6, 14)%Z)
         guess_type
         extension_of
         (fun text _ => text)
         string_of_list_byte
         render.

(** An image item whose [get_content()] raises; its bytes are in
    [content], and [raw] holds other bytes.  And the libraries with a book
    made of it. *)
Definition stored_item : EpubItem :=
  MkItem (Some "img") (Some "images/a.png") (Some "image/png")
         (Raise (Exn OtherError "broken item"))
         (Some pixels) (Some (b "raw")).

Definition libs_stored : Libs :=
  MkLibs (fun _ => Return (MkBook (Return [stored_item])))
         unzip
         (parse docs)
         toy_open
         toy_png
         (Return (6, 11)%Z)
         (Return (0, 3, 6, 14)%Z)
         guess_type
         extension_of
         (fun text _ => text)
         string_of_list_byte
         render.

Definition disk : State :=
  MkState [("lib.epub", b "lib.epub");
           ("good.epub", b "good.epub");
           ("bare.zip.epub", b "bare.zip");
           ("bad_opf.epub", b "bad_opf.epub");
           ("empty.txt", []);
           ("notes.txt", b "Hello world");
           ("books/a.b/notes.txt", b "Hello world");
           ("scan.pdf", b "%PDF-1.7 one page")]
          [].

End Samples2.

(** * Properties *)

(** ** The monad *)

Lemma bind_return {A B} (m : M A) (k : A -> M B) s a s' :
  m s = (Return a, s') -> bind m k s = k a s'.
Proof. intros H. unfold bind. now rewrite H. Qed.

Lemma bind_raise {A B} (m : M A) (k : A -> M B) s e s' :
  m s = (Raise e, s') -> bind m k s = (Raise e, s').
Proof. intros H. unfold bind. now rewrite H. Qed.

Lemma try_except_return {A} (m : M A) h s a s' :
  m s = (Return a, s') -> try_except m h s = (Return a, s').
Proof. intros H. unfold try_except. now rewrite H. Qed.

Lemma try_except_raise {A} (m : M A) h s e s' :
  m s = (Raise e, s') -> try_except m h s = h e s'.
Proof. intros H. unfold try_except. now rewrite H. Qed.

Lemma print_eq line s : print line s = (Return tt, printed s line).
Proof. reflexivity. Qed.

(** ** The manifest map *)

Section DictFacts.
Variable V : Type.

Lemma lookup_set (d : PyDict.t V) k v k' :
  PyDict.lookup (PyDict.set d k v) k'
  = if String.eqb k k' then Some v else PyDict.lookup d k'.
Proof.
  induction d as [|[k0 v0] d IH]; simpl.
  - reflexivity.
  - destruct (String.eqb k0 k) eqn:E0; simpl.
    + apply String.eqb_eq in E0. subst k0.
      destruct (String.eqb k k'); reflexivity.
    + rewrite IH. destruct (String.eqb k0 k') eqn:E1; [|reflexivity].
      apply String.eqb_eq in E1. subst k'.
      rewrite String.eqb_sym, E0. reflexivity.
Qed.
End DictFacts.

(** What one item does to the lookup of a key. *)
Lemma lookup_manifest_add manifest item k :
  PyDict.lookup (manifest_add manifest item) k
  = match ET.get (ET.attrib item) "id", ET.get (ET.attrib item) "href" with
    | Some i, Some h =>
        if truthy i && truthy h && String.eqb i k
        then Some (h, ET.get_d (ET.attrib item) "media-type" "",
                   ET.get_d (ET.attrib item) "properties" "")
        else PyDict.lookup manifest k
    | _, _ => PyDict.lookup manifest k
    end.
Proof.
  unfold manifest_add.
  destruct (ET.get (ET.attrib item) "id") as [i|]; [|reflexivity].
  destruct (ET.get (ET.attrib item) "href") as [h|]; [|reflexivity].
  destruct (truthy i && truthy h); simpl; [|reflexivity].
  apply lookup_set.
Qed.

Lemma fold_manifest_add_app items1 items2 manifest :
  fold_left manifest_add (items1 ++ items2)%list manifest
  = fold_left manifest_add items2 (fold_left manifest_add items1 manifest).
Proof. apply fold_left_app. Qed.

(** The keys of the manifest map are never empty. *)
Lemma fold_manifest_keys items : forall manifest,
  (forall k v, PyDict.lookup manifest k = Some v -> truthy k = true) ->
  forall k v, PyDict.lookup (fold_left manifest_add items manifest) k = Some v ->
              truthy k = true.
Proof.
  induction items as [|item items IH]; intros manifest Hm k v; simpl.
  - apply Hm.
  - apply IH. clear k v. intros k v. rewrite lookup_manifest_add.
    destruct (ET.get (ET.attrib item) "id") as [i|]; [|apply Hm].
    destruct (ET.get (ET.attrib item) "href") as [h|]; [|apply Hm].
    destruct (truthy i && truthy h && String.eqb i k) eqn:E; [|apply Hm].
    intros _. apply andb_prop in E as [E Ek]. apply andb_prop in E as [Ei _].
    apply String.eqb_eq in Ek. now subst k.
Qed.

Lemma manifest_keys_truthy tree k v :
  PyDict.lookup (manifest_of tree) k = Some v -> truthy k = true.
Proof.
  unfold manifest_of, build_manifest. apply fold_manifest_keys.
  intros k0 v0 H. discriminate H.
Qed.

(** What [item_id] says about the attributes. *)
Lemma item_id_inv item X :
  item_id item = [X] ->
  exists h, ET.get (ET.attrib item) "id" = Some X
            /\ ET.get (ET.attrib item) "href" = Some h
            /\ truthy X = true /\ truthy h = true.
Proof.
  unfold item_id.
  destruct (ET.get (ET.attrib item) "id") as [i|]; [|discriminate].
  destruct (ET.get (ET.attrib item) "href") as [h|]; [|discriminate].
  destruct (truthy i) eqn:Ei; [|discriminate].
  destruct (truthy h) eqn:Eh; [|discriminate].
  simpl. intros H. inversion H. subst i. now exists h.
Qed.

Lemma lookup_manifest_add_item manifest item k :
  PyDict.lookup (manifest_add manifest item) k
  = if list_eq_dec string_dec (item_id item) [k]
    then Some (item_entry item)
    else PyDict.lookup manifest k.
Proof.
  rewrite lookup_manifest_add. unfold item_id, item_entry, ET.get_d.
  destruct (ET.get (ET.attrib item) "id") as [i|];
    [|now destruct (list_eq_dec string_dec [] [k])].
  destruct (ET.get (ET.attrib item) "href") as [h|];
    [|now destruct (list_eq_dec string_dec [] [k])].
  destruct (truthy i && truthy h); cbn [andb];
    [|now destruct (list_eq_dec string_dec [] [k])].
  destruct (String.eqb i k) eqn:E.
  - apply String.eqb_eq in E. subst i.
    destruct (list_eq_dec string_dec [k] [k]) as [_|Hne]; [reflexivity|].
    now elim Hne.
  - apply String.eqb_neq in E.
    destruct (list_eq_dec string_dec [i] [k]) as [Heq|_]; [|reflexivity].
    inversion Heq. contradiction.
Qed.

(** Items that do not bring the id [k] leave the map as it is at [k]. *)
Lemma fold_manifest_other items k : forall manifest,
  (forall it, In it items -> item_id it <> [k]) ->
  PyDict.lookup (fold_left manifest_add items manifest) k
  = PyDict.lookup manifest k.
Proof.
  induction items as [|item items IH]; intros manifest Hk; simpl.
  - reflexivity.
  - rewrite IH by (intros it Hit; apply Hk; now right).
    rewrite lookup_manifest_add_item.
    destruct (list_eq_dec string_dec (item_id item) [k]) as [Heq|_];
      [|reflexivity].
    exfalso. apply (Hk item); [now left|exact Heq].
Qed.

(** The manifest map gives, for an id, the href, media type and properties
    of the last [item] element that brings it. *)
Lemma manifest_lookup_last_item tree X item :
  last_item_with_id tree X item ->
  PyDict.lookup (manifest_of tree) X = Some (item_entry item).
Proof.
  intros (items1 & items2 & Hsplit & Hid & Hlast).
  unfold manifest_of, build_manifest. rewrite Hsplit, fold_manifest_add_app.
  simpl. rewrite fold_manifest_other by assumption.
  rewrite lookup_manifest_add_item.
  destruct (list_eq_dec string_dec (item_id item) [X]) as [_|Hne];
    [reflexivity|contradiction].
Qed.

(** An id that no [item] element brings is not in the map; an id of the
    map is brought by some [item] element. *)
Lemma manifest_lookup_none tree X :
  (forall it, In it (manifest_items tree) -> item_id it <> [X]) ->
  PyDict.lookup (manifest_of tree) X = None.
Proof.
  intros Hnone. unfold manifest_of, build_manifest.
  now rewrite fold_manifest_other by exact Hnone.
Qed.

Lemma fold_manifest_lookup_item items : forall manifest X e,
  PyDict.lookup (fold_left manifest_add items manifest) X = Some e ->
  (exists e', PyDict.lookup manifest X = Some e')
  \/ exists item, In item items /\ item_id item = [X].
Proof.
  induction items as [|item items IH]; intros manifest X e; simpl.
  - intros H. left. now exists e.
  - intros H. apply IH in H as [[e' H]|(it & Hin & Hid)].
    + rewrite lookup_manifest_add_item in H.
      destruct (list_eq_dec string_dec (item_id item) [X]) as [Heq|_].
      * right. exists item. split; [now left|exact Heq].
      * left. now exists e'.
    + right. exists it. split; [now right|exact Hid].
Qed.

Lemma manifest_lookup_item tree X e :
  PyDict.lookup (manifest_of tree) X = Some e ->
  exists item, In item (manifest_items tree) /\ item_id item = [X].
Proof.
  intros H. unfold manifest_of, build_manifest in H.
  apply fold_manifest_lookup_item in H as [[e' H]|H]; [discriminate H|exact H].
Qed.

(** Every entry of the manifest map comes from an [item] element of the
    manifest. *)
Lemma set_entries (V : Type) (d : PyDict.t V) k v k0 v0 :
  In (k, v) (PyDict.set d k0 v0) -> (k, v) = (k0, v0) \/ In (k, v) d.
Proof.
  induction d as [|[k1 v1] d IH]; simpl.
  - intros [H|[]]. left. now symmetry.
  - destruct (String.eqb k1 k0); simpl.
    + intros [H|H]; [left; now symmetry|right; now right].
    + intros [H|H]; [right; now left|].
      destruct (IH H) as [H'|H']; [now left|right; now right].
Qed.

Lemma fold_manifest_entries items : forall manifest k e,
  In (k, e) (fold_left manifest_add items manifest) ->
  In (k, e) manifest
  \/ exists item,
       In item items
       /\ ET.get (ET.attrib item) "id" = Some k
       /\ ET.get (ET.attrib item) "href" = Some (e_href e)
       /\ ET.get_d (ET.attrib item) "media-type" "" = e_mtype e
       /\ ET.get_d (ET.attrib item) "properties" "" = e_props e.
Proof.
  induction items as [|item items IH]; intros manifest k e; simpl.
  - now left.
  - intros H. apply IH in H as [Hin|(it & Hit & Hrest)].
    + unfold manifest_add in Hin.
      destruct (ET.get (ET.attrib item) "id") as [i|] eqn:Ei; [|now left].
      destruct (ET.get (ET.attrib item) "href") as [h|] eqn:Eh; [|now left].
      destruct (truthy i && truthy h); [|now left].
      apply set_entries in Hin as [Heq|Hold]; [|now left].
      inversion Heq. subst k e. right. exists item.
      split; [now left|]. repeat split; assumption.
    + right. exists it. split; [now right|exact Hrest].
Qed.

Lemma manifest_entry_from_item tree k e :
  In (k, e) (PyDict.items (manifest_of tree)) ->
  exists item,
    In item (manifest_items tree)
    /\ ET.get (ET.attrib item) "id" = Some k
    /\ ET.get (ET.attrib item) "href" = Some (e_href e)
    /\ ET.get_d (ET.attrib item) "media-type" "" = e_mtype e
    /\ ET.get_d (ET.attrib item) "properties" "" = e_props e.
Proof.
  intros H. unfold manifest_of, build_manifest in H.
  apply fold_manifest_entries in H as [[]|Hitem]. exact Hitem.
Qed.

(** A manifest without an [item] element of an image media type gives a
    map without an image entry. *)
Lemma no_image_element_no_image_entry tree :
  (forall item, In item (manifest_items tree) ->
     startswith (ET.get_d (ET.attrib item) "media-type" "") "image/" = false) ->
  none_with is_image (PyDict.items (manifest_of tree)).
Proof.
  intros Hnone [k e] Hin.
  apply manifest_entry_from_item in Hin as (item & Hitem & _ & _ & Hm & _).
  unfold is_image. simpl snd. rewrite <- Hm. now apply Hnone.
Qed.

(** ** The loops of the locator *)

Lemma cover_by_test_first test rootfile_dir items it :
  first_with test items it ->
  cover_by_test test rootfile_dir items
  = Some (resolve rootfile_dir (e_href (snd it))).
Proof.
  intros (l1 & l2 & -> & Hit & Hbefore).
  induction l1 as [|y l1 IH]; simpl.
  - now rewrite Hit.
  - rewrite (Hbefore y) by now left.
    apply IH. intros z Hz. apply Hbefore. now right.
Qed.

Lemma cover_by_test_none test rootfile_dir items :
  (forall it, In it items -> test it = false) ->
  cover_by_test test rootfile_dir items = None.
Proof.
  induction items as [|y items IH]; intros H; simpl.
  - reflexivity.
  - rewrite (H y) by now left. apply IH. intros z Hz. apply H. now right.
Qed.

(** A [meta] element that does not resolve is passed over. *)
Lemma cover_by_meta_skip tree rootfile_dir m rest :
  ~ resolves tree m ->
  cover_by_meta (manifest_of tree) rootfile_dir (m :: rest)
  = cover_by_meta (manifest_of tree) rootfile_dir rest.
Proof.
  intros Hm. simpl.
  destruct (String.eqb (lower (ET.get_d (ET.attrib m) "name" "")) "cover") eqn:En;
    [|reflexivity].
  destruct (ET.get (ET.attrib m) "content") as [X|] eqn:Ec; [|reflexivity].
  destruct (truthy X); [|reflexivity].
  destruct (PyDict.lookup (manifest_of tree) X) as [e|] eqn:El; [|reflexivity].
  exfalso. apply Hm. split.
  - now apply String.eqb_eq.
  - now exists X, e.
Qed.

Lemma cover_by_meta_none tree rootfile_dir metas :
  (forall m, In m metas -> ~ resolves tree m) ->
  cover_by_meta (manifest_of tree) rootfile_dir metas = None.
Proof.
  induction metas as [|m metas IH]; intros H.
  - reflexivity.
  - rewrite cover_by_meta_skip by (apply H; now left).
    apply IH. intros m' Hm'. apply H. now right.
Qed.

Lemma cover_by_meta_first tree rootfile_dir before m after X e :
  (forall m', In m' before -> ~ resolves tree m') ->
  names_cover m ->
  ET.get (ET.attrib m) "content" = Some X ->
  PyDict.lookup (manifest_of tree) X = Some e ->
  cover_by_meta (manifest_of tree) rootfile_dir (before ++ m :: after)
  = Some (resolve rootfile_dir (e_href e)).
Proof.
  intros Hbefore Hname Hcontent Hlookup.
  induction before as [|m' before IH].
  - simpl. unfold names_cover in Hname. rewrite Hname. simpl.
    rewrite Hcontent, (manifest_keys_truthy _ _ Hlookup), Hlookup.
    reflexivity.
  - change ((m' :: before) ++ m :: after)%list
      with (m' :: (before ++ m :: after))%list.
    rewrite cover_by_meta_skip by (apply Hbefore; now left).
    apply IH. intros m0 H0. apply Hbefore. now right.
Qed.

(** ** C1 *)

(** C1, as stated, fails in four ways.  (1) With two cover [meta] elements
    that both name a manifest item, the second one satisfies the premise
    of the claim, but the locator returns the href of the item the first
    one names.  (2) When the item named has an empty href, it is not in
    the manifest map: the locator goes on to the later steps and returns
    another item.  (3) When two items have the id named, the first of them
    satisfies the premise, but the locator returns the href of the last
    one that has a non-empty href.  (4) An item with an empty id is not in
    the map either. *)
Lemma cover_meta_claim_fails :
  (cover_meta_names Samples.two_covers (Samples.meta "cover" "b")
     (Samples.item "b" "b.jpg" "image/jpeg" "") "b.jpg"
   /\ _find_cover_href Samples.libs (Samples.b "<two_covers/>") "OEBPS"
      = Return (Some "OEBPS/a.jpg")
   /\ "OEBPS/a.jpg" <> resolve "OEBPS" "b.jpg")
  /\ (cover_meta_names Samples.empty_href (Samples.meta "cover" "cvr")
        (Samples.item "cvr" "" "image/jpeg" "") ""
      /\ _find_cover_href Samples.libs (Samples.b "<empty_href/>") "OEBPS"
         = Return (Some "OEBPS/p1.png")
      /\ "OEBPS/p1.png" <> resolve "OEBPS" "")
  /\ (cover_meta_names Samples.shared_id (Samples.meta "Cover" "cvr")
        (Samples.item "cvr" "old.jpg" "image/jpeg" "cover-image") "old.jpg"
      /\ _find_cover_href Samples.libs (Samples.b "<shared_id/>") "OEBPS"
         = Return (Some "OEBPS/new.jpg")
      /\ "OEBPS/new.jpg" <> resolve "OEBPS" "old.jpg")
  /\ (cover_meta_names Samples.empty_id (Samples.meta "cover" "")
        (Samples.item "" "a.jpg" "image/jpeg" "") "a.jpg"
      /\ _find_cover_href Samples.libs (Samples.b "<empty_id/>") "OEBPS"
         = Return (Some "OEBPS/p1.png")
      /\ "OEBPS/p1.png" <> resolve "OEBPS" "a.jpg").
Proof.
  unfold cover_meta_names.
  repeat split; try reflexivity; try (vm_compute; discriminate);
    try (vm_compute; tauto).
  - exists "b". repeat split; try reflexivity. vm_compute. tauto.
  - exists "cvr". repeat split; try reflexivity. vm_compute. tauto.
  - exists "cvr". repeat split; try reflexivity. vm_compute. tauto.
  - exists "". repeat split; try reflexivity. vm_compute. tauto.
Qed.

(** A cover [meta] whose content no [item] element brings to the map does
    not resolve. *)
Lemma names_no_item_not_resolves tree m :
  (forall Y it, names_cover m -> ET.get (ET.attrib m) "content" = Some Y ->
     In it (manifest_items tree) -> item_id it <> [Y]) ->
  ~ resolves tree m.
Proof.
  intros Hnone [Hname (X & e & Hc & Hl)].
  apply manifest_lookup_item in Hl as (item & Hin & Hid).
  exact (Hnone X item Hname Hc Hin Hid).
Qed.

(** C1, amended.  Take the [meta] elements in the order [findall] yields
    them, and call an [item] element usable when its id and its href are
    there and not empty.  The first cover [meta] whose content is the id
    of a usable item decides: the locator returns the href of the last
    usable item with that id, joined to the directory of the package
    document and normalized, whatever else the manifest holds. *)
Theorem find_cover_href_first_cover_meta :
  forall L opf_data rootfile_dir tree before m after X item href,
    et_fromstring L opf_data = Return tree ->
    metadata_metas tree = (before ++ m :: after)%list ->
    (forall m' Y it,
        In m' before -> names_cover m' ->
        ET.get (ET.attrib m') "content" = Some Y ->
        In it (manifest_items tree) -> item_id it <> [Y]) ->
    names_cover m ->
    ET.get (ET.attrib m) "content" = Some X ->
    last_item_with_id tree X item ->
    ET.get (ET.attrib item) "href" = Some href ->
    _find_cover_href L opf_data rootfile_dir
    = Return (Some (posixpath.normpath (posixpath.join rootfile_dir href))).
Proof.
  intros L opf_data rootfile_dir tree before m after X item href
         Hparse Hmetas Hbefore Hname Hcontent Hitem Hhref.
  pose proof (manifest_lookup_last_item Hitem) as Hlookup.
  assert (Hskip : forall m', In m' before -> ~ resolves tree m').
  { intros m' Hm'. apply names_no_item_not_resolves.
    intros Y it Hn Hc. now apply (Hbefore m' Y it). }
  unfold _find_cover_href. rewrite Hparse.
  unfold find_cover_in_tree. rewrite Hmetas.
  rewrite (cover_by_meta_first _ _ _ Hskip Hname Hcontent Hlookup).
  unfold item_entry, e_href, ET.get_d. cbn [fst]. now rewrite Hhref.
Qed.

Lemma find_cover_href_first_cover_meta_witness :
  _find_cover_href Samples.libs (Samples.b "<shared_id/>") "OEBPS/../OEBPS"
  = Return (Some "OEBPS/new.jpg").
Proof.
  apply (@find_cover_href_first_cover_meta Samples.libs
           (Samples.b "<shared_id/>") "OEBPS/../OEBPS" Samples.shared_id
           [Samples.meta "cover" "missing"] (Samples.meta "Cover" "cvr") []
           "cvr" (Samples.item "cvr" "new.jpg" "image/jpeg" "") "new.jpg").
  - reflexivity.
  - reflexivity.
  - intros m' Y it [Hm'|[]] _ Hc Hit. subst m'.
    inversion Hc. subst Y.
    destruct Hit as [Hit|[Hit|[Hit|[Hit|[]]]]]; subst it; discriminate.
  - reflexivity.
  - reflexivity.
  - exists [Samples.item "cvr" "old.jpg" "image/jpeg" "cover-image";
            Samples.item "x" "" "image/png" ""],
           [Samples.item "cvr" "" "image/jpeg" ""].
    split; [reflexivity|]. split; [reflexivity|].
    intros it [Hit|[]]. subst it. discriminate.
  - reflexivity.
Defined.

(** ** Running the tests of the statements *)

Lemma resolvesb_spec tree m : resolvesb tree m = true <-> resolves tree m.
Proof.
  unfold resolvesb, resolves, names_cover, PyDict.mem. split.
  - intros H. apply andb_prop in H as [Hn Hc]. split.
    + now apply String.eqb_eq.
    + destruct (ET.get (ET.attrib m) "content") as [X|]; [|discriminate].
      destruct (PyDict.lookup (manifest_of tree) X) as [e|] eqn:El; [|discriminate].
      now exists X, e.
  - intros [Hn (X & e & Hc & Hl)]. rewrite Hn, Hc, Hl. reflexivity.
Qed.

Lemma no_meta_resolvesb_spec tree :
  no_meta_resolvesb tree = true -> no_meta_resolves tree.
Proof.
  unfold no_meta_resolvesb, no_meta_resolves. intros H m Hm Hr.
  rewrite forallb_forall in H. specialize (H m Hm).
  apply resolvesb_spec in Hr. now rewrite Hr in H.
Qed.

Lemma none_with_forallb {A} (p : A -> bool) l :
  forallb (fun x => negb (p x)) l = true -> none_with p l.
Proof.
  intros H x Hx. rewrite forallb_forall in H. specialize (H x Hx).
  now destruct (p x).
Qed.

(** ** C2 *)

(** C2, as stated of the items of the manifest, fails in two ways.  (1) An
    item marked "cover-image" that has no id is not in the manifest map:
    the locator passes it over and returns the first image of the map.
    (2) When a later item repeats the id of the item marked "cover-image",
    the map holds the properties of the later one: the mark is lost, and
    the locator returns the href of the later item. *)
Lemma cover_image_item_claim_fails :
  (no_meta_resolves Samples.no_id
   /\ In (Samples.opf "item" [("href", "c.jpg"); ("media-type", "image/jpeg");
                              ("properties", "cover-image")] [])
         (manifest_items Samples.no_id)
   /\ _find_cover_href Samples.libs (Samples.b "<no_id/>") "OEBPS"
      = Return (Some "OEBPS/p1.png")
   /\ "OEBPS/p1.png" <> resolve "OEBPS" "c.jpg")
  /\ (no_meta_resolves Samples.lost_mark
      /\ In (Samples.item "cvr" "old.jpg" "image/jpeg" "cover-image")
            (manifest_items Samples.lost_mark)
      /\ _find_cover_href Samples.libs (Samples.b "<lost_mark/>") "OEBPS"
         = Return (Some "OEBPS/new.jpg")
      /\ "OEBPS/new.jpg" <> resolve "OEBPS" "old.jpg").
Proof.
  split.
  - split; [apply no_meta_resolvesb_spec; reflexivity|].
    split; [now left|]. split; [reflexivity|]. vm_compute. discriminate.
  - split; [apply no_meta_resolvesb_spec; reflexivity|].
    split; [now left|]. split; [reflexivity|]. vm_compute. discriminate.
Qed.

(** C2, amended: over the entries of the manifest map (one entry for each
    id that an [item] element with a non-empty id and href brings, in the
    order of [manifest.items()]).  When no cover [meta] element resolves
    to a manifest id, the locator returns the resolved href of the first
    entry whose properties contain "cover-image"; when there is none, that
    of the first image entry whose id or href contains "cover" in any
    case; when there is none either, that of the first image entry. *)
Theorem find_cover_href_priority_chain :
  forall L opf_data rootfile_dir tree,
    et_fromstring L opf_data = Return tree ->
    no_meta_resolves tree ->
    (forall it,
        first_with has_cover_image (PyDict.items (manifest_of tree)) it ->
        _find_cover_href L opf_data rootfile_dir
        = Return (Some (posixpath.normpath
                          (posixpath.join rootfile_dir (e_href (snd it))))))
    /\ (none_with has_cover_image (PyDict.items (manifest_of tree)) ->
        forall it,
          first_with is_cover_named (PyDict.items (manifest_of tree)) it ->
          _find_cover_href L opf_data rootfile_dir
          = Return (Some (posixpath.normpath
                            (posixpath.join rootfile_dir (e_href (snd it))))))
    /\ (none_with has_cover_image (PyDict.items (manifest_of tree)) ->
        none_with is_cover_named (PyDict.items (manifest_of tree)) ->
        forall it,
          first_with is_image (PyDict.items (manifest_of tree)) it ->
          _find_cover_href L opf_data rootfile_dir
          = Return (Some (posixpath.normpath
                            (posixpath.join rootfile_dir (e_href (snd it)))))).
Proof.
  intros L opf_data rootfile_dir tree Hparse Hmeta.
  unfold _find_cover_href. rewrite Hparse.
  unfold find_cover_in_tree.
  rewrite (cover_by_meta_none rootfile_dir (metadata_metas tree) Hmeta).
  repeat split.
  - intros it Hit. now rewrite (cover_by_test_first rootfile_dir Hit).
  - intros H2 it Hit.
    rewrite (cover_by_test_none has_cover_image rootfile_dir _ H2).
    now rewrite (cover_by_test_first rootfile_dir Hit).
  - intros H2 H3 it Hit.
    rewrite (cover_by_test_none has_cover_image rootfile_dir _ H2).
    rewrite (cover_by_test_none is_cover_named rootfile_dir _ H3).
    now rewrite (cover_by_test_first rootfile_dir Hit).
Qed.

Lemma find_cover_href_priority_chain_witness :
  _find_cover_href Samples.libs (Samples.b "<chain/>") "OEBPS"
  = Return (Some "OEBPS/images/p3.svg")
  /\ _find_cover_href Samples.libs (Samples.b "<by_name/>") "OEBPS"
     = Return (Some "OEBPS/images/FrontCover.png")
  /\ _find_cover_href Samples.libs (Samples.b "<plain_images/>") "OEBPS"
     = Return (Some "OEBPS/images/p1.png").
Proof.
  split; [|split].
  - apply (proj1 (@find_cover_href_priority_chain Samples.libs
                    (Samples.b "<chain/>") "OEBPS" Samples.chain
                    eq_refl (@no_meta_resolvesb_spec Samples.chain eq_refl))
                 ("p3", ("images/p3.svg", "image/svg+xml", "cover-image"))).
    exists [("p1", ("images/p1.png", "image/png", ""));
            ("p2", ("images/FrontCover.png", "image/png", ""))],
           [("ch1", ("ch1.xhtml", "application/xhtml+xml", ""))].
    split; [reflexivity|]. split; [reflexivity|].
    apply none_with_forallb. reflexivity.
  - apply (proj1 (proj2 (@find_cover_href_priority_chain Samples.libs
                           (Samples.b "<by_name/>") "OEBPS" Samples.by_name
                           eq_refl (@no_meta_resolvesb_spec Samples.by_name eq_refl)))
                 (none_with_forallb has_cover_image
                    (PyDict.items (manifest_of Samples.by_name)) eq_refl)
                 ("p2", ("images/FrontCover.png", "image/png", ""))).
    exists [("p1", ("images/p1.png", "image/png", ""))],
           [("cover-page", ("cover.xhtml", "application/xhtml+xml", ""))].
    split; [reflexivity|]. split; [reflexivity|].
    apply none_with_forallb. reflexivity.
  - apply (proj2 (proj2 (@find_cover_href_priority_chain Samples.libs
                           (Samples.b "<plain_images/>") "OEBPS"
                           Samples.plain_images
                           eq_refl
                           (@no_meta_resolvesb_spec Samples.plain_images eq_refl)))
                 (none_with_forallb has_cover_image
                    (PyDict.items (manifest_of Samples.plain_images)) eq_refl)
                 (none_with_forallb is_cover_named
                    (PyDict.items (manifest_of Samples.plain_images)) eq_refl)
                 ("p1", ("images/p1.png", "image/png", ""))).
    exists [("ch1", ("ch1.xhtml", "application/xhtml+xml", ""))],
           [("p2", ("images/p2.png", "image/png", ""))].
    split; [reflexivity|]. split; [reflexivity|].
    apply none_with_forallb. reflexivity.
Defined.

(** ** The two paths of extract_epub_cover *)

Ltac run :=
  cbv beta iota delta [bind lift ret raise try_except
                       print write_file read_file printed].

Section ScriptFacts.
Variable L : Libs.

(** The list comprehension of line 115 is a filter when every item has a
    media type, and raises when one has none. *)
Lemma image_items_filter items :
  (forall it, In it items -> it_media_type it <> None) ->
  image_items items = Return (filter is_image_item items).
Proof.
  induction items as [|it items IH]; intros Hall; [reflexivity|].
  cbn [image_items filter]. unfold is_image_item at 1.
  destruct (it_media_type it) as [t|] eqn:Et.
  - rewrite IH by (intros i Hi; apply Hall; now right).
    now destruct (startswith t "image/").
  - exfalso. apply (Hall it); [now left|exact Et].
Qed.

Lemma image_items_raises items it :
  In it items -> it_media_type it = None ->
  image_items items
  = Raise (Exn AttributeError "'NoneType' object has no attribute 'startswith'").
Proof.
  induction items as [|i items IH]; intros Hin Hnone; [destruct Hin|].
  cbn [image_items].
  destruct (it_media_type i) as [t|] eqn:Et; [|reflexivity].
  destruct Hin as [->|Hin]; [congruence|].
  now rewrite (IH Hin Hnone).
Qed.

(** Writing the cover of an EbookLib item returns, or raises before
    anything is written or printed. *)
Lemma save_item_cover_outcome input_file it data s :
  (exists s', save_item_cover L input_file it data s = (Return tt, s'))
  \/ (exists e, save_item_cover L input_file it data s = (Raise e, s)).
Proof.
  unfold save_item_cover. run.
  destruct (open_for_png L data) as [img|e].
  - left. eexists. reflexivity.
  - destruct (splitext_ext (item_name it)) as [ext|e1];
      [|right; eexists; reflexivity].
    destruct (truthy ext); [left; eexists; reflexivity|].
    destruct (mimetypes.guess_extension L (it_media_type it)) as [g|e2].
    + left. eexists. reflexivity.
    + right. eexists. reflexivity.
Qed.

(** The first [try] always hands control on, with [true] or [false]. *)
Lemma ebooklib_try_returns input_file s :
  exists r s', ebooklib_try L input_file s = (Return r, s').
Proof.
  unfold ebooklib_try, ebooklib_path. run.
  destruct (fs_lookup (st_fs s) input_file) as [file|]; [|eauto].
  destruct (epub_read_epub L file) as [book|e]; [|eauto].
  match goal with
  | |- context [image_items ?l] => destruct (image_items l) as [images|e]
  end; [|eauto].
  destruct (match find item_named_cover images with
            | Some it => Some it
            | None => hd_error images
            end) as [it|]; [|eauto].
  destruct (match it_get_content it with
            | Return d => d
            | Raise _ => bytes_or (it_content it) (it_raw it)
            end) as [d|]; [|eauto].
  destruct (save_item_cover_outcome input_file it d s) as [[s' Hs']|[e Hs']];
    rewrite Hs'; eauto.
Qed.

(** When the first [try] hands on [false], no file was written. *)
Lemma ebooklib_try_false_fs input_file s s1 :
  ebooklib_try L input_file s = (Return false, s1) -> st_fs s1 = st_fs s.
Proof.
  unfold ebooklib_try, ebooklib_path. run.
  destruct (fs_lookup (st_fs s) input_file) as [file|];
    [|intros H; now inversion H].
  destruct (epub_read_epub L file) as [book|e];
    [|intros H; now inversion H].
  match goal with
  | |- context [image_items ?l] => destruct (image_items l) as [images|e]
  end; [|intros H; now inversion H].
  destruct (match find item_named_cover images with
            | Some it => Some it
            | None => hd_error images
            end) as [it|]; [|intros H; now inversion H].
  destruct (match it_get_content it with
            | Return d => d
            | Raise _ => bytes_or (it_content it) (it_raw it)
            end) as [d|]; [|intros H; now inversion H].
  destruct (save_item_cover_outcome input_file it d s) as [[s' Hs']|[e Hs']];
    rewrite Hs'; intros H; now inversion H.
Qed.

(** Two ways into the zip/OPF path: [read_epub] raises, or the book has no
    item of an image media type. *)
Lemma ebooklib_try_read_fails input_file file e s :
  fs_lookup (st_fs s) input_file = Some file ->
  epub_read_epub L file = Raise e ->
  ebooklib_try L input_file s
  = (Return false,
     printed s ("EbookLib extraction failed, falling back to zip parsing: "
                ++ exn_str e)).
Proof.
  intros Hfile Hread. unfold ebooklib_try, ebooklib_path. run.
  now rewrite Hfile, Hread.
Qed.

Lemma ebooklib_try_no_image input_file file book s :
  fs_lookup (st_fs s) input_file = Some file ->
  epub_read_epub L file = Return book ->
  (forall items it, book_get_items book = Return items -> In it items ->
     exists t, it_media_type it = Some t /\ startswith t "image/" = false) ->
  ebooklib_try L input_file s = (Return false, s).
Proof.
  intros Hfile Hread Hnone. unfold ebooklib_try, ebooklib_path. run.
  rewrite Hfile, Hread.
  assert (Hempty : image_items match book_get_items book with
                               | Return l => l
                               | Raise _ => []
                               end = Return []).
  { destruct (book_get_items book) as [items|e0]; [|reflexivity].
    specialize (Hnone items).
    induction items as [|it items IH]; [reflexivity|]. cbn [image_items].
    destruct (Hnone it eq_refl (or_introl eq_refl)) as (t & Ht & Himg).
    rewrite Ht, Himg, IH; [reflexivity|].
    intros it' _ Hin. apply (Hnone it' eq_refl). now right. }
  rewrite Hempty. reflexivity.
Qed.

(** The second [try] always returns. *)
Lemma zip_try_returns input_file s :
  exists s', zip_try L input_file s = (Return tt, s').
Proof.
  unfold zip_try, try_except, zip_error.
  destruct (zip_path L input_file s) as [[[]|e] s']; eexists; reflexivity.
Qed.

(** [extract_epub_cover] never raises. *)
Lemma extract_epub_cover_returns input_file s :
  exists s', extract_epub_cover L input_file s = (Return tt, s').
Proof.
  unfold extract_epub_cover.
  rewrite (bind_return _ _ _ (print_eq _ s)).
  destruct (ebooklib_try_returns input_file
              (printed s ("Extracting cover photo from " ++ input_file ++ "...")))
    as (r & s1 & H1).
  rewrite (bind_return _ _ _ H1).
  destruct r.
  - eexists. reflexivity.
  - apply zip_try_returns.
Qed.

(** [extract_txt_cover] never raises. *)
Lemma extract_txt_cover_returns input_file max_lines max_chars s :
  exists s', extract_txt_cover L input_file max_lines max_chars s = (Return tt, s').
Proof.
  unfold extract_txt_cover.
  rewrite (bind_return _ _ _ (print_eq _ s)).
  unfold try_except.
  match goal with |- context [txt_body ?a ?b ?c ?d ?e] =>
    destruct (txt_body a b c d e) as [[[]|e0] s'] end;
    eexists; reflexivity.
Qed.

(** When the first [try] hands on [false], the function is its second
    [try]. *)
Lemma extract_epub_cover_fallback input_file s s1 :
  ebooklib_try L input_file
    (printed s ("Extracting cover photo from " ++ input_file ++ "..."))
  = (Return false, s1) ->
  extract_epub_cover L input_file s = zip_try L input_file s1.
Proof.
  intros H1. unfold extract_epub_cover.
  rewrite (bind_return _ _ _ (print_eq _ s)).
  now rewrite (bind_return _ _ _ H1).
Qed.

(** The second path up to the answer of the locator. *)
Lemma zip_path_located input_file s z rootfile_path opf_data r :
  package_at L s input_file z rootfile_path opf_data ->
  _find_cover_href L opf_data (posixpath.dirname rootfile_path) = Return r ->
  zip_path L input_file s
  = match r with
    | None => print "Cover image not found in EPUB manifest." s
    | Some cover_href =>
        if negb (truthy cover_href)
        then print "Cover image not found in EPUB manifest." s
        else
          bind (lift (read_cover z (replace "\"%char "/"%char cover_href)))
               (fun found =>
                  match found with
                  | None =>
                      print ("Could not read cover image "
                             ++ replace "\"%char "/"%char cover_href
                             ++ " from EPUB.")
                  | Some (image_data, cover_href) =>
                      save_zip_cover L input_file cover_href image_data
                  end) s
    end.
Proof.
  intros (file & Hfile & Hzip & Hroot & Hopf) Hfind.
  unfold zip_path.
  unfold bind at 1, read_file. rewrite Hfile.
  unfold bind at 1, lift at 1. rewrite Hzip.
  unfold bind at 1, lift at 1. rewrite Hroot.
  unfold bind at 1, lift at 1. rewrite Hopf.
  unfold bind at 1, lift at 1. rewrite Hfind.
  destruct r as [cover_href|]; [|reflexivity].
  destruct (truthy cover_href); reflexivity.
Qed.

End ScriptFacts.

(** ** The loop over the input files *)

Section LoopFacts.
Variable L : Libs.

Lemma main_loop_continues input_file rest s s' :
  process_file L input_file s = (Return tt, s') ->
  main_loop L (input_file :: rest) s = main_loop L rest s'.
Proof. intros H. simpl. now rewrite (bind_return _ _ _ H). Qed.

Lemma main_loop_aborts input_file rest s e s' :
  process_file L input_file s = (Raise e, s') ->
  main_loop L (input_file :: rest) s = (Raise e, s').
Proof. intros H. simpl. now rewrite (bind_raise _ _ _ H). Qed.

Lemma process_file_pdf input_file :
  lower (snd (posixpath.splitext input_file)) = ".pdf" ->
  process_file L input_file = pdf_branch L input_file.
Proof. intros H. unfold process_file. now rewrite H. Qed.

Lemma process_file_epub input_file :
  lower (snd (posixpath.splitext input_file)) = ".epub" ->
  process_file L input_file = extract_epub_cover L input_file.
Proof. intros H. unfold process_file. now rewrite H. Qed.

Lemma process_file_txt input_file :
  lower (snd (posixpath.splitext input_file)) = ".txt" ->
  process_file L input_file
  = extract_txt_cover L input_file default_max_lines default_max_chars.
Proof. intros H. unfold process_file. now rewrite H. Qed.

Lemma process_file_other input_file :
  lower (snd (posixpath.splitext input_file)) <> ".pdf" ->
  lower (snd (posixpath.splitext input_file)) <> ".epub" ->
  lower (snd (posixpath.splitext input_file)) <> ".txt" ->
  process_file L input_file
  = print ("Unsupported file type for " ++ input_file
           ++ "; supported: .pdf, .epub").
Proof.
  intros Hp He Ht. unfold process_file.
  apply String.eqb_neq in Hp, He, Ht. now rewrite Hp, He, Ht.
Qed.

End LoopFacts.

(** ** C3 *)

(** C3: take an EPUB that reaches the zip/OPF path (the first [try] hands
    on without having returned).  When no cover [meta] resolves, no item of
    the manifest has "cover-image" among its properties and no item has an
    image media type, the locator returns [None], [extract_epub_cover]
    prints "Cover image not found in EPUB manifest." and returns, the files
    on disk are what they were, and the loop goes on with the next input
    file. *)
Theorem no_image_item_no_cover :
  forall L input_file s s1 z rootfile_path opf_data tree,
    ebooklib_try L input_file
      (printed s ("Extracting cover photo from " ++ input_file ++ "..."))
    = (Return false, s1) ->
    package_at L s1 input_file z rootfile_path opf_data ->
    et_fromstring L opf_data = Return tree ->
    no_meta_resolves tree ->
    none_with has_cover_image (PyDict.items (manifest_of tree)) ->
    none_with is_image (PyDict.items (manifest_of tree)) ->
    _find_cover_href L opf_data (posixpath.dirname rootfile_path) = Return None
    /\ extract_epub_cover L input_file s
       = (Return tt, printed s1 "Cover image not found in EPUB manifest.")
    /\ st_fs (printed s1 "Cover image not found in EPUB manifest.") = st_fs s
    /\ (lower (snd (posixpath.splitext input_file)) = ".epub" ->
        forall rest,
          main_loop L (input_file :: rest) s
          = main_loop L rest
              (printed s1 "Cover image not found in EPUB manifest.")).
Proof.
  intros L input_file s s1 z rootfile_path opf_data tree
         Htry Hpkg Hparse Hmeta Hprops Himage.
  assert (Hnone : _find_cover_href L opf_data (posixpath.dirname rootfile_path)
                  = Return None).
  { unfold _find_cover_href. rewrite Hparse. unfold find_cover_in_tree.
    rewrite (cover_by_meta_none _ (metadata_metas tree) Hmeta).
    rewrite (cover_by_test_none has_cover_image _ _ Hprops).
    rewrite (cover_by_test_none is_image _ _ Himage).
    rewrite cover_by_test_none; [reflexivity|].
    intros it Hit. unfold is_cover_named. now rewrite (Himage it Hit). }
  assert (Hrun : extract_epub_cover L input_file s
                 = (Return tt, printed s1 "Cover image not found in EPUB manifest.")).
  { rewrite (extract_epub_cover_fallback _ _ _ Htry).
    unfold zip_try. apply try_except_return.
    now rewrite (zip_path_located Hpkg Hnone). }
  repeat split.
  - exact Hnone.
  - exact Hrun.
  - simpl. apply (ebooklib_try_false_fs _ _ _ Htry).
  - intros Hext rest. apply main_loop_continues.
    now rewrite (process_file_epub L _ Hext).
Qed.

Lemma no_image_item_no_cover_witness :
  extract_epub_cover Samples.libs "no_image.epub" Samples.disk
  = (Return tt,
     MkState (st_fs Samples.disk)
       ["Extracting cover photo from no_image.epub...";
        "EbookLib extraction failed, falling back to zip parsing: Document is empty, line 1, column 1";
        "Cover image not found in EPUB manifest."]).
Proof.
  refine (proj1 (proj2
    (@no_image_item_no_cover Samples.libs "no_image.epub" Samples.disk
       (MkState (st_fs Samples.disk)
          ["Extracting cover photo from no_image.epub...";
           "EbookLib extraction failed, falling back to zip parsing: Document is empty, line 1, column 1"])
       (Samples.archive "<no_image/>"
          [("OEBPS/ch1.xhtml", Return (Samples.b "<html/>"))])
       "OEBPS/content.opf" (Samples.b "<no_image/>") Samples.no_image
       eq_refl _ eq_refl _ _ _))).
  - exists (Samples.b "no_image.epub"). repeat split; reflexivity.
  - apply no_meta_resolvesb_spec. reflexivity.
  - apply none_with_forallb. reflexivity.
  - apply none_with_forallb. reflexivity.
Defined.

(** ** The answer of the locator is never the empty string *)

Lemma normpath_truthy path : truthy (posixpath.normpath path) = true.
Proof.
  unfold posixpath.normpath.
  destruct (String.eqb path ""); [reflexivity|].
  cbv zeta.
  match goal with
  | |- truthy (if truthy ?p then _ else _) = true =>
      destruct (truthy p) eqn:E; [exact E|reflexivity]
  end.
Qed.

Lemma cover_by_meta_truthy manifest rootfile_dir metas r :
  cover_by_meta manifest rootfile_dir metas = Some r -> truthy r = true.
Proof.
  induction metas as [|m metas IH]; simpl; [discriminate|].
  destruct (String.eqb (lower (ET.get_d (ET.attrib m) "name" "")) "cover");
    [|exact IH].
  destruct (ET.get (ET.attrib m) "content") as [X|]; [|exact IH].
  destruct (truthy X); [|exact IH].
  destruct (PyDict.lookup manifest X) as [e|]; [|exact IH].
  intros H. inversion H. apply normpath_truthy.
Qed.

Lemma cover_by_test_truthy test rootfile_dir items r :
  cover_by_test test rootfile_dir items = Some r -> truthy r = true.
Proof.
  induction items as [|it items IH]; simpl; [discriminate|].
  destruct (test it); [|exact IH].
  intros H. inversion H. apply normpath_truthy.
Qed.

Lemma find_cover_href_truthy L opf_data rootfile_dir cover_href :
  _find_cover_href L opf_data rootfile_dir = Return (Some cover_href) ->
  truthy cover_href = true.
Proof.
  unfold _find_cover_href.
  destruct (et_fromstring L opf_data) as [tree|e]; [|discriminate].
  unfold find_cover_in_tree.
  destruct (cover_by_meta (manifest_of tree) rootfile_dir (metadata_metas tree))
    as [r|] eqn:E1.
  { intros H. inversion H. subst r. exact (cover_by_meta_truthy _ _ _ E1). }
  destruct (cover_by_test has_cover_image rootfile_dir
              (PyDict.items (manifest_of tree))) as [r|] eqn:E2.
  { intros H. inversion H. subst r. exact (cover_by_test_truthy _ _ _ E2). }
  destruct (cover_by_test is_cover_named rootfile_dir
              (PyDict.items (manifest_of tree))) as [r|] eqn:E3.
  { intros H. inversion H. subst r. exact (cover_by_test_truthy _ _ _ E3). }
  intros H. inversion H as [E4]. exact (cover_by_test_truthy _ _ _ E4).
Qed.

(** ** The scan of the archive names *)

Lemma scan_names_first z cover_href names name :
  first_with (names_like cover_href) names name ->
  scan_names z cover_href names
  = match zipfile.read z name with
    | Return image_data => Return (Some (image_data, name))
    | Raise e => Raise e
    end.
Proof.
  intros (l1 & l2 & -> & Hname & Hbefore).
  unfold names_like in *.
  induction l1 as [|n l1 IH]; simpl.
  - now rewrite Hname.
  - rewrite (Hbefore n) by now left.
    apply IH. intros y Hy. apply Hbefore. now right.
Qed.

Lemma scan_names_none z cover_href names :
  none_with (names_like cover_href) names ->
  scan_names z cover_href names = Return None.
Proof.
  unfold none_with, names_like.
  induction names as [|n names IH]; intros H; simpl.
  - reflexivity.
  - rewrite (H n) by now left. apply IH. intros y Hy. apply H. now right.
Qed.

(** Without an entry of the exact name, reading raises [KeyError] and the
    scan takes over. *)
Lemma read_cover_scans z cover_href :
  zipfile.getinfo (zip_entries z) cover_href = None ->
  read_cover z cover_href = scan_names z cover_href (zipfile.namelist z).
Proof.
  intros H. unfold read_cover, zipfile.read. now rewrite H.
Qed.

(** Writing the cover found in the archive prints one line, which begins
    with "Done" or, when an exception reaches the handler, with "Error". *)
Lemma save_zip_cover_one_line L input_file cover_href image_data s :
  exists s' line,
    try_except (save_zip_cover L input_file cover_href image_data)
               (zip_error input_file) s = (Return tt, s')
    /\ st_out s' = (st_out s ++ [line])%list
    /\ (startswith line "Done" || startswith line "Error") = true.
Proof.
  unfold save_zip_cover, zip_error. run.
  destruct (open_for_png L image_data) as [img|e].
  - eexists. eexists. split; [reflexivity|]. split; reflexivity.
  - destruct (truthy (snd (posixpath.splitext cover_href))).
    + eexists. eexists. split; [reflexivity|]. split; reflexivity.
    + destruct (mimetypes.guess_extension L (mt_guess_type L cover_href))
        as [g|e'].
      * eexists. eexists. split; [reflexivity|]. split; reflexivity.
      * eexists. eexists. split; [reflexivity|]. split; reflexivity.
Qed.

(** ** C10 *)

(** C10: in the zip/OPF path, when the archive has no entry under the
    resolved cover href, [extract_epub_cover] goes through the names of the
    archive in order and carries on with the first one that ends, whatever
    the case, with the basename of the href: it reads that entry and writes
    the cover from it, and the line it prints is not the could-not-read
    message.  When no name ends so, it prints
    "Could not read cover image ... from EPUB.", returns, and the files on
    disk are what they were. *)
Theorem missing_cover_entry_scan :
  forall L input_file s s1 z rootfile_path opf_data href,
    ebooklib_try L input_file
      (printed s ("Extracting cover photo from " ++ input_file ++ "..."))
    = (Return false, s1) ->
    package_at L s1 input_file z rootfile_path opf_data ->
    _find_cover_href L opf_data (posixpath.dirname rootfile_path)
    = Return (Some href) ->
    zipfile.getinfo (zip_entries z) (replace "\"%char "/"%char href) = None ->
    (forall name,
        first_with (names_like (replace "\"%char "/"%char href))
                   (zipfile.namelist z) name ->
        extract_epub_cover L input_file s
        = try_except (bind (lift (zipfile.read z name))
                           (save_zip_cover L input_file name))
                     (zip_error input_file) s1
        /\ exists s' line,
             extract_epub_cover L input_file s = (Return tt, s')
             /\ st_out s' = (st_out s1 ++ [line])%list
             /\ line <> "Could not read cover image "
                        ++ replace "\"%char "/"%char href ++ " from EPUB.")
    /\ (none_with (names_like (replace "\"%char "/"%char href))
                  (zipfile.namelist z) ->
        extract_epub_cover L input_file s
        = (Return tt,
           printed s1 ("Could not read cover image "
                       ++ replace "\"%char "/"%char href ++ " from EPUB."))
        /\ st_fs (printed s1 ("Could not read cover image "
                              ++ replace "\"%char "/"%char href
                              ++ " from EPUB."))
           = st_fs s).
Proof.
  intros L input_file s s1 z rootfile_path opf_data href
         Htry Hpkg Hfind Hmissing.
  pose proof (find_cover_href_truthy _ _ _ Hfind) as Htruthy.
  pose proof (zip_path_located Hpkg Hfind) as Hpath.
  cbv beta iota in Hpath. rewrite Htruthy in Hpath.
  simpl negb in Hpath. cbv iota in Hpath.
  rewrite (extract_epub_cover_fallback _ _ _ Htry).
  unfold zip_try.
  split.
  - intros name Hname.
    assert (Hbody : zip_path L input_file s1
                    = bind (lift (zipfile.read z name))
                           (save_zip_cover L input_file name) s1).
    { rewrite Hpath. unfold bind, lift.
      rewrite (read_cover_scans _ _ Hmissing), (scan_names_first z Hname).
      destruct (zipfile.read z name); reflexivity. }
    split.
    + unfold try_except. now rewrite Hbody.
    + unfold try_except at 1. rewrite Hbody. unfold bind, lift.
      destruct (zipfile.read z name) as [image_data|e].
      * destruct (save_zip_cover_one_line L input_file name image_data s1)
          as (s' & line & Hrun & Hout & Hline).
        exists s', line. split; [exact Hrun|]. split; [exact Hout|].
        intros ->. discriminate Hline.
      * eexists. eexists. split; [reflexivity|]. split; [reflexivity|].
        discriminate.
  - intros Hnone. split.
    + apply try_except_return. rewrite Hpath. unfold bind, lift.
      now rewrite (read_cover_scans _ _ Hmissing), (scan_names_none z Hnone).
    + simpl. apply (ebooklib_try_false_fs _ _ _ Htry).
Qed.

Lemma missing_cover_entry_scan_witness :
  extract_epub_cover Samples.libs "moved_href.epub" Samples.disk
  = try_except
      (bind (lift (zipfile.read
                     (Samples.archive "<moved_href/>"
                        [("OEBPS/ch1.xhtml", Return (Samples.b "<html/>"));
                         ("OEBPS/Images/cover.jpg", Return (Samples.b "not an image"));
                         ("cover.jpg", Return (Samples.b "another"))])
                     "OEBPS/Images/cover.jpg"))
            (save_zip_cover Samples.libs "moved_href.epub" "OEBPS/Images/cover.jpg"))
      (zip_error "moved_href.epub")
      (MkState (st_fs Samples.disk)
         ["Extracting cover photo from moved_href.epub...";
          "EbookLib extraction failed, falling back to zip parsing: Document is empty, line 1, column 1"]).
Proof.
  refine (proj1 (proj1
    (@missing_cover_entry_scan Samples.libs "moved_href.epub" Samples.disk
       (MkState (st_fs Samples.disk)
          ["Extracting cover photo from moved_href.epub...";
           "EbookLib extraction failed, falling back to zip parsing: Document is empty, line 1, column 1"])
       (Samples.archive "<moved_href/>"
          [("OEBPS/ch1.xhtml", Return (Samples.b "<html/>"));
           ("OEBPS/Images/cover.jpg", Return (Samples.b "not an image"));
           ("cover.jpg", Return (Samples.b "another"))])
       "OEBPS/content.opf" (Samples.b "<moved_href/>") "OEBPS/img/Cover.JPG"
       eq_refl _ eq_refl eq_refl) "OEBPS/Images/cover.jpg" _)).
  - exists (Samples.b "moved_href.epub"). repeat split; reflexivity.
  - exists ["mimetype"; "META-INF/container.xml"; "OEBPS/content.opf";
            "OEBPS/ch1.xhtml"], ["cover.jpg"].
    split; [reflexivity|]. split; [reflexivity|].
    apply none_with_forallb. reflexivity.
Defined.

(** ** C4 *)

Section RawBytes.
Variable L : Libs.

(** The EbookLib path: bytes Pillow cannot open are written as they are,
    under the extension of the item's file name (or id), else the one
    guessed from its media type, else ".img". *)
Lemma save_item_cover_raw input_file it name t data e s :
  pil_open L data = Raise e ->
  item_name it = Some name ->
  it_media_type it = Some t ->
  save_item_cover L input_file it data s
  = (Return tt,
     let ext := if truthy (snd (posixpath.splitext name))
                then snd (posixpath.splitext name)
                else str_or (mt_extension_of L t) ".img" in
     let output_file := fst (posixpath.splitext input_file) ++ ext in
     MkState ((output_file, data) :: st_fs s)
             (st_out s ++ ["Done, your cover photo has been saved as "
                           ++ output_file ++ " (raw bytes)"])).
Proof.
  intros Hopen Hname Htype. unfold save_item_cover, open_for_png. run.
  rewrite Hopen, Hname, Htype. cbn [splitext_ext mimetypes.guess_extension].
  cbv zeta.
  destruct (truthy (snd (posixpath.splitext name))); reflexivity.
Qed.

(** The zip/OPF path, when the name of the cover has an extension: the
    bytes are written as they are under that extension. *)
Lemma save_zip_cover_raw input_file cover_href image_data e s :
  pil_open L image_data = Raise e ->
  truthy (snd (posixpath.splitext cover_href)) = true ->
  save_zip_cover L input_file cover_href image_data s
  = (Return tt,
     let output_file := fst (posixpath.splitext input_file)
                        ++ snd (posixpath.splitext cover_href) in
     MkState ((output_file, image_data) :: st_fs s)
             (st_out s ++ ["Done, your cover photo has been saved as "
                           ++ output_file ++ " (raw bytes)"])).
Proof.
  intros Hopen Hext. unfold save_zip_cover, open_for_png. run.
  rewrite Hopen, Hext. reflexivity.
Qed.

(** The zip/OPF path, when the name of the cover has no extension and
    [guess_type] knows no type for it: [guess_extension(None)] raises, and
    nothing is written. *)
Lemma save_zip_cover_bare_name input_file cover_href image_data e s :
  pil_open L image_data = Raise e ->
  snd (posixpath.splitext cover_href) = "" ->
  mt_guess_type L cover_href = None ->
  save_zip_cover L input_file cover_href image_data s
  = (Raise (Exn AttributeError "'NoneType' object has no attribute 'lower'"), s).
Proof.
  intros Hopen Hext Hguess. unfold save_zip_cover, open_for_png. run.
  rewrite Hopen, Hext, Hguess. reflexivity.
Qed.

End RawBytes.

(** C4 fails on the zip/OPF path: book "bare_href.epub" has the manifest
    item [id="cvr" href="cover" media-type="image/jpeg"], named by the
    cover [meta]; the archive has the entry "OEBPS/cover", so the bytes
    of the cover are obtained, and Pillow cannot open them.  The href has
    no extension, [guess_type] gives [None] for it, [guess_extension(None)]
    raises, the handler of the second [try] prints the error, and no file
    is written: the disk is what it was. *)
Theorem undecodable_cover_without_extension :
  read_cover (Samples.archive "<bare_href/>"
                [("OEBPS/cover", Return (Samples.b "not an image"))])
             "OEBPS/cover"
  = Return (Some (Samples.b "not an image", "OEBPS/cover"))
  /\ pil_open Samples.libs (Samples.b "not an image")
     = Raise (Exn OtherError "cannot identify image file")
  /\ extract_epub_cover Samples.libs "bare_href.epub" Samples.disk
     = (Return tt,
        MkState (st_fs Samples.disk)
          ["Extracting cover photo from bare_href.epub...";
           "EbookLib extraction failed, falling back to zip parsing: Document is empty, line 1, column 1";
           "Error extracting EPUB cover from bare_href.epub: 'NoneType' object has no attribute 'lower'"]).
Proof.
  repeat split; vm_compute; reflexivity.
Qed.

(** ** Strings: prefixes and lengths *)

Lemma append_assoc (a b c : string) : (a ++ b) ++ c = a ++ (b ++ c).
Proof. induction a as [|x a IH]; simpl; [reflexivity|now rewrite IH]. Qed.

Lemma append_nil_r (a : string) : a ++ "" = a.
Proof. induction a as [|x a IH]; simpl; [reflexivity|now rewrite IH]. Qed.

Lemma length_append (a b : string) :
  String.length (a ++ b) = (String.length a + String.length b)%nat.
Proof. induction a as [|x a IH]; simpl; [reflexivity|now rewrite IH]. Qed.

Lemma take_drop n s : take n s ++ drop n s = s.
Proof.
  revert s. induction n as [|n IH]; intros [|c s]; simpl; try reflexivity.
  now rewrite IH.
Qed.

Lemma length_take n s : (String.length (take n s) <= n)%nat.
Proof.
  revert s. induction n as [|n IH]; intros [|c s]; simpl; try lia.
  specialize (IH s). lia.
Qed.

Lemma rstrip_cons_keep p c s :
  p c = false -> rstrip p (String c s) = String c (rstrip p s).
Proof. intros H. simpl. rewrite H. now destruct (rstrip p s). Qed.

(** What [rstrip] leaves is a prefix. *)
Lemma rstrip_prefix p s : exists q, s = rstrip p s ++ q.
Proof.
  induction s as [|c s [q IH]]; simpl.
  - now exists "".
  - destruct (rstrip p s) as [|a r] eqn:E.
    + destruct (p c).
      * now exists (String c s).
      * exists q. simpl. now rewrite IH at 1.
    + exists q. simpl. now rewrite IH at 1.
Qed.

Lemma truthy_false s : truthy s = false -> s = "".
Proof.
  unfold truthy. intros H. apply negb_false_iff in H.
  now apply String.eqb_eq.
Qed.

(** ** Reading the lines of a TXT file *)

(** A line read is the start of the text left; it ends with its only
    newline, or it is the unfinished last line. *)
Lemma readline_spec f : forall line rest,
  readline f = (line, rest) ->
  f = line ++ rest
  /\ (line = rstrip (Ascii.eqb newline) line ++ String newline ""
      \/ (line = rstrip (Ascii.eqb newline) line /\ rest = "")).
Proof.
  induction f as [|c f IH]; intros line rest; simpl.
  - intros H. inversion H. split; [reflexivity|]. right. now split.
  - destruct (Ascii.eqb c newline) eqn:Ec.
    + intros H. inversion H. apply Ascii.eqb_eq in Ec. subst c.
      split; [reflexivity|]. left. reflexivity.
    + destruct (readline f) as [l r]. intros H. inversion H. subst line rest.
      destruct (IH l r eq_refl) as [Hf Hl].
      assert (Hc : Ascii.eqb newline c = false)
        by (now rewrite Ascii.eqb_sym).
      rewrite rstrip_cons_keep by exact Hc. split.
      * simpl. now rewrite Hf.
      * destruct Hl as [Hl|[Hl Hr]].
        -- left. simpl. now rewrite <- Hl.
        -- right. split; [now rewrite <- Hl|exact Hr].
Qed.

Lemma read_lines_eof max_lines : read_lines max_lines "" = [].
Proof. destruct max_lines; reflexivity. Qed.

Lemma read_lines_length max_lines : forall f,
  (List.length (read_lines max_lines f) <= max_lines)%nat.
Proof.
  induction max_lines as [|k IH]; intros f; simpl; [lia|].
  destruct (readline f) as [line rest].
  destruct (truthy line); simpl; [|lia].
  specialize (IH rest). lia.
Qed.

(** The lines read, joined by newlines, are the start of the text. *)
Lemma read_lines_prefix max_lines : forall f,
  exists rest,
    f = String.concat (String newline "") (read_lines max_lines f) ++ rest.
Proof.
  induction max_lines as [|k IH]; intros f.
  - now exists f.
  - simpl read_lines. destruct (readline f) as [line rest] eqn:E.
    destruct (readline_spec _ E) as [Hf Hline].
    destruct (truthy line) eqn:Et; simpl negb; cbv iota.
    + destruct (IH rest) as [rest' Hrest].
      destruct (read_lines k rest) as [|l2 ls] eqn:E2.
      * destruct Hline as [Hl|[Hl Hr]].
        -- exists (String newline "" ++ rest). simpl String.concat.
           rewrite Hf, Hl at 1. apply append_assoc.
        -- exists "". simpl String.concat.
           rewrite Hf, Hr, <- Hl. reflexivity.
      * destruct Hline as [Hl|[Hl Hr]].
        -- exists rest'.
           change (String.concat (String newline "")
                     (rstrip (Ascii.eqb newline) line :: l2 :: ls))
             with (rstrip (Ascii.eqb newline) line ++ String newline ""
                   ++ String.concat (String newline "") (l2 :: ls)).
           rewrite Hf, Hl at 1. rewrite Hrest at 1.
           now rewrite !append_assoc.
        -- subst rest. rewrite read_lines_eof in E2. discriminate E2.
    + exists f. reflexivity.
Qed.

(** A text longer than [max_chars] is cut to a prefix of at most
    [max_chars] characters followed by three dots. *)
Lemma cut_text_long max_chars lines :
  (max_chars < String.length (String.concat (String newline "") lines))%nat ->
  exists p q,
    cut_text max_chars lines = p ++ "..."
    /\ String.concat (String newline "") lines = p ++ q
    /\ (String.length p <= max_chars)%nat.
Proof.
  intros Hlong. unfold cut_text.
  apply Nat.ltb_lt in Hlong. rewrite Hlong.
  set (text := String.concat (String newline "") lines).
  destruct (rstrip_prefix isspace (take max_chars text)) as [q Hq].
  exists (rstrip isspace (take max_chars text)), (q ++ drop max_chars text).
  split; [reflexivity|]. split.
  - rewrite <- append_assoc, <- Hq. symmetry. apply take_drop.
  - pose proof (length_take max_chars text) as Hlen.
    rewrite Hq, length_append in Hlen. lia.
Qed.

(** A text of at most [max_chars] characters is kept as it is. *)
Lemma cut_text_short max_chars lines :
  (String.length (String.concat (String newline "") lines) <= max_chars)%nat ->
  cut_text max_chars lines = String.concat (String newline "") lines.
Proof.
  intros Hshort. unfold cut_text.
  apply Nat.ltb_ge in Hshort. now rewrite Hshort.
Qed.

(** ** C5 *)

Lemma count_char_append c a b :
  count_char c (a ++ b) = (count_char c a + count_char c b)%nat.
Proof. induction a as [|d a IH]; simpl; [reflexivity|]. rewrite IH. lia. Qed.

(** A line read, without its newline, holds no newline. *)
Lemma readline_no_newline f : forall line rest,
  readline f = (line, rest) ->
  count_char newline (rstrip (Ascii.eqb newline) line) = 0%nat.
Proof.
  induction f as [|c f IH]; intros line rest; simpl.
  - intros H. inversion H. reflexivity.
  - destruct (Ascii.eqb c newline) eqn:Ec.
    + intros H. inversion H. apply Ascii.eqb_eq in Ec. subst c. reflexivity.
    + destruct (readline f) as [l r]. intros H. inversion H. subst line rest.
      assert (Hc : Ascii.eqb newline c = false) by (now rewrite Ascii.eqb_sym).
      rewrite rstrip_cons_keep by exact Hc.
      cbn [count_char]. rewrite Ec. exact (IH l r eq_refl).
Qed.

Lemma read_lines_no_newline max_lines : forall f line,
  In line (read_lines max_lines f) -> count_char newline line = 0%nat.
Proof.
  induction max_lines as [|k IH]; intros f line; simpl; [tauto|].
  destruct (readline f) as [l rest] eqn:E.
  destruct (truthy l); simpl; [|tauto].
  intros [Hl|Hin].
  - subst line. exact (readline_no_newline _ E).
  - exact (IH rest line Hin).
Qed.

Lemma endswith_last_char s c :
  endswith s (String c "")
  = match last_char s with
    | Some d => Ascii.eqb d c
    | None => false
    end.
Proof.
  induction s as [|d t IH]; [reflexivity|].
  cbn [endswith last_char String.eqb]. rewrite IH.
  destruct t as [|d' t'].
  - simpl. now destruct (Ascii.eqb d c).
  - cbn [String.eqb]. now destruct (Ascii.eqb d c).
Qed.

Lemma last_char_append a b : b <> "" -> last_char (a ++ b) = last_char b.
Proof.
  intros Hb. induction a as [|c a IH]; [reflexivity|].
  cbn [append last_char]. rewrite IH.
  destruct (a ++ b) eqn:E; [|reflexivity].
  destruct a; [|discriminate E]. simpl in E. contradiction.
Qed.

Lemma last_char_no_newline s :
  count_char newline s = 0%nat ->
  match last_char s with
  | Some d => Ascii.eqb d newline
  | None => false
  end = false.
Proof.
  induction s as [|c t IH]; [reflexivity|].
  cbn [count_char last_char].
  destruct (Ascii.eqb c newline) eqn:Ec; [discriminate|].
  intros Ht. destruct t; [exact Ec|exact (IH Ht)].
Qed.

(** The first line and the rest make up the lines of a text. *)
Lemma line_count_readline f line rest :
  readline f = (line, rest) ->
  line <> "" ->
  line_count f = S (line_count rest).
Proof.
  intros E Hline.
  destruct (readline_spec _ E) as [Hf Hshape].
  pose proof (readline_no_newline _ E) as Hbody.
  set (body := rstrip (Ascii.eqb newline) line) in *.
  unfold line_count.
  assert (Hf_truthy : truthy f = true).
  { subst f. destruct line; [now elim Hline|reflexivity]. }
  rewrite Hf_truthy. cbn [andb].
  destruct Hshape as [Hl|[Hl Hr]].
  - rewrite Hf, Hl, !count_char_append, Hbody.
    change (count_char newline (String newline "")) with 1%nat.
    rewrite !endswith_last_char.
    destruct rest as [|c rest'].
    + rewrite append_nil_r.
      rewrite last_char_append by discriminate.
      cbn [last_char]. rewrite Ascii.eqb_refl. simpl. lia.
    + rewrite last_char_append by discriminate.
      cbn [truthy String.eqb negb andb]. lia.
  - subst rest. rewrite append_nil_r in Hf. subst f.
    rewrite Hl, Hbody, endswith_last_char, (last_char_no_newline _ Hbody).
    reflexivity.
Qed.

Lemma readline_empty f rest : readline f = ("", rest) -> f = "".
Proof.
  destruct f as [|c f]; [reflexivity|]. simpl.
  destruct (Ascii.eqb c newline); [discriminate|].
  destruct (readline f). discriminate.
Qed.

(** As many lines are read as the text has, up to [max_lines]. *)
Lemma read_lines_count max_lines : forall f,
  List.length (read_lines max_lines f) = Nat.min max_lines (line_count f).
Proof.
  induction max_lines as [|k IH]; intros f; [reflexivity|].
  simpl read_lines. destruct (readline f) as [line rest] eqn:E.
  destruct (truthy line) eqn:Et; cbn [negb].
  - assert (Hline : line <> "") by (intros ->; discriminate Et).
    rewrite (@line_count_readline f line rest E Hline). cbn [List.length].
    rewrite IH. reflexivity.
  - apply truthy_false in Et. subst line.
    rewrite (@readline_empty f rest E). reflexivity.
Qed.

(** What is left of the text after the lines read is nothing, or begins
    with the newline that ends the last of them. *)
Lemma read_lines_rest max_lines : forall f,
  max_lines <> 0%nat ->
  exists rest,
    f = join_lines (read_lines max_lines f) ++ rest
    /\ (rest = "" \/ exists r, rest = String newline r).
Proof.
  unfold join_lines.
  induction max_lines as [|k IH]; intros f Hpos; [now elim Hpos|].
  simpl read_lines. destruct (readline f) as [line rest] eqn:E.
  destruct (readline_spec _ E) as [Hf Hline].
  destruct (truthy line) eqn:Et; cbn [negb]; cbv iota.
  - destruct (read_lines k rest) as [|l2 ls] eqn:E2.
    + destruct Hline as [Hl|[Hl Hr]].
      * exists (String newline rest). split; [|right; now exists rest].
        simpl String.concat. rewrite Hf, Hl at 1.
        rewrite append_assoc. reflexivity.
      * exists "". split; [|now left]. simpl String.concat.
        rewrite Hf, Hr, <- Hl. reflexivity.
    + assert (Hk : k <> 0%nat) by (intros ->; discriminate E2).
      destruct (IH rest Hk) as (rest' & Hrest & Hshape).
      rewrite E2 in Hrest.
      destruct Hline as [Hl|[Hl Hr]].
      * exists rest'. split; [|exact Hshape].
        change (String.concat (String newline "")
                  (rstrip (Ascii.eqb newline) line :: l2 :: ls))
          with (rstrip (Ascii.eqb newline) line ++ String newline ""
                ++ String.concat (String newline "") (l2 :: ls)).
        rewrite Hf, Hl at 1. rewrite Hrest at 1.
        now rewrite !append_assoc.
      * subst rest. rewrite read_lines_eof in E2. discriminate E2.
  - apply truthy_false in Et. subst line.
    exists "". split; [|now left].
    now rewrite (@readline_empty f rest E).
Qed.

(** What [rstrip] takes off is made of the characters to strip, and what
    it leaves does not end with one. *)
Lemma rstrip_spec p s :
  exists w,
    s = rstrip p s ++ w
    /\ all_chars p w = true
    /\ match last_char (rstrip p s) with
       | Some c => p c = false
       | None => True
       end.
Proof.
  induction s as [|c s (w & Hs & Hw & Hlast)]; cbn [rstrip].
  - exists "". repeat split.
  - destruct (rstrip p s) as [|a r] eqn:E.
    + destruct (p c) eqn:Ec.
      * exists (String c s). simpl in Hs. subst w.
        repeat split. cbn [all_chars]. now rewrite Ec, Hw.
      * exists w. repeat split; [|exact Hw|exact Ec].
        simpl. simpl in Hs. now rewrite <- Hs.
    + exists w. repeat split; [|exact Hw|exact Hlast].
      change (String c (String a r) ++ w) with (String c (String a r ++ w)).
      now rewrite <- Hs.
Qed.

(** C5: for every TXT file, with the text the permissive decoder gives for
    its bytes.  The lines read are the first lines of the text, at most 20
    of them and all of them when the text has fewer: none holds a newline,
    joined with newlines they are the start of the text, and what follows
    them in the text is nothing or begins with the newline that ends the
    last of them.  A joined text of at most 2000 characters is rendered as
    it is; a longer one is cut to its first 2000 characters, the white
    space at the end of these is taken off, and "..." is put after
    them. *)
Theorem txt_text_is_bounded :
  forall L file,
    (List.length (read_lines default_max_lines (utf8_decode_ignore L file))
     <= 20)%nat
    /\ List.length (read_lines default_max_lines (utf8_decode_ignore L file))
       = Nat.min 20 (line_count (utf8_decode_ignore L file))
    /\ (forall line,
          In line (read_lines default_max_lines (utf8_decode_ignore L file)) ->
          count_char newline line = 0%nat)
    /\ (exists rest,
          utf8_decode_ignore L file
          = join_lines (read_lines default_max_lines (utf8_decode_ignore L file))
            ++ rest
          /\ (rest = "" \/ exists r, rest = String newline r))
    /\ ((String.length
           (join_lines (read_lines default_max_lines (utf8_decode_ignore L file)))
         <= 2000)%nat ->
        cut_text default_max_chars
          (read_lines default_max_lines (utf8_decode_ignore L file))
        = join_lines (read_lines default_max_lines (utf8_decode_ignore L file)))
    /\ ((2000 < String.length
                  (join_lines
                     (read_lines default_max_lines (utf8_decode_ignore L file))))%nat ->
        exists p w,
          cut_text default_max_chars
            (read_lines default_max_lines (utf8_decode_ignore L file))
          = p ++ "..."
          /\ take 2000
               (join_lines
                  (read_lines default_max_lines (utf8_decode_ignore L file)))
             = p ++ w
          /\ all_chars isspace w = true
          /\ match last_char p with
             | Some c => isspace c = false
             | None => True
             end
          /\ (String.length p <= 2000)%nat).
Proof.
  intros L file. repeat apply conj.
  - apply (read_lines_length default_max_lines).
  - apply (read_lines_count default_max_lines).
  - apply read_lines_no_newline.
  - apply read_lines_rest. discriminate.
  - intros Hshort. apply cut_text_short. exact Hshort.
  - intros Hlong. unfold cut_text, join_lines in *.
    apply Nat.ltb_lt in Hlong. unfold default_max_chars at 1. rewrite Hlong.
    set (text := String.concat (String newline "")
                   (read_lines default_max_lines (utf8_decode_ignore L file))).
    destruct (rstrip_spec isspace (take default_max_chars text))
      as (w & Hw & Hspace & Hlast).
    exists (rstrip isspace (take default_max_chars text)), w.
    split; [reflexivity|]. split; [exact Hw|].
    split; [exact Hspace|]. split; [exact Hlast|].
    pose proof (length_take default_max_chars text) as Hlen.
    rewrite Hw, length_append in Hlen. unfold default_max_chars in *. lia.
Qed.

Lemma txt_text_is_bounded_witness :
  exists p w,
    cut_text default_max_chars
      (read_lines default_max_lines
         (utf8_decode_ignore Samples.libs (Samples.b Samples.long_text)))
    = p ++ "..."
    /\ take 2000
         (join_lines
            (read_lines default_max_lines
               (utf8_decode_ignore Samples.libs (Samples.b Samples.long_text))))
       = p ++ w
    /\ all_chars isspace w = true
    /\ match last_char p with
       | Some c => isspace c = false
       | None => True
       end
    /\ (String.length p <= 2000)%nat.
Proof.
  apply (proj2 (proj2 (proj2 (proj2 (proj2
           (txt_text_is_bounded Samples.libs (Samples.b Samples.long_text))))))).
  apply Nat.ltb_lt. vm_compute. reflexivity.
Defined.

(** ** The canvas of a text cover *)

Lemma draw_lines_size lines : forall img margin y line_height,
  img_width (draw_lines img margin y line_height lines) = img_width img
  /\ img_height (draw_lines img margin y line_height lines) = img_height img.
Proof.
  induction lines as [|line lines IH]; intros img margin y line_height; simpl.
  - now split.
  - destruct (IH (draw_text img margin y line "black") margin
                 (y + line_height)%Z line_height) as [Hw Hh].
    now rewrite Hw, Hh.
Qed.

(** A text that is not empty has a first line. *)
Lemma read_lines_nonempty k f :
  f <> "" -> read_lines (S k) f <> [].
Proof.
  intros Hf. destruct f as [|c f]; [now elim Hf|].
  simpl. destruct (Ascii.eqb c newline).
  - simpl. discriminate.
  - destruct (readline f) as [line rest]. simpl. discriminate.
Qed.

Lemma canvas_height_nonneg char_h n :
  (0 <= char_h)%Z -> (0 <= canvas_height 40 char_h n)%Z.
Proof.
  intros Hh. unfold canvas_height.
  assert (0 <= (char_h + 6) * Z.max 1 (Z.of_nat n))%Z
    by (apply Z.mul_nonneg_nonneg; lia).
  lia.
Qed.

(** What [extract_txt_cover] does for a readable file whose text is not
    empty, when Pillow measures the glyph: it writes the canvas with the
    wrapped lines drawn on it. *)
Lemma extract_txt_cover_writes L input_file file s avg_char_w char_h :
  fs_lookup (st_fs s) input_file = Some file ->
  utf8_decode_ignore L file <> "" ->
  measure_glyph L = Return (avg_char_w, char_h) ->
  (0 <= char_h)%Z ->
  let text := cut_text default_max_chars
                (read_lines default_max_lines (utf8_decode_ignore L file)) in
  let lines := splitlines (textwrap_fill L text
                             (chars_per_line 1200 40 avg_char_w)) in
  let img := draw_lines
               (MkImage "RGBA" 1200
                  (canvas_height 40 char_h (List.length lines))
                  [Fill "white"])
               40 40 (char_h + 6) lines in
  let output_file := fst (posixpath.splitext input_file) ++ ".png" in
  extract_txt_cover L input_file default_max_lines default_max_chars s
  = (Return tt,
     MkState ((output_file, pil_png L img) :: st_fs s)
             ((st_out s ++ ["Creating text cover image from " ++ input_file ++ "..."])
              ++ ["Done, your text cover has been saved as " ++ output_file])).
Proof.
  intros Hfile Htext Hglyph Hh. cbv zeta.
  unfold extract_txt_cover.
  rewrite (bind_return _ _ _ (print_eq _ s)).
  apply try_except_return.
  unfold txt_body. unfold bind at 1, read_file.
  change (st_fs (printed s _)) with (st_fs s). rewrite Hfile.
  pose proof (@read_lines_nonempty 19 _ Htext) as Hlines.
  change (S 19) with default_max_lines in Hlines.
  destruct (read_lines default_max_lines (utf8_decode_ignore L file))
    as [|l0 ls] eqn:El; [now elim Hlines|].
  unfold bind at 1, lift at 1. rewrite Hglyph.
  unfold bind at 1, lift at 1, Image_new.
  pose proof (canvas_height_nonneg
                (List.length
                   (splitlines
                      (textwrap_fill L (cut_text default_max_chars (l0 :: ls))
                         (chars_per_line 1200 40 avg_char_w)))) Hh) as Hpos.
  apply Z.ltb_ge in Hpos. rewrite Hpos.
  reflexivity.
Qed.

(** ** C6 *)

(** C6: for every readable TXT file whose decoded text is not empty, when
    Pillow measures the glyph 'A' as [avg_char_w] by [char_h] with
    [0 <= char_h], the image written next to the file is 1200 pixels wide
    and [2*40 + (char_h + 6) * max(1, n)] high, [n] being the number of
    lines of the text wrapped to [max(40, (1200 - 2*40) div w)] characters,
    with [w] the measured width, or 7 when that is 0; and a PNG codec that
    keeps the size gives these dimensions back from the written bytes. *)
Theorem txt_cover_size :
  forall L input_file file s avg_char_w char_h,
    fs_lookup (st_fs s) input_file = Some file ->
    utf8_decode_ignore L file <> "" ->
    measure_glyph L = Return (avg_char_w, char_h) ->
    (0 <= char_h)%Z ->
    (forall img, (0 <= img_width img)%Z -> (0 <= img_height img)%Z ->
       exists img', pil_open L (pil_png L img) = Return img'
                    /\ img_width img' = img_width img
                    /\ img_height img' = img_height img) ->
    let text := cut_text 2000 (read_lines 20 (utf8_decode_ignore L file)) in
    let per_line :=
      Z.max 40 ((1200 - 2 * 40)
                / (if (avg_char_w =? 0)%Z then 7 else avg_char_w))%Z in
    let n := List.length (splitlines (textwrap_fill L text per_line)) in
    let height := (2 * 40 + (char_h + 6) * Z.max 1 (Z.of_nat n))%Z in
    exists s' img img',
      extract_txt_cover L input_file default_max_lines default_max_chars s
      = (Return tt, s')
      /\ st_fs s' = (fst (posixpath.splitext input_file) ++ ".png", pil_png L img)
                    :: st_fs s
      /\ img_width img = 1200%Z /\ img_height img = height
      /\ pil_open L (pil_png L img) = Return img'
      /\ img_width img' = 1200%Z /\ img_height img' = height.
Proof.
  intros L input_file file s avg_char_w char_h
         Hfile Htext Hglyph Hh Hcodec text per_line n height.
  pose proof (extract_txt_cover_writes L input_file s Hfile Htext Hglyph Hh)
    as Hrun.
  cbv zeta in Hrun.
  match type of Hrun with
  | _ = (_, MkState ((_, pil_png L ?i) :: _) _) => set (img := i) in *
  end.
  assert (Hsize : img_width img = 1200%Z /\ img_height img = height).
  { subst img. destruct (draw_lines_size
      (splitlines (textwrap_fill L
         (cut_text default_max_chars
            (read_lines default_max_lines (utf8_decode_ignore L file)))
         (chars_per_line 1200 40 avg_char_w)))
      (MkImage "RGBA" 1200
         (canvas_height 40 char_h
            (List.length (splitlines (textwrap_fill L
               (cut_text default_max_chars
                  (read_lines default_max_lines (utf8_decode_ignore L file)))
               (chars_per_line 1200 40 avg_char_w)))))
         [Fill "white"]) 40 40 (char_h + 6)%Z) as [Hw Hht].
    rewrite Hw, Hht. cbn [img_width img_height].
    split; [reflexivity|].
    unfold canvas_height, height, n, per_line, text, chars_per_line.
    unfold default_max_chars, default_max_lines. cbv zeta. lia. }
  destruct Hsize as [Hw Hht].
  destruct (Hcodec img) as (img' & Hopen & Hw' & Hh').
  { rewrite Hw. lia. }
  { rewrite Hht. unfold height.
    assert (0 <= (char_h + 6) * Z.max 1 (Z.of_nat n))%Z
      by (apply Z.mul_nonneg_nonneg; lia).
    lia. }
  eexists. exists img, img'.
  split; [exact Hrun|].
  split; [reflexivity|].
  split; [exact Hw|]. split; [exact Hht|].
  split; [exact Hopen|].
  split; [now rewrite Hw'|now rewrite Hh'].
Qed.

(** The toy image format of the samples keeps the size. *)
Lemma toy_scan_png a b : forall k,
  Samples.toy_scan (repeat Byte.x00 a ++ Byte.x01 :: repeat Byte.x00 b)%list k
  = Some ((k + a)%nat, b).
Proof.
  induction a as [|a IH]; intros k; simpl.
  - assert (Hall : forallb (fun c => Byte.eqb c Byte.x00) (repeat Byte.x00 b) = true).
    { induction b as [|b IHb]; simpl; [reflexivity|exact IHb]. }
    rewrite Hall, repeat_length. f_equal. f_equal. lia.
  - rewrite IH. f_equal. f_equal. lia.
Qed.

Lemma toy_codec_keeps_size img :
  (0 <= img_width img)%Z -> (0 <= img_height img)%Z ->
  exists img',
    pil_open Samples.libs (pil_png Samples.libs img) = Return img'
    /\ img_width img' = img_width img
    /\ img_height img' = img_height img.
Proof.
  intros Hw Hh. simpl pil_open. simpl pil_png.
  unfold Samples.toy_open, Samples.toy_png. rewrite toy_scan_png.
  eexists. split; [reflexivity|]. simpl img_width. simpl img_height.
  split; apply Z2Nat.id; assumption.
Qed.

Lemma txt_cover_size_witness :
  exists s' img img',
    extract_txt_cover Samples.libs "notes.txt"
      default_max_lines default_max_chars Samples.disk = (Return tt, s')
    /\ st_fs s' = ("notes.png", pil_png Samples.libs img) :: st_fs Samples.disk
    /\ img_width img = 1200%Z /\ img_height img = 97%Z
    /\ pil_open Samples.libs (pil_png Samples.libs img) = Return img'
    /\ img_width img' = 1200%Z /\ img_height img' = 97%Z.
Proof.
  assert (Htext : utf8_decode_ignore Samples.libs (Samples.b "Hello world") <> "")
    by (vm_compute; discriminate).
  assert (Hh : (0 <= 11)%Z) by lia.
  exact (@txt_cover_size Samples.libs "notes.txt" (Samples.b "Hello world")
           Samples.disk 6%Z 11%Z eq_refl Htext eq_refl Hh toy_codec_keeps_size).
Defined.

(** ** C7 *)

Lemma same_run_refl r : same_run r r.
Proof. destruct r; simpl; auto. Qed.

Lemma alike_finish p1 p2 :
  alike p1 p2 -> same_run (argparse.finish p1) (argparse.finish p2).
Proof.
  intros [Hf He]. unfold argparse.finish. rewrite Hf, He.
  destruct (argparse.seen_files p2); simpl; auto.
  destruct (argparse.extras p2); simpl; auto.
Qed.

Lemma alike_consume_positionals p1 p2 run :
  alike p1 p2 ->
  alike (argparse.consume_positionals p1 run)
        (argparse.consume_positionals p2 run).
Proof.
  intros [Hf He]. unfold argparse.consume_positionals, alike.
  destruct run; [now split|]. rewrite Hf, He.
  destruct (argparse.seen_files p2); simpl; now split.
Qed.

Lemma alike_consume_with_dashes p1 p2 run rest :
  alike p1 p2 ->
  alike (argparse.consume_with_dashes p1 run rest)
        (argparse.consume_with_dashes p2 run rest).
Proof.
  intros [Hf He]. unfold argparse.consume_with_dashes, alike.
  rewrite Hf, He.
  destruct (argparse.seen_files p2); simpl; [now split|].
  destruct (run ++ rest)%list; simpl; now split.
Qed.

Lemma alike_store_type_value p1 p2 value :
  alike p1 p2 ->
  match argparse.store_type_value p1 value,
        argparse.store_type_value p2 value with
  | Some q1, Some q2 => alike q1 q2
  | None, None => True
  | _, _ => False
  end.
Proof.
  intros [Hf He]. unfold argparse.store_type_value, alike.
  destruct (String.eqb value "--"); simpl; [now split|].
  destruct (argparse.choice_of value); simpl; [now split|exact I].
Qed.

(** The value of [type] has no part in the parsing of what follows. *)
Lemma consume_alike n : forall toks p1 p2 run,
  (List.length toks <= n)%nat ->
  alike p1 p2 ->
  same_run (argparse.consume toks p1 run) (argparse.consume toks p2 run).
Proof.
  induction n as [|n IH]; intros toks p1 p2 run Hlen Hp.
  - destruct toks; [|simpl in Hlen; lia].
    simpl. now apply alike_finish, alike_consume_positionals.
  - destruct toks as [|t rest].
    + simpl. now apply alike_finish, alike_consume_positionals.
    + simpl in Hlen. destruct t as [arg|a option_string explicit_arg arg|].
      * simpl. apply IH; [lia|exact Hp].
      * cbn [argparse.consume].
        pose proof (alike_consume_positionals run Hp) as Hq.
        destruct a as [[|]|].
        -- destruct explicit_arg; [|exact I].
           destruct (String.eqb option_string "-h"); apply same_run_refl.
        -- destruct explicit_arg as [value|].
           ++ pose proof (alike_store_type_value value Hq) as Hs.
              destruct (argparse.store_type_value
                          (argparse.consume_positionals p1 run) value);
                destruct (argparse.store_type_value
                            (argparse.consume_positionals p2 run) value);
                try contradiction; [|exact I].
              apply IH; [lia|exact Hs].
           ++ destruct rest as [|[value| |] rest']; try exact I.
              pose proof (alike_store_type_value value Hq) as Hs.
              destruct (argparse.store_type_value
                          (argparse.consume_positionals p1 run) value);
                destruct (argparse.store_type_value
                            (argparse.consume_positionals p2 run) value);
                try contradiction; [|exact I].
              apply IH; [simpl in Hlen; lia|exact Hs].
        -- apply IH; [lia|].
           destruct Hq as [Hf He]. split; simpl; [exact Hf|now rewrite He].
      * simpl. now apply alike_finish, alike_consume_with_dashes.
Qed.

(** The run depends on the input files only. *)
Lemma script_same_run L help_lines argv1 argv2 s :
  same_run (argparse.parse_args argv1) (argparse.parse_args argv2) ->
  script L help_lines argv1 s = script L help_lines argv2 s.
Proof.
  unfold script, main.
  destruct (argparse.parse_args argv1) as [a1| |];
    destruct (argparse.parse_args argv2) as [a2| |]; simpl;
    try contradiction; try reflexivity.
  now intros ->.
Qed.

(** Strings argparse takes for arguments, before any [--]. *)
Lemma tokens_arguments files : forall rest,
  (forall f, In f files ->
     f <> "--" /\ argparse._parse_optional f = argparse.positional) ->
  argparse.tokens (files ++ rest)
  = option_map (app (map argparse.tok_arg files)) (argparse.tokens rest).
Proof.
  induction files as [|f files IH]; intros rest Hplain.
  - simpl. now destruct (argparse.tokens rest).
  - destruct (Hplain f (or_introl eq_refl)) as [Hdashes Hpos].
    cbn [app argparse.tokens].
    apply String.eqb_neq in Hdashes. rewrite Hdashes, Hpos.
    rewrite IH by (intros g Hg; apply Hplain; now right).
    now destruct (argparse.tokens rest).
Qed.

Lemma consume_arguments files : forall toks p run,
  argparse.consume (map argparse.tok_arg files ++ toks) p run
  = argparse.consume toks p (run ++ files).
Proof.
  induction files as [|f files IH]; intros toks p run.
  - simpl. now rewrite app_nil_r.
  - cbn [map app argparse.consume]. rewrite IH.
    now rewrite <- app_assoc.
Qed.

(** The parsing of input files alone, and of input files followed by
    tokens. *)
Lemma parse_args_arguments files rest toks :
  (forall f, In f files ->
     f <> "--" /\ argparse._parse_optional f = argparse.positional) ->
  argparse.tokens rest = Some toks ->
  argparse.parse_args (files ++ rest)
  = argparse.consume toks (argparse.MkProgress None type_absent []) files.
Proof.
  intros Hplain Hrest. unfold argparse.parse_args.
  rewrite (tokens_arguments files rest Hplain), Hrest.
  cbn [option_map]. now rewrite consume_arguments.
Qed.

Lemma parse_args_files files :
  (forall f, In f files ->
     f <> "--" /\ argparse._parse_optional f = argparse.positional) ->
  argparse.parse_args files
  = argparse.finish
      (argparse.consume_positionals
         (argparse.MkProgress None type_absent []) files).
Proof.
  intros Hplain.
  pose proof (@parse_args_arguments files [] [] Hplain eq_refl) as H.
  now rewrite app_nil_r in H.
Qed.

Lemma store_choice p c :
  argparse.store_type_value p (choice_name c)
  = Some (argparse.MkProgress (argparse.seen_files p) (type_chosen c)
                              (argparse.extras p)).
Proof. destruct c; reflexivity. Qed.

Lemma main_loop_one L input_file s :
  main_loop L [input_file] s = process_file L input_file s.
Proof.
  simpl. unfold bind, ret.
  now destruct (process_file L input_file s) as [[[]|e] s'].
Qed.

(** C7, as stated, fails: argparse takes the input files in one run of
    arguments.  (1) With [--type pdf] between two input files the command
    line is rejected: the script exits with status 2 and processes
    nothing, while without the flag it processes both files and writes
    "notes.png".  (2) After [--] the flag and its value are taken for two
    more input files. *)
Lemma type_flag_claim_fails :
  (script Samples.libs [] ["notes.doc"; "--type"; "pdf"; "notes.txt"] Samples.disk
   = (Exited 2, Samples.disk)
   /\ fst (script Samples.libs [] ["notes.doc"; "notes.txt"] Samples.disk)
      = Ended (Return tt)
   /\ st_out (snd (script Samples.libs [] ["notes.doc"; "notes.txt"] Samples.disk))
      = ["Unsupported file type for notes.doc; supported: .pdf, .epub";
         "Creating text cover image from notes.txt...";
         "Done, your text cover has been saved as notes.png"]
   /\ fs_lookup
        (st_fs (snd (script Samples.libs [] ["notes.doc"; "notes.txt"]
                       Samples.disk)))
        "notes.png" <> None)
  /\ (script Samples.libs [] ["notes.doc"; "--"] Samples.disk
      = (Ended (Return tt),
         MkState (st_fs Samples.disk)
           ["Unsupported file type for notes.doc; supported: .pdf, .epub"])
      /\ script Samples.libs [] ["notes.doc"; "--"; "--type"; "pdf"] Samples.disk
         = (Ended (Return tt),
            MkState (st_fs Samples.disk)
              ["Unsupported file type for notes.doc; supported: .pdf, .epub";
               "Unsupported file type for --type; supported: .pdf, .epub";
               "Unsupported file type for pdf; supported: .pdf, .epub"])).
Proof.
  repeat split; try (vm_compute; reflexivity).
  vm_compute. discriminate.
Qed.

(** C7, amended.  For every value among pdf, epub and txt: [--type value]
    (or [--type=value]) put before the rest of the command line changes
    nothing in the run, whatever the rest is; put after the input files
    it changes nothing either, when argparse takes none of them for an
    option or for [--]; and such input files alone are processed in their
    order.  The flag's value is never consulted: with any value, the file
    goes to the PDF, EPUB or TXT routine by its lower-cased extension
    alone. *)
Theorem type_flag_is_ignored :
  forall L help_lines c s,
    (forall rest,
        script L help_lines ("--type" :: choice_name c :: rest) s
        = script L help_lines rest s
        /\ script L help_lines (("--type=" ++ choice_name c) :: rest) s
           = script L help_lines rest s)
    /\ (forall files,
          (forall f, In f files ->
             f <> "--" /\ argparse._parse_optional f = argparse.positional) ->
          script L help_lines (files ++ ["--type"; choice_name c]) s
          = script L help_lines files s
          /\ script L help_lines (files ++ ["--type=" ++ choice_name c]) s
             = script L help_lines files s
          /\ (files <> [] ->
              script L help_lines files s = ended (main_loop L files s)))
    /\ (forall input_file,
          input_file <> "--" ->
          argparse._parse_optional input_file = argparse.positional ->
          (lower (snd (posixpath.splitext input_file)) = ".pdf" ->
           script L help_lines ["--type"; choice_name c; input_file] s
           = ended (pdf_branch L input_file s))
          /\ (lower (snd (posixpath.splitext input_file)) = ".epub" ->
              script L help_lines ["--type"; choice_name c; input_file] s
              = ended (extract_epub_cover L input_file s))
          /\ (lower (snd (posixpath.splitext input_file)) = ".txt" ->
              script L help_lines ["--type"; choice_name c; input_file] s
              = ended (extract_txt_cover L input_file default_max_lines
                         default_max_chars s))).
Proof.
  intros L help_lines c s.
  assert (Hbefore : forall rest,
            script L help_lines ("--type" :: choice_name c :: rest) s
            = script L help_lines rest s
            /\ script L help_lines (("--type=" ++ choice_name c) :: rest) s
               = script L help_lines rest s).
  { intros rest. split; apply script_same_run; unfold argparse.parse_args.
    - assert (Htok : argparse.tokens ("--type" :: choice_name c :: rest)
                     = option_map
                         (fun toks =>
                            argparse.tok_option (Some argparse.store_type)
                              "--type" None "--type"
                            :: argparse.tok_arg (choice_name c) :: toks)
                         (argparse.tokens rest)).
      { destruct c; cbn; now destruct (argparse.tokens rest). }
      rewrite Htok. destruct (argparse.tokens rest) as [toks|]; [|exact I].
      cbn [option_map argparse.consume argparse.consume_positionals].
      assert (Hstore : argparse.store_type_value
                         (argparse.MkProgress None type_absent []) (choice_name c)
                       = Some (argparse.MkProgress None (type_chosen c) []))
        by (destruct c; reflexivity).
      rewrite Hstore.
      apply (@consume_alike (List.length toks)); [lia|now split].
    - assert (Htok : argparse.tokens (("--type=" ++ choice_name c) :: rest)
                     = option_map
                         (cons (argparse.tok_option (Some argparse.store_type)
                                  "--type" (Some (choice_name c))
                                  ("--type=" ++ choice_name c)))
                         (argparse.tokens rest)).
      { destruct c; cbn; now destruct (argparse.tokens rest). }
      rewrite Htok. destruct (argparse.tokens rest) as [toks|]; [|exact I].
      cbn [option_map argparse.consume argparse.consume_positionals].
      assert (Hstore : argparse.store_type_value
                         (argparse.MkProgress None type_absent []) (choice_name c)
                       = Some (argparse.MkProgress None (type_chosen c) []))
        by (destruct c; reflexivity).
      rewrite Hstore.
      apply (@consume_alike (List.length toks)); [lia|now split]. }
  split; [exact Hbefore|]. split.
  - intros files Hplain. split; [|split].
    + apply script_same_run.
      rewrite (@parse_args_arguments files ["--type"; choice_name c]
                 [argparse.tok_option (Some argparse.store_type)
                    "--type" None "--type";
                  argparse.tok_arg (choice_name c)] Hplain)
        by (destruct c; reflexivity).
      rewrite (@parse_args_files files Hplain).
      cbn [argparse.consume]. rewrite store_choice.
      cbn [argparse.consume argparse.consume_positionals].
      apply alike_finish. now split.
    + apply script_same_run.
      rewrite (@parse_args_arguments files ["--type=" ++ choice_name c]
                 [argparse.tok_option (Some argparse.store_type)
                    "--type" (Some (choice_name c))
                    ("--type=" ++ choice_name c)] Hplain)
        by (destruct c; reflexivity).
      rewrite (@parse_args_files files Hplain).
      cbn [argparse.consume]. rewrite store_choice.
      cbn [argparse.consume argparse.consume_positionals].
      apply alike_finish. now split.
    + intros Hfiles. unfold script. rewrite (@parse_args_files files Hplain).
      destruct files as [|f files]; [now elim Hfiles|reflexivity].
  - intros input_file Hdashes Hpos.
    assert (Hrun : script L help_lines ["--type"; choice_name c; input_file] s
                   = ended (process_file L input_file s)).
    { destruct (Hbefore [input_file]) as [H1 _]. rewrite H1.
      unfold script.
      rewrite (@parse_args_files [input_file])
        by (intros f [Hf|[]]; subst f; now split).
      cbn [argparse.consume_positionals argparse.finish argparse.seen_files
           argparse.extras argparse.seen_type].
      unfold main. cbn [input_files]. now rewrite main_loop_one. }
    repeat split; intros Hext; rewrite Hrun.
    + now rewrite (process_file_pdf L _ Hext).
    + now rewrite (process_file_epub L _ Hext).
    + now rewrite (process_file_txt L _ Hext).
Qed.

Lemma type_flag_is_ignored_witness :
  script Samples.libs [] ["notes.doc"; "notes.txt"; "--type"; "pdf"] Samples.disk
  = script Samples.libs [] ["notes.doc"; "notes.txt"] Samples.disk.
Proof.
  refine (proj1 (proj1 (proj2 (@type_flag_is_ignored Samples.libs [] pdf
                                 Samples.disk))
                   ["notes.doc"; "notes.txt"] _)).
  intros f [Hf|[Hf|[]]]; subst f; split; try discriminate; reflexivity.
Defined.

(** ** C8 *)

(** For a file whose extension is none of the three, one line is printed,
    nothing is written, and the loop goes on. *)
Lemma unsupported_file_is_skipped L input_file rest s :
  lower (snd (posixpath.splitext input_file)) <> ".pdf" ->
  lower (snd (posixpath.splitext input_file)) <> ".epub" ->
  lower (snd (posixpath.splitext input_file)) <> ".txt" ->
  process_file L input_file s
  = (Return tt,
     MkState (st_fs s)
       (st_out s ++ ["Unsupported file type for " ++ input_file
                     ++ "; supported: .pdf, .epub"]))
  /\ main_loop L (input_file :: rest) s
     = main_loop L rest
         (MkState (st_fs s)
            (st_out s ++ ["Unsupported file type for " ++ input_file
                          ++ "; supported: .pdf, .epub"])).
Proof.
  intros Hp He Ht.
  assert (H : process_file L input_file s
              = (Return tt,
                 MkState (st_fs s)
                   (st_out s ++ ["Unsupported file type for " ++ input_file
                                 ++ "; supported: .pdf, .epub"])))
    by (now rewrite (process_file_other L _ Hp He Ht)).
  split; [exact H|]. now apply main_loop_continues.
Qed.

(** C8 fails in one point: for "notes.doc" the line printed names the file
    and lists ".pdf, .epub"; ".txt" is not in it, although a ".txt" file is
    handled by [extract_txt_cover].  Nothing is written and the loop goes
    on, as the claim says. *)
Theorem unsupported_message_omits_txt :
  process_file Samples.libs "notes.doc" Samples.disk
  = (Return tt,
     MkState (st_fs Samples.disk)
       ["Unsupported file type for notes.doc; supported: .pdf, .epub"])
  /\ contains ".txt"
       "Unsupported file type for notes.doc; supported: .pdf, .epub" = false
  /\ process_file Samples.libs "notes.txt"
     = extract_txt_cover Samples.libs "notes.txt"
         default_max_lines default_max_chars
  /\ main_loop Samples.libs ["notes.doc"; "notes.txt"] Samples.disk
     = main_loop Samples.libs ["notes.txt"]
         (MkState (st_fs Samples.disk)
            ["Unsupported file type for notes.doc; supported: .pdf, .epub"]).
Proof.
  split; [reflexivity|]. split; [reflexivity|]. split; reflexivity.
Qed.

(** ** C9 *)

(** C9: for a PDF input, an exception raised while the file is read, its
    first page taken or rasterized leaves the loop with that exception,
    after the first line of the branch was printed: none of the remaining
    input files is processed.  [extract_epub_cover] and [extract_txt_cover]
    always return. *)
Theorem pdf_failure_aborts_batch :
  forall L input_file rest s,
    lower (snd (posixpath.splitext input_file)) = ".pdf" ->
    (forall file e,
        fs_lookup (st_fs s) input_file = Some file ->
        pdf_first_page_png L file = Raise e ->
        main_loop L (input_file :: rest) s
        = (Raise e,
           printed s ("Extracting cover photo from " ++ input_file ++ "...")))
    /\ (fs_lookup (st_fs s) input_file = None ->
        exists e,
          main_loop L (input_file :: rest) s
          = (Raise e,
             printed s ("Extracting cover photo from " ++ input_file ++ "...")))
    /\ (forall other s0,
          (exists s', extract_epub_cover L other s0 = (Return tt, s'))
          /\ (exists s', extract_txt_cover L other default_max_lines
                           default_max_chars s0 = (Return tt, s'))).
Proof.
  intros L input_file rest s Hext. repeat split.
  - intros file e Hfile Hpdf. apply main_loop_aborts.
    rewrite (process_file_pdf L _ Hext). unfold pdf_branch.
    rewrite (bind_return _ _ _ (print_eq _ s)).
    unfold bind, read_file, lift.
    change (st_fs (printed s _)) with (st_fs s).
    now rewrite Hfile, Hpdf.
  - intros Hfile. eexists. apply main_loop_aborts.
    rewrite (process_file_pdf L _ Hext). unfold pdf_branch.
    rewrite (bind_return _ _ _ (print_eq _ s)).
    unfold bind, read_file.
    change (st_fs (printed s _)) with (st_fs s).
    rewrite Hfile. reflexivity.
  - apply extract_epub_cover_returns.
  - apply extract_txt_cover_returns.
Qed.

Lemma pdf_failure_aborts_batch_witness :
  main_loop Samples.libs ["broken.pdf"; "notes.txt"] Samples.disk
  = (Raise (Exn OtherError "EOF marker not found"),
     printed Samples.disk "Extracting cover photo from broken.pdf...").
Proof.
  exact (proj1 (@pdf_failure_aborts_batch Samples.libs "broken.pdf"
                  ["notes.txt"] Samples.disk eq_refl)
               (Samples.b "%PDF-1.7")
               (Exn OtherError "EOF marker not found") eq_refl eq_refl).
Defined.

(** * Further properties of the script *)

(** ** What a run writes *)

Section Frames.
Variable L : Libs.

(** What is known of the extensions: [ok] holds of the extensions the
    script can give to a file it writes. *)
Variable ok : string -> Prop.
Hypothesis ok_png : ok ".png".
Hypothesis ok_img : ok ".img".
Hypothesis ok_splitext : forall path, ok (snd (posixpath.splitext path)).
Hypothesis ok_table : forall t e, mt_extension_of L t = Some e -> ok e.

Lemma ok_guessed t : ok (str_or (mt_extension_of L t) ".img").
Proof.
  unfold str_or. destruct (mt_extension_of L t) as [e|] eqn:E; [|exact ok_img].
  destruct (truthy e); [exact (ok_table _ E)|exact ok_img].
Qed.

Lemma no_write_refl s : no_write s s.
Proof. split; [reflexivity|]. exists []. now rewrite app_nil_r. Qed.

Lemma no_write_printed s line : no_write s (printed s line).
Proof. split; [reflexivity|]. now exists [line]. Qed.

Lemma no_write_trans s s1 s2 : no_write s s1 -> no_write s1 s2 -> no_write s s2.
Proof.
  intros [Hf1 [l1 Ho1]] [Hf2 [l2 Ho2]]. split.
  - now rewrite Hf2.
  - exists (l1 ++ l2)%list. now rewrite Ho2, Ho1, app_assoc.
Qed.

Lemma no_write_one_write input_file s s' :
  no_write s s' -> one_write ok input_file s s'.
Proof. intros [Hf Ho]. split; [now left|exact Ho]. Qed.

Lemma no_write_then input_file s s1 s2 :
  no_write s s1 -> one_write ok input_file s1 s2 -> one_write ok input_file s s2.
Proof.
  intros [Hf1 [l1 Ho1]] [Hf2 [l2 Ho2]]. split.
  - rewrite <- Hf1. exact Hf2.
  - exists (l1 ++ l2)%list. now rewrite Ho2, Ho1, app_assoc.
Qed.

Lemma one_write_then input_file s s1 s2 :
  one_write ok input_file s s1 -> no_write s1 s2 -> one_write ok input_file s s2.
Proof.
  intros [Hf1 [l1 Ho1]] [Hf2 [l2 Ho2]]. split.
  - rewrite Hf2. exact Hf1.
  - exists (l1 ++ l2)%list. now rewrite Ho2, Ho1, app_assoc.
Qed.

(** The state after one file written under the stem of [input_file] and
    one line printed. *)
Lemma one_write_made input_file s ext data line :
  ok ext ->
  one_write ok input_file s
    (MkState ((fst (posixpath.splitext input_file) ++ ext, data) :: st_fs s)
             (st_out s ++ [line])).
Proof.
  intros Hext. split.
  - right. eexists. split; [|reflexivity]. now exists ext.
  - now exists [line].
Qed.

(** Writing the cover of an EbookLib item writes one file, or raises
    before anything is written or printed. *)
Lemma save_item_cover_one_write input_file it data s :
  (exists s', save_item_cover L input_file it data s = (Return tt, s')
              /\ one_write ok input_file s s')
  \/ (exists e, save_item_cover L input_file it data s = (Raise e, s)).
Proof.
  unfold save_item_cover. run.
  destruct (open_for_png L data) as [img|e].
  - left. eexists. split; [reflexivity|].
    cbn [st_fs st_out]. apply one_write_made. exact ok_png.
  - destruct (item_name it) as [name|]; cbn [splitext_ext];
      [|right; eexists; reflexivity].
    destruct (truthy (snd (posixpath.splitext name))).
    + left. eexists. split; [reflexivity|].
      cbn [st_fs st_out]. apply one_write_made. apply ok_splitext.
    + destruct (it_media_type it) as [t|]; cbn [mimetypes.guess_extension];
        [|right; eexists; reflexivity].
      left. eexists. split; [reflexivity|].
      cbn [st_fs st_out]. apply one_write_made. apply ok_guessed.
Qed.

(** The first [try]: one file and [true], or no file and [false]. *)
Lemma ebooklib_try_one_write input_file s :
  exists r s',
    ebooklib_try L input_file s = (Return r, s')
    /\ one_write ok input_file s s'
    /\ (r = false -> no_write s s').
Proof.
  unfold ebooklib_try, ebooklib_path. run.
  destruct (fs_lookup (st_fs s) input_file) as [file|].
  2:{ eexists. eexists. split; [reflexivity|].
      split; [apply no_write_one_write|intros _]; apply no_write_printed. }
  destruct (epub_read_epub L file) as [book|e].
  2:{ eexists. eexists. split; [reflexivity|].
      split; [apply no_write_one_write|intros _]; apply no_write_printed. }
  match goal with
  | |- context [image_items ?l] => destruct (image_items l) as [images|e]
  end.
  2:{ eexists. eexists. split; [reflexivity|].
      split; [apply no_write_one_write|intros _]; apply no_write_printed. }
  destruct (match find item_named_cover images with
            | Some it => Some it
            | None => hd_error images
            end) as [it|].
  2:{ eexists. eexists. split; [reflexivity|].
      split; [apply no_write_one_write|intros _]; apply no_write_refl. }
  destruct (match it_get_content it with
            | Return d => d
            | Raise _ => bytes_or (it_content it) (it_raw it)
            end) as [d|].
  2:{ eexists. eexists. split; [reflexivity|].
      split; [apply no_write_one_write|intros _]; apply no_write_printed. }
  destruct (save_item_cover_one_write input_file it d s)
    as [(s' & Hs' & Hw)|(e & Hs')]; rewrite Hs'.
  - exists true, s'. split; [reflexivity|]. split; [exact Hw|discriminate].
  - eexists. eexists. split; [reflexivity|].
    split; [apply no_write_one_write|intros _]; apply no_write_printed.
Qed.

(** Writing the cover found in the archive: one file, or an exception
    before anything is written or printed. *)
Lemma save_zip_cover_one_write input_file cover_href image_data s :
  (exists s', save_zip_cover L input_file cover_href image_data s = (Return tt, s')
              /\ one_write ok input_file s s')
  \/ (exists e, save_zip_cover L input_file cover_href image_data s = (Raise e, s)).
Proof.
  unfold save_zip_cover. run.
  destruct (open_for_png L image_data) as [img|e].
  - left. eexists. split; [reflexivity|].
    cbn [st_fs st_out]. apply one_write_made. exact ok_png.
  - destruct (truthy (snd (posixpath.splitext cover_href))).
    + left. eexists. split; [reflexivity|].
      cbn [st_fs st_out]. apply one_write_made. apply ok_splitext.
    + destruct (mt_guess_type L cover_href) as [t|];
        cbn [mimetypes.guess_extension]; [|right; eexists; reflexivity].
      left. eexists. split; [reflexivity|].
      cbn [st_fs st_out]. apply one_write_made. apply ok_guessed.
Qed.

(** The zip/OPF path: it returns after at most one file, or it raises
    before anything is written or printed. *)
Lemma zip_path_one_write input_file s o s' :
  zip_path L input_file s = (o, s') ->
  match o with
  | Return _ => one_write ok input_file s s'
  | Raise _ => s' = s
  end.
Proof.
  unfold zip_path. unfold bind, read_file, lift.
  destruct (fs_lookup (st_fs s) input_file) as [file|];
    [|intros H; now inversion H].
  destruct (zip_open L file) as [z|e]; [|intros H; now inversion H].
  destruct (_get_rootfile_path L z) as [rootfile_path|e];
    [|intros H; now inversion H].
  destruct (zipfile.read z rootfile_path) as [opf_data|e];
    [|intros H; now inversion H].
  destruct (_find_cover_href L opf_data (posixpath.dirname rootfile_path))
    as [[cover_href|]|e]; [| |intros H; now inversion H].
  - destruct (truthy cover_href); cbn [negb]; cbv beta iota.
    + destruct (read_cover z (replace "\"%char "/"%char cover_href))
        as [[[image_data name]|]|e]; [| |intros H; now inversion H].
      * cbv beta iota.
        destruct (save_zip_cover_one_write input_file name image_data s)
          as [(s1 & Hs1 & Hw)|(e & He)].
        -- rewrite Hs1. intros H. inversion H. now subst.
        -- rewrite He. intros H. now inversion H.
      * intros H. inversion H.
        apply no_write_one_write, no_write_printed.
    + intros H. inversion H. apply no_write_one_write, no_write_printed.
  - intros H. inversion H. apply no_write_one_write, no_write_printed.
Qed.

Lemma zip_try_one_write input_file s :
  exists s', zip_try L input_file s = (Return tt, s')
             /\ one_write ok input_file s s'.
Proof.
  unfold zip_try, try_except.
  destruct (zip_path L input_file s) as [[[]|e] s1] eqn:E;
    apply zip_path_one_write in E.
  - eauto.
  - subst s1. eexists. split; [reflexivity|].
    apply no_write_one_write, no_write_printed.
Qed.

Lemma extract_epub_cover_one_write input_file s :
  exists s', extract_epub_cover L input_file s = (Return tt, s')
             /\ one_write ok input_file s s'.
Proof.
  unfold extract_epub_cover.
  rewrite (bind_return _ _ _ (print_eq _ s)).
  destruct (ebooklib_try_one_write input_file
              (printed s ("Extracting cover photo from " ++ input_file ++ "...")))
    as (r & s1 & H1 & Hw1 & Hn1).
  rewrite (bind_return _ _ _ H1).
  destruct r.
  - exists s1. split; [reflexivity|].
    apply (no_write_then (no_write_printed s _) Hw1).
  - destruct (zip_try_one_write input_file s1) as (s2 & H2 & Hw2).
    exists s2. split; [exact H2|].
    apply (no_write_then (no_write_trans (no_write_printed s _) (Hn1 eq_refl)) Hw2).
Qed.

(** The body of [extract_txt_cover]: it returns after at most one file, or
    it raises before anything is written or printed. *)
Lemma txt_body_one_write input_file max_lines max_chars s o s' :
  txt_body L input_file max_lines max_chars s = (o, s') ->
  match o with
  | Return _ => one_write ok input_file s s'
  | Raise _ => s' = s
  end.
Proof.
  unfold txt_body. unfold bind, read_file, lift.
  destruct (fs_lookup (st_fs s) input_file) as [file|];
    [|intros H; now inversion H].
  destruct (read_lines max_lines (utf8_decode_ignore L file)) as [|l0 ls].
  - intros H. inversion H. apply no_write_one_write, no_write_printed.
  - destruct (measure_glyph L) as [[avg_char_w char_h]|e];
      [|intros H; now inversion H].
    match goal with
    | |- context [Image_new ?m ?w ?h ?c] =>
        destruct (Image_new m w h c) as [img|e]; [|intros H; now inversion H]
    end.
    intros H. inversion H. cbn [st_fs st_out print write_file].
    apply one_write_made. exact ok_png.
Qed.

Lemma extract_txt_cover_one_write input_file max_lines max_chars s :
  exists s', extract_txt_cover L input_file max_lines max_chars s = (Return tt, s')
             /\ one_write ok input_file s s'.
Proof.
  unfold extract_txt_cover.
  rewrite (bind_return _ _ _ (print_eq _ s)).
  unfold try_except.
  destruct (txt_body L input_file max_lines max_chars
              (printed s ("Creating text cover image from " ++ input_file ++ "...")))
    as [[[]|e] s1] eqn:E; apply txt_body_one_write in E.
  - exists s1. split; [reflexivity|].
    apply (no_write_then (no_write_printed s _) E).
  - subst s1. eexists. split; [reflexivity|].
    apply no_write_one_write.
    eapply no_write_trans; apply no_write_printed.
Qed.

Lemma pdf_branch_one_write input_file s o s' :
  pdf_branch L input_file s = (o, s') -> one_write ok input_file s s'.
Proof.
  unfold pdf_branch. run. cbn [st_fs st_out].
  destruct (fs_lookup (st_fs s) input_file) as [file|].
  - destruct (pdf_first_page_png L file) as [png|e]; cbn [st_fs st_out];
      intros H; inversion H.
    + split; cbn [st_fs st_out].
      * right. eexists. split; [|reflexivity]. exists ".png".
        split; [exact ok_png|reflexivity].
      * eexists. rewrite <- !app_assoc. reflexivity.
    + apply no_write_one_write. split; [reflexivity|]. now eexists.
  - intros H. inversion H.
    apply no_write_one_write. split; [reflexivity|]. now eexists.
Qed.

Lemma process_file_one_write input_file s o s' :
  process_file L input_file s = (o, s') -> one_write ok input_file s s'.
Proof.
  unfold process_file.
  destruct (String.eqb (lower (snd (posixpath.splitext input_file))) ".pdf").
  { apply pdf_branch_one_write. }
  destruct (String.eqb (lower (snd (posixpath.splitext input_file))) ".epub").
  { destruct (extract_epub_cover_one_write input_file s) as (s1 & H1 & Hw).
    rewrite H1. intros H. inversion H. now subst. }
  destruct (String.eqb (lower (snd (posixpath.splitext input_file))) ".txt").
  { destruct (extract_txt_cover_one_write input_file default_max_lines
                default_max_chars s) as (s1 & H1 & Hw).
    rewrite H1. intros H. inversion H. now subst. }
  intros H. inversion H. apply no_write_one_write, no_write_printed.
Qed.

(** What a batch writes: at most one file for each input file, named
    after it; the files that were on disk stay below the new ones, and
    the lines printed before stay the first lines of the output. *)
Lemma main_loop_writes files : forall s o s',
  main_loop L files s = (o, s') ->
  exists written,
    st_fs s' = (written ++ st_fs s)%list
    /\ (List.length written <= List.length files)%nat
    /\ (forall w, In w written ->
          exists input_file, In input_file files /\ named_with ok input_file w)
    /\ exists lines, st_out s' = (st_out s ++ lines)%list.
Proof.
  induction files as [|f files IH]; intros s o s'; simpl.
  - intros H. inversion H. exists []. repeat split; auto.
    + intros w [].
    + exists []. now rewrite app_nil_r.
  - unfold bind. destruct (process_file L f s) as [[[]|e] s1] eqn:E1.
    + intros H. apply IH in H as (written & Hfs & Hlen & Hnames & lines & Hout).
      destruct (process_file_one_write _ _ E1) as [Hw [lines1 Hout1]].
      destruct Hw as [Hsame|(w & Hw & Hone)].
      * exists written. rewrite Hfs, Hsame. repeat split; auto.
        -- intros w Hin. destruct (Hnames w Hin) as (g & Hg & Hn).
           exists g. split; [now right|exact Hn].
        -- exists (lines1 ++ lines)%list. now rewrite Hout, Hout1, app_assoc.
      * exists (written ++ [w])%list. rewrite Hfs, Hone. repeat split.
        -- now rewrite <- app_assoc.
        -- rewrite length_app. simpl. lia.
        -- intros w' Hin. apply in_app_or in Hin as [Hin|[Hin|[]]].
           ++ destruct (Hnames w' Hin) as (g & Hg & Hn).
              exists g. split; [now right|exact Hn].
           ++ subst w'. exists f. split; [now left|exact Hw].
        -- exists (lines1 ++ lines)%list. now rewrite Hout, Hout1, app_assoc.
    + intros H. inversion H. subst o s'.
      destruct (process_file_one_write _ _ E1) as [Hw [lines1 Hout1]].
      destruct Hw as [Hsame|(w & Hw & Hone)].
      * exists []. repeat split; auto.
        -- simpl. lia.
        -- intros w [].
        -- now exists lines1.
      * exists [w]. repeat split; auto.
        -- simpl. lia.
        -- intros w' [Hin|[]]. subst w'. exists f. split; [now left|exact Hw].
        -- now exists lines1.
Qed.

End Frames.

(** X1: whatever the libraries do and however a run ends, it writes at
    most one file per input file, each named after one of the input files
    (its name without the extension, then an extension); the files that
    were on disk stay below the new ones, and the lines printed before are
    still the first lines of the output. *)
Theorem batch_writes_named_outputs :
  forall L files s o s',
    main_loop L files s = (o, s') ->
    exists written,
      st_fs s' = (written ++ st_fs s)%list
      /\ (List.length written <= List.length files)%nat
      /\ (forall w, In w written ->
            exists input_file, In input_file files /\ named_after input_file w)
      /\ exists lines, st_out s' = (st_out s ++ lines)%list.
Proof.
  intros L files s o s' Hrun.
  destruct (@main_loop_writes L (fun _ => True) I I (fun _ => I)
              (fun _ _ _ => I) files s o s' Hrun)
    as (written & Hfs & Hlen & Hnames & Hout).
  exists written. repeat split; auto.
  intros w Hin. destruct (Hnames w Hin) as (f & Hf & ext & _ & Hext).
  exists f. split; [exact Hf|]. now exists ext.
Qed.

Lemma batch_writes_named_outputs_witness :
  exists written,
    st_fs (snd (main_loop Samples2.libs ["scan.pdf"; "notes.txt"] Samples2.disk))
    = (written ++ st_fs Samples2.disk)%list
    /\ (List.length written <= 2)%nat
    /\ (forall w, In w written ->
          exists input_file,
            In input_file ["scan.pdf"; "notes.txt"] /\ named_after input_file w)
    /\ exists lines,
         st_out (snd (main_loop Samples2.libs ["scan.pdf"; "notes.txt"] Samples2.disk))
         = (st_out Samples2.disk ++ lines)%list.
Proof.
  exact (@batch_writes_named_outputs Samples2.libs ["scan.pdf"; "notes.txt"]
           Samples2.disk _ _ (surjective_pairing _)).
Defined.

(** ** Batches *)

(** X2: a batch is processed as its parts in sequence: the second part
    starts from the state the first part leaves, and is not started when
    the first part ends with an exception. *)
Theorem batch_in_parts :
  forall L files1 files2 s,
    main_loop L (files1 ++ files2) s
    = match main_loop L files1 s with
      | (Return _, s1) => main_loop L files2 s1
      | (Raise e, s1) => (Raise e, s1)
      end.
Proof.
  intros L files1 files2. induction files1 as [|f files1 IH]; intros s.
  - reflexivity.
  - simpl. unfold bind.
    destruct (process_file L f s) as [[[]|e] s1]; [apply IH|reflexivity].
Qed.

Lemma process_file_not_pdf_returns L input_file s :
  lower (snd (posixpath.splitext input_file)) <> ".pdf" ->
  exists s', process_file L input_file s = (Return tt, s').
Proof.
  intros Hext. unfold process_file.
  apply String.eqb_neq in Hext. rewrite Hext.
  destruct (String.eqb (lower (snd (posixpath.splitext input_file))) ".epub").
  { apply extract_epub_cover_returns. }
  destruct (String.eqb (lower (snd (posixpath.splitext input_file))) ".txt").
  { apply extract_txt_cover_returns. }
  eexists. reflexivity.
Qed.

(** X3: a batch without a PDF input runs to its end, whatever the files
    hold and whatever the libraries do: no exception leaves the loop. *)
Theorem batch_without_pdf_completes :
  forall L files s,
    (forall input_file, In input_file files ->
       lower (snd (posixpath.splitext input_file)) <> ".pdf") ->
    exists s', main_loop L files s = (Return tt, s').
Proof.
  intros L files. induction files as [|f files IH]; intros s Hext.
  - eexists. reflexivity.
  - destruct (process_file_not_pdf_returns L f s) as [s1 H1].
    { apply Hext. now left. }
    rewrite (main_loop_continues L f files s H1).
    apply IH. intros g Hg. apply Hext. now right.
Qed.

Lemma batch_without_pdf_completes_witness :
  exists s',
    main_loop Samples2.libs ["missing.epub"; "empty.txt"; "notes.doc"] Samples2.disk
    = (Return tt, s').
Proof.
  apply batch_without_pdf_completes.
  intros input_file [H|[H|[H|[]]]]; subst input_file; vm_compute; discriminate.
Defined.

(** ** The PDF branch *)

(** X4: for a PDF that is read and whose first page is rendered, the PNG
    is written under the name of the input with its extension replaced by
    ".png", and three lines are printed: the start line, the output path
    on a line of its own, and the confirmation. *)
Theorem pdf_cover_saved :
  forall L input_file file png s,
    lower (snd (posixpath.splitext input_file)) = ".pdf" ->
    fs_lookup (st_fs s) input_file = Some file ->
    pdf_first_page_png L file = Return png ->
    process_file L input_file s
    = (Return tt,
       MkState ((fst (posixpath.splitext input_file) ++ ".png", png) :: st_fs s)
               (st_out s
                ++ ["Extracting cover photo from " ++ input_file ++ "...";
                    fst (posixpath.splitext input_file) ++ ".png";
                    "Done, your cover photo has been saved as "
                    ++ fst (posixpath.splitext input_file) ++ ".png"])).
Proof.
  intros L input_file file png s Hext Hfile Hpdf.
  rewrite (process_file_pdf L _ Hext). unfold pdf_branch. run.
  cbn [st_fs st_out]. rewrite Hfile, Hpdf. cbn [st_fs st_out].
  now rewrite <- !app_assoc.
Qed.

Lemma pdf_cover_saved_witness :
  process_file Samples2.libs "scan.pdf" Samples2.disk
  = (Return tt,
     MkState (("scan.png", Samples2.pixels) :: st_fs Samples2.disk)
             ["Extracting cover photo from scan.pdf..."; "scan.png";
              "Done, your cover photo has been saved as scan.png"]).
Proof.
  exact (@pdf_cover_saved Samples2.libs "scan.pdf" (Samples.b "%PDF-1.7 one page")
           Samples2.pixels Samples2.disk eq_refl eq_refl eq_refl).
Defined.

(** ** TXT files that give no cover *)

(** X5: a TXT file whose decoded text is empty gives no cover: the notice
    "TXT file is empty; no cover created." is printed and nothing is
    written, for every [max_lines] and [max_chars]; a TXT file that is
    missing gives one error line, which ends with the [repr] of its name
    (in double quotes when the name holds an apostrophe, with a backslash
    doubled), and nothing written. *)
Theorem txt_without_cover :
  forall L input_file max_lines max_chars s,
    (forall file,
        fs_lookup (st_fs s) input_file = Some file ->
        utf8_decode_ignore L file = "" ->
        extract_txt_cover L input_file max_lines max_chars s
        = (Return tt,
           MkState (st_fs s)
                   (st_out s
                    ++ ["Creating text cover image from " ++ input_file ++ "...";
                        "TXT file is empty; no cover created."])))
    /\ (fs_lookup (st_fs s) input_file = None ->
        extract_txt_cover L input_file max_lines max_chars s
        = (Return tt,
           MkState (st_fs s)
                   (st_out s
                    ++ ["Creating text cover image from " ++ input_file ++ "...";
                        "Error creating TXT cover from " ++ input_file
                        ++ ": [Errno 2] No such file or directory: "
                        ++ repr input_file]))).
Proof.
  intros L input_file max_lines max_chars s. split.
  - intros file Hfile Hempty.
    unfold extract_txt_cover, txt_body. run. cbn [st_fs st_out].
    rewrite Hfile, Hempty, read_lines_eof. cbn [st_fs st_out].
    now rewrite <- app_assoc.
  - intros Hfile.
    unfold extract_txt_cover, txt_body. run. cbn [st_fs st_out].
    rewrite Hfile. cbn [st_fs st_out exn_str].
    now rewrite <- app_assoc.
Qed.

Lemma txt_without_cover_witness :
  extract_txt_cover Samples2.libs "empty.txt" 20 2000 Samples2.disk
  = (Return tt,
     MkState (st_fs Samples2.disk)
             ["Creating text cover image from empty.txt...";
              "TXT file is empty; no cover created."]).
Proof.
  exact (proj1 (@txt_without_cover Samples2.libs "empty.txt" 20 2000
                  Samples2.disk) [] eq_refl eq_refl).
Defined.

(** ** First elements *)

Lemma find_first_with {A} (p : A -> bool) l x :
  first_with p l x -> find p l = Some x.
Proof.
  intros (l1 & l2 & -> & Hx & Hbefore).
  induction l1 as [|y l1 IH]; simpl.
  - now rewrite Hx.
  - rewrite (Hbefore y) by now left.
    apply IH. intros z Hz. apply Hbefore. now right.
Qed.

Lemma find_none_with {A} (p : A -> bool) l :
  none_with p l -> find p l = None.
Proof.
  induction l as [|y l IH]; intros H; simpl.
  - reflexivity.
  - rewrite (H y) by now left. apply IH. intros z Hz. apply H. now right.
Qed.

Lemma find_some_first_with {A} (p : A -> bool) l x :
  find p l = Some x -> first_with p l x.
Proof.
  induction l as [|y l IH]; simpl; [discriminate|].
  destruct (p y) eqn:Ey.
  - intros H. inversion H. subst y. exists [], l. repeat split; auto.
    intros z [].
  - intros H. destruct (IH H) as (l1 & l2 & Hl & Hx & Hbefore).
    exists (y :: l1), l2. subst l. repeat split; auto.
    intros z [Hz|Hz]; [now subst z|now apply Hbefore].
Qed.

Lemma find_none_none_with {A} (p : A -> bool) l :
  find p l = None -> none_with p l.
Proof.
  induction l as [|y l IH]; simpl.
  - intros _ z [].
  - destruct (p y) eqn:Ey; [discriminate|].
    intros H z [Hz|Hz]; [now subst z|now apply IH].
Qed.

(** ** The container descriptor *)

(** X6: with a container descriptor that parses, [_get_rootfile_path]
    looks at the first element below the root, in document order, whose
    tag is "rootfile" in any namespace or in none: it returns its
    [full-path] attribute, and raises [ValueError] when that element has
    no such attribute (a later rootfile is not tried) or when there is no
    such element. *)
Theorem rootfile_path_first_rootfile :
  forall L zipf container root,
    zipfile.read zipf "META-INF/container.xml" = Return container ->
    et_fromstring L container = Return root ->
    (forall r,
        first_with is_rootfile (ET.descendants root) r ->
        _get_rootfile_path L zipf
        = match ET.get (ET.attrib r) "full-path" with
          | Some p => Return p
          | None =>
              Raise (Exn ValueError
                       "Invalid EPUB: could not find rootfile in container.xml")
          end)
    /\ (none_with is_rootfile (ET.descendants root) ->
        _get_rootfile_path L zipf
        = Raise (Exn ValueError
                   "Invalid EPUB: could not find rootfile in container.xml")).
Proof.
  intros L zipf container root Hread Hparse.
  unfold _get_rootfile_path. rewrite Hread, Hparse.
  unfold ET.find_desc_anyns.
  change (fun d : ET.Element =>
            (String.eqb (ET.tag d) "rootfile"
             || endswith (ET.tag d) ("}" ++ "rootfile"))%bool)
    with is_rootfile.
  split.
  - intros r Hr. rewrite (find_first_with Hr).
    destruct (ET.get (ET.attrib r) "full-path"); reflexivity.
  - intros Hnone. rewrite (find_none_with Hnone).
    unfold ET.find_desc. rewrite find_none_with; [reflexivity|].
    intros d Hd. specialize (Hnone d Hd). unfold is_rootfile in Hnone.
    now apply orb_false_iff in Hnone as [Htag _].
Qed.

Lemma rootfile_path_first_rootfile_witness :
  _get_rootfile_path Samples.libs (Samples.archive "<chain/>" [])
  = Return "OEBPS/content.opf".
Proof.
  refine (proj1 (@rootfile_path_first_rootfile Samples.libs
                   (Samples.archive "<chain/>" []) (Samples.b "<container/>")
                   Samples.container eq_refl eq_refl)
                (ET.Elem "{urn:oasis:names:tc:opendocument:xmlns:container}rootfile"
                   [("full-path", "OEBPS/content.opf");
                    ("media-type", "application/oebps-package+xml")] [])
                _).
  eexists [_], []. split; [reflexivity|]. split; [reflexivity|].
  intros y [Hy|[]]. now subst y.
Defined.

(** ** Archives that are not a valid EPUB *)

(** X7: in the zip/OPF path, a file [zipfile] rejects, an archive without
    META-INF/container.xml, and a package document the XML parser rejects
    each end the file with one line "Error extracting EPUB cover from ...",
    carrying the message of the exception; nothing is written and
    [extract_epub_cover] returns. *)
Theorem invalid_epub_is_reported :
  forall L input_file s s1 file,
    ebooklib_try L input_file
      (printed s ("Extracting cover photo from " ++ input_file ++ "..."))
    = (Return false, s1) ->
    fs_lookup (st_fs s1) input_file = Some file ->
    st_fs s1 = st_fs s
    /\ (forall e,
          zip_open L file = Raise e ->
          extract_epub_cover L input_file s
          = (Return tt,
             printed s1 ("Error extracting EPUB cover from " ++ input_file
                         ++ ": " ++ exn_str e)))
    /\ (forall z,
          zip_open L file = Return z ->
          zipfile.getinfo (zip_entries z) "META-INF/container.xml" = None ->
          extract_epub_cover L input_file s
          = (Return tt,
             printed s1 ("Error extracting EPUB cover from " ++ input_file
                         ++ ": Invalid EPUB: missing META-INF/container.xml")))
    /\ (forall z rootfile_path opf_data e,
          zip_open L file = Return z ->
          _get_rootfile_path L z = Return rootfile_path ->
          zipfile.read z rootfile_path = Return opf_data ->
          et_fromstring L opf_data = Raise e ->
          extract_epub_cover L input_file s
          = (Return tt,
             printed s1 ("Error extracting EPUB cover from " ++ input_file
                         ++ ": " ++ exn_str e))).
Proof.
  intros L input_file s s1 file Htry Hfile.
  split; [exact (ebooklib_try_false_fs _ _ _ Htry)|].
  rewrite (extract_epub_cover_fallback _ _ _ Htry).
  unfold zip_try, zip_error, zip_path.
  repeat split.
  - intros e Hzip. unfold try_except, bind, read_file, lift.
    now rewrite Hfile, Hzip.
  - intros z Hzip Hmissing. unfold try_except, bind, read_file, lift.
    rewrite Hfile, Hzip.
    unfold _get_rootfile_path, zipfile.read. rewrite Hmissing. reflexivity.
  - intros z rootfile_path opf_data e Hzip Hroot Hopf Hparse.
    unfold try_except, bind, read_file, lift.
    rewrite Hfile, Hzip, Hroot, Hopf.
    unfold _find_cover_href. rewrite Hparse. reflexivity.
Qed.

Lemma invalid_epub_is_reported_witness :
  extract_epub_cover Samples2.libs "bare.zip.epub" Samples2.disk
  = (Return tt,
     MkState (st_fs Samples2.disk)
       ["Extracting cover photo from bare.zip.epub...";
        "EbookLib extraction failed, falling back to zip parsing: Document is empty, line 1, column 1";
        "Error extracting EPUB cover from bare.zip.epub: Invalid EPUB: missing META-INF/container.xml"]).
Proof.
  exact (proj1 (proj2 (proj2
    (@invalid_epub_is_reported Samples2.libs "bare.zip.epub" Samples2.disk
       (MkState (st_fs Samples2.disk)
          ["Extracting cover photo from bare.zip.epub...";
           "EbookLib extraction failed, falling back to zip parsing: Document is empty, line 1, column 1"])
       (Samples.b "bare.zip") eq_refl eq_refl)))
    (MkZip [("mimetype", Return (Samples.b "application/epub+zip"))])
    eq_refl eq_refl).
Defined.

(** ** The namespace of the root element *)

Lemma contains_char_cons c d s :
  contains (String c "") (String d s) = false ->
  Ascii.eqb d c = false /\ contains (String c "") s = false.
Proof.
  simpl. destruct (ascii_dec c d) as [->|Hne].
  - destruct s; discriminate.
  - intros H. split; [|exact H].
    apply Ascii.eqb_neq. congruence.
Qed.

Lemma split_before_sep sep a rest :
  contains (String sep "") a = false ->
  split sep (a ++ String sep rest) = a :: split sep rest.
Proof.
  induction a as [|d a IH]; intros H.
  - simpl. now rewrite Ascii.eqb_refl.
  - apply contains_char_cons in H as [Hd Ha].
    simpl. rewrite Hd, (IH Ha). reflexivity.
Qed.

Lemma rstrip_keep c s :
  endswith s (String c "") = false -> rstrip (Ascii.eqb c) s = s.
Proof.
  induction s as [|d s IH]; [reflexivity|].
  intros H. cbn [endswith] in H. apply orb_false_iff in H as [Hd Hs].
  cbn [rstrip]. rewrite (IH Hs).
  destruct s as [|d' s]; [|reflexivity].
  destruct (Ascii.eqb c d) eqn:E; [|reflexivity].
  apply Ascii.eqb_eq in E. subst d. simpl in Hd.
  now rewrite Ascii.eqb_refl in Hd.
Qed.

(** X8: the namespace read off the root tag is the one [_ns_tag] put
    there: for a namespace without "}" that neither starts nor ends with
    "{", the root element tagged [_ns_tag(local, ns)] gives back [ns] (for
    the empty namespace, when the local name does not start with "{"); so
    the tags the locator looks for are in the namespace of the root. *)
Theorem root_ns_inverts_ns_tag :
  forall local ns attrs cs,
    contains "}" ns = false ->
    startswith ns "{" = false ->
    endswith ns "{" = false ->
    (ns = "" -> startswith local "{" = false) ->
    root_ns (ET.Elem (_ns_tag local ns) attrs cs) = ns.
Proof.
  intros local ns attrs cs Hclose Hstart Hend Hlocal.
  unfold root_ns, _ns_tag. cbn [ET.tag].
  destruct ns as [|c ns].
  - cbn [truthy String.eqb negb]. now rewrite (Hlocal eq_refl).
  - assert (Ht : truthy (String c ns) = true) by reflexivity.
    rewrite Ht.
    change ("{" ++ String c ns ++ "}" ++ local)
      with (String "{" (String c ns ++ String "}" local)).
    assert (Hs : startswith (String "{" (String c ns ++ String "}" local)) "{" = true)
      by reflexivity.
    rewrite Hs.
    assert (Hsplit : split "}" (String "{" (String c ns ++ String "}" local))
                     = String "{" (String c ns) :: split "}" local).
    { change (String "{" (String c ns ++ String "}" local))
        with (String "{" (String c ns) ++ String "}" local).
      apply split_before_sep.
      cbn [contains String.prefix]. exact Hclose. }
    rewrite Hsplit. cbn [hd]. unfold strip.
    assert (Hl : lstrip (Ascii.eqb "{") (String "{" (String c ns)) = String c ns).
    { cbn [lstrip]. rewrite Ascii.eqb_refl.
      unfold startswith in Hstart. cbn [String.prefix] in Hstart.
      destruct (ascii_dec "{" c) as [->|Hne].
      - destruct ns; discriminate.
      - apply Ascii.eqb_neq in Hne. now rewrite Hne. }
    rewrite Hl. apply rstrip_keep. exact Hend.
Qed.

Lemma root_ns_inverts_ns_tag_witness :
  root_ns (ET.Elem (_ns_tag "package" Samples.opf_ns) [] []) = Samples.opf_ns.
Proof.
  apply root_ns_inverts_ns_tag; reflexivity.
Defined.

(** ** The manifest map, again *)

Lemma set_keys (V : Type) (d : PyDict.t V) k v :
  map fst (PyDict.set d k v)
  = if PyDict.mem d k then map fst d else (map fst d ++ [k])%list.
Proof.
  unfold PyDict.mem.
  induction d as [|[k0 v0] d IH]; simpl; [reflexivity|].
  destruct (String.eqb k0 k) eqn:E; simpl.
  - apply String.eqb_eq in E. now subst k0.
  - rewrite IH. now destruct (PyDict.lookup d k).
Qed.

Lemma lookup_none_not_in (V : Type) (d : PyDict.t V) k :
  PyDict.lookup d k = None -> ~ In k (map fst d).
Proof.
  induction d as [|[k0 v0] d IH]; simpl; [tauto|].
  destruct (String.eqb k0 k) eqn:E; [discriminate|].
  intros H [Hk|Hk]; [|exact (IH H Hk)].
  subst k0. now rewrite String.eqb_refl in E.
Qed.

Lemma set_keys_nodup (V : Type) (d : PyDict.t V) k v :
  NoDup (map fst d) -> NoDup (map fst (PyDict.set d k v)).
Proof.
  intros Hd. rewrite set_keys. unfold PyDict.mem.
  destruct (PyDict.lookup d k) eqn:E; [exact Hd|].
  apply NoDup_app; [exact Hd|repeat constructor; intros []|].
  intros x Hx [Hk|[]]. subst x. exact (lookup_none_not_in _ _ E Hx).
Qed.

Lemma fold_manifest_well_formed items : forall manifest,
  NoDup (map fst manifest) ->
  (forall k e, In (k, e) manifest -> k <> "" /\ e_href e <> "") ->
  NoDup (map fst (fold_left manifest_add items manifest))
  /\ (forall k e, In (k, e) (fold_left manifest_add items manifest) ->
        k <> "" /\ e_href e <> "").
Proof.
  induction items as [|item items IH]; intros manifest Hnd Hne; simpl.
  - now split.
  - apply IH; unfold manifest_add;
      destruct (ET.get (ET.attrib item) "id") as [i|]; try assumption;
      destruct (ET.get (ET.attrib item) "href") as [h|]; try assumption;
      destruct (truthy i && truthy h) eqn:Et; try assumption.
    + now apply set_keys_nodup.
    + intros k e Hin. apply set_entries in Hin as [Heq|Hold]; [|now apply Hne].
      inversion Heq. subst k e. apply andb_prop in Et as [Hi Hh].
      unfold truthy in Hi, Hh. apply negb_true_iff in Hi, Hh.
      apply String.eqb_neq in Hi, Hh. now split.
Qed.

(** X9: whatever the package document holds, the manifest map the locator
    builds has pairwise different ids, and every entry has a non-empty id
    and a non-empty href: an [item] without id or href is never a
    candidate. *)
Theorem manifest_well_formed :
  forall tree,
    NoDup (map fst (PyDict.items (manifest_of tree)))
    /\ (forall k e, In (k, e) (PyDict.items (manifest_of tree)) ->
          k <> "" /\ e_href e <> "").
Proof.
  intros tree. unfold manifest_of, build_manifest, PyDict.items.
  apply fold_manifest_well_formed.
  - constructor.
  - intros k e [].
Qed.

Lemma mem_existsb (V : Type) (d : PyDict.t V) k :
  PyDict.mem d k = existsb (String.eqb k) (map fst d).
Proof.
  unfold PyDict.mem.
  induction d as [|[k0 v0] d IH]; simpl; [reflexivity|].
  rewrite (String.eqb_sym k k0).
  destruct (String.eqb k0 k); [reflexivity|exact IH].
Qed.

Lemma fold_manifest_keys_order items : forall manifest,
  map fst (fold_left manifest_add items manifest)
  = fold_left add_new (item_ids items) (map fst manifest).
Proof.
  induction items as [|item items IH]; intros manifest; [reflexivity|].
  cbn [fold_left]. rewrite IH. unfold item_ids. cbn [flat_map].
  rewrite fold_left_app. f_equal.
  unfold manifest_add, item_id.
  destruct (ET.get (ET.attrib item) "id") as [i|]; [|reflexivity].
  destruct (ET.get (ET.attrib item) "href") as [h|]; [|reflexivity].
  destruct (truthy i && truthy h); [|reflexivity].
  cbn [fold_left]. unfold add_new. rewrite set_keys, mem_existsb. reflexivity.
Qed.

(** X10: the manifest map in terms of the document.  Call an [item]
    element usable when its id and its href are there and not empty.  The
    ids of the map come in the order of their first usable [item]; the
    value of an id is the href, media type and properties of its last
    usable [item], whatever other items with that id come after it; and an
    id without a usable [item] is not in the map.  So a repeated id
    changes the href without changing the place in the iteration. *)
Theorem manifest_order_and_values :
  forall tree,
    map fst (PyDict.items (manifest_of tree))
    = fold_left add_new (item_ids (manifest_items tree)) []
    /\ (forall items1 item items2 X,
          manifest_items tree = (items1 ++ item :: items2)%list ->
          item_id item = [X] ->
          (forall it, In it items2 -> item_id it <> [X]) ->
          PyDict.lookup (manifest_of tree) X
          = Some (ET.get_d (ET.attrib item) "href" "",
                  ET.get_d (ET.attrib item) "media-type" "",
                  ET.get_d (ET.attrib item) "properties" ""))
    /\ (forall X,
          (forall it, In it (manifest_items tree) -> item_id it <> [X]) ->
          PyDict.lookup (manifest_of tree) X = None).
Proof.
  intros tree. split; [|split].
  - unfold manifest_of, build_manifest, PyDict.items.
    apply (fold_manifest_keys_order (manifest_items tree) []).
  - intros items1 item items2 X Hsplit Hid Hlast.
    apply (@manifest_lookup_last_item tree X item).
    now exists items1, items2.
  - apply manifest_lookup_none.
Qed.

Lemma manifest_order_and_values_witness :
  PyDict.lookup (manifest_of Samples.shared_id) "cvr"
  = Some ("new.jpg", "image/jpeg", "").
Proof.
  refine (proj1 (proj2 (manifest_order_and_values Samples.shared_id))
            [Samples.item "cvr" "old.jpg" "image/jpeg" "cover-image";
             Samples.item "x" "" "image/png" ""]
            (Samples.item "cvr" "new.jpg" "image/jpeg" "")
            [Samples.item "cvr" "" "image/jpeg" ""]
            "cvr" eq_refl eq_refl _).
  intros it [Hit|[]]. subst it. discriminate.
Defined.

(** ** What the locator answers *)

Lemma lookup_some_in (V : Type) (d : PyDict.t V) k v :
  PyDict.lookup d k = Some v -> In (k, v) d.
Proof.
  induction d as [|[k0 v0] d IH]; simpl; [discriminate|].
  destruct (String.eqb k0 k) eqn:E.
  - intros H. inversion H. apply String.eqb_eq in E. subst. now left.
  - intros H. right. now apply IH.
Qed.

Lemma cover_by_meta_some manifest rootfile_dir metas r :
  cover_by_meta manifest rootfile_dir metas = Some r ->
  exists X e, PyDict.lookup manifest X = Some e
              /\ r = resolve rootfile_dir (e_href e).
Proof.
  induction metas as [|m metas IH]; simpl; [discriminate|].
  destruct (String.eqb (lower (ET.get_d (ET.attrib m) "name" "")) "cover");
    [|exact IH].
  destruct (ET.get (ET.attrib m) "content") as [X|]; [|exact IH].
  destruct (truthy X); [|exact IH].
  destruct (PyDict.lookup manifest X) as [e|] eqn:El; [|exact IH].
  intros H. inversion H. now exists X, e.
Qed.

Lemma cover_by_test_some test rootfile_dir items r :
  cover_by_test test rootfile_dir items = Some r ->
  exists it, In it items /\ test it = true
             /\ r = resolve rootfile_dir (e_href (snd it)).
Proof.
  induction items as [|it items IH]; simpl; [discriminate|].
  destruct (test it) eqn:Et.
  - intros H. inversion H. exists it. repeat split; auto.
  - intros H. destruct (IH H) as (it' & Hin & Ht & Hr).
    exists it'. repeat split; auto.
Qed.

Lemma cover_by_test_none_inv test rootfile_dir items :
  cover_by_test test rootfile_dir items = None -> none_with test items.
Proof.
  induction items as [|it items IH]; simpl.
  - intros _ x [].
  - destruct (test it) eqn:Et; [discriminate|].
    intros H x [Hx|Hx]; [now subst x|now apply IH].
Qed.

Lemma cover_by_meta_none_inv tree rootfile_dir metas :
  cover_by_meta (manifest_of tree) rootfile_dir metas = None ->
  forall m, In m metas -> ~ resolves tree m.
Proof.
  induction metas as [|m0 metas IH]; intros Hnone m Hin; [destruct Hin|].
  assert (Hrest : ~ resolves tree m0
                  /\ cover_by_meta (manifest_of tree) rootfile_dir metas = None).
  { simpl in Hnone. split.
    - intros [Hname (X & e & Hc & Hl)]. unfold names_cover in Hname.
      rewrite Hname, Hc, (manifest_keys_truthy _ _ Hl), Hl in Hnone.
      discriminate Hnone.
    - destruct (String.eqb (lower (ET.get_d (ET.attrib m0) "name" "")) "cover");
        [|exact Hnone].
      destruct (ET.get (ET.attrib m0) "content") as [X|]; [|exact Hnone].
      destruct (truthy X); [|exact Hnone].
      destruct (PyDict.lookup (manifest_of tree) X); [discriminate|exact Hnone]. }
  destruct Hrest as [H0 Hrest].
  destruct Hin as [->|Hin]; [exact H0|exact (IH Hrest m Hin)].
Qed.

(** X11: the locator only answers with what the manifest declares: a
    returned path is never empty, and it is the href of some [item]
    element of the manifest, joined to the directory of the package
    document and normalized. *)
Theorem find_cover_href_sound :
  forall L opf_data rootfile_dir cover_href,
    _find_cover_href L opf_data rootfile_dir = Return (Some cover_href) ->
    cover_href <> ""
    /\ exists tree item href,
         et_fromstring L opf_data = Return tree
         /\ In item (manifest_items tree)
         /\ ET.get (ET.attrib item) "href" = Some href
         /\ cover_href
            = posixpath.normpath (posixpath.join rootfile_dir href).
Proof.
  intros L opf_data rootfile_dir cover_href Hfind. split.
  { pose proof (find_cover_href_truthy _ _ _ Hfind) as Ht.
    intros ->. discriminate Ht. }
  unfold _find_cover_href in Hfind.
  destruct (et_fromstring L opf_data) as [tree|e]; [|discriminate].
  exists tree.
  assert (Hentry : exists k e, In (k, e) (PyDict.items (manifest_of tree))
                               /\ cover_href = resolve rootfile_dir (e_href e)).
  { unfold find_cover_in_tree in Hfind.
    destruct (cover_by_meta (manifest_of tree) rootfile_dir (metadata_metas tree))
      as [r|] eqn:E1.
    { inversion Hfind. subst r.
      apply cover_by_meta_some in E1 as (X & e & Hl & Hr).
      exists X, e. split; [now apply lookup_some_in|exact Hr]. }
    destruct (cover_by_test has_cover_image rootfile_dir
                (PyDict.items (manifest_of tree))) as [r|] eqn:E2.
    { inversion Hfind. subst r.
      apply cover_by_test_some in E2 as ([k e] & Hin & _ & Hr).
      now exists k, e. }
    destruct (cover_by_test is_cover_named rootfile_dir
                (PyDict.items (manifest_of tree))) as [r|] eqn:E3.
    { inversion Hfind. subst r.
      apply cover_by_test_some in E3 as ([k e] & Hin & _ & Hr).
      now exists k, e. }
    inversion Hfind as [E4].
    apply cover_by_test_some in E4 as ([k e] & Hin & _ & Hr).
    now exists k, e. }
  destruct Hentry as (k & e & Hin & Hr).
  apply manifest_entry_from_item in Hin as (item & Hitem & _ & Hhref & _).
  exists item, (e_href e). repeat split; auto.
Qed.

Lemma find_cover_href_sound_witness :
  "OEBPS/images/p3.svg" <> ""
  /\ exists tree item href,
       et_fromstring Samples.libs (Samples.b "<chain/>") = Return tree
       /\ In item (manifest_items tree)
       /\ ET.get (ET.attrib item) "href" = Some href
       /\ "OEBPS/images/p3.svg"
          = posixpath.normpath (posixpath.join "OEBPS" href).
Proof.
  exact (@find_cover_href_sound Samples.libs (Samples.b "<chain/>") "OEBPS"
           "OEBPS/images/p3.svg" eq_refl).
Defined.

(** X12: the locator answers "not found" in one case only.  For a package
    document that parses, it returns [None] exactly when no cover [meta]
    resolves, no manifest entry has "cover-image" among its properties, and
    no manifest entry has an image media type. *)
Theorem find_cover_href_none_iff :
  forall L opf_data rootfile_dir tree,
    et_fromstring L opf_data = Return tree ->
    (_find_cover_href L opf_data rootfile_dir = Return None
     <-> no_meta_resolves tree
         /\ none_with has_cover_image (PyDict.items (manifest_of tree))
         /\ none_with is_image (PyDict.items (manifest_of tree))).
Proof.
  intros L opf_data rootfile_dir tree Hparse.
  unfold _find_cover_href. rewrite Hparse. unfold find_cover_in_tree. split.
  - intros H.
    destruct (cover_by_meta (manifest_of tree) rootfile_dir (metadata_metas tree))
      eqn:E1; [discriminate|].
    destruct (cover_by_test has_cover_image rootfile_dir
                (PyDict.items (manifest_of tree))) eqn:E2; [discriminate|].
    destruct (cover_by_test is_cover_named rootfile_dir
                (PyDict.items (manifest_of tree))) eqn:E3; [discriminate|].
    inversion H as [E4]. repeat split.
    + intros m Hm. eapply cover_by_meta_none_inv; eassumption.
    + eapply cover_by_test_none_inv; eassumption.
    + eapply cover_by_test_none_inv; eassumption.
  - intros (Hmeta & Hprops & Himage).
    rewrite (cover_by_meta_none _ (metadata_metas tree) Hmeta).
    rewrite (cover_by_test_none has_cover_image _ _ Hprops).
    rewrite (cover_by_test_none is_image _ _ Himage).
    rewrite cover_by_test_none; [reflexivity|].
    intros it Hit. unfold is_cover_named. now rewrite (Himage it Hit).
Qed.

Lemma find_cover_href_none_iff_witness :
  _find_cover_href Samples.libs (Samples.b "<no_image/>") "OEBPS" = Return None
  <-> no_meta_resolves Samples.no_image
      /\ none_with has_cover_image (PyDict.items (manifest_of Samples.no_image))
      /\ none_with is_image (PyDict.items (manifest_of Samples.no_image)).
Proof.
  exact (@find_cover_href_none_iff Samples.libs (Samples.b "<no_image/>")
           "OEBPS" Samples.no_image eq_refl).
Defined.

(** ** The EbookLib path *)

Lemma find_filter_first {A} (q p : A -> bool) l x :
  first_with (fun i => q i && p i) l x -> find p (filter q l) = Some x.
Proof.
  intros (l1 & l2 & -> & Hx & Hbefore).
  apply andb_prop in Hx as [Hq Hp].
  induction l1 as [|y l1 IH]; simpl.
  - rewrite Hq. simpl. now rewrite Hp.
  - assert (Hy : q y && p y = false) by (apply Hbefore; now left).
    assert (IH' : find p (filter q (l1 ++ x :: l2)) = Some x)
      by (apply IH; intros z Hz; apply Hbefore; now right).
    destruct (q y); [|exact IH']. simpl in Hy. simpl. now rewrite Hy.
Qed.

Lemma find_filter_none {A} (q p : A -> bool) l :
  none_with (fun i => q i && p i) l -> find p (filter q l) = None.
Proof.
  induction l as [|y l IH]; intros H; simpl; [reflexivity|].
  assert (Hy : q y && p y = false) by (apply H; now left).
  assert (IH' : find p (filter q l) = None)
    by (apply IH; intros z Hz; apply H; now right).
  destruct (q y); [|exact IH']. simpl in Hy. simpl. now rewrite Hy.
Qed.

Lemma hd_filter_first {A} (q : A -> bool) l x :
  first_with q l x -> hd_error (filter q l) = Some x.
Proof.
  intros (l1 & l2 & -> & Hx & Hbefore).
  induction l1 as [|y l1 IH]; simpl.
  - now rewrite Hx.
  - rewrite (Hbefore y) by now left.
    apply IH. intros z Hz. apply Hbefore. now right.
Qed.

(** The item lines 115-127 choose. *)
Lemma chosen_cover_item items it :
  first_with (fun i => is_image_item i && item_named_cover i) items it
  \/ (none_with (fun i => is_image_item i && item_named_cover i) items
      /\ first_with is_image_item items it) ->
  match find item_named_cover (filter is_image_item items) with
  | Some i => Some i
  | None => hd_error (filter is_image_item items)
  end = Some it.
Proof.
  intros [Hnamed|[Hnone Hfirst]].
  - now rewrite (@find_filter_first _ is_image_item item_named_cover items it Hnamed).
  - rewrite (@find_filter_none _ is_image_item item_named_cover items Hnone).
    now apply hd_filter_first.
Qed.

(** The first [try] when every item has a media type: the chosen item
    and its bytes decide. *)
Lemma ebooklib_path_chosen L input_file file book items it s :
  fs_lookup (st_fs s) input_file = Some file ->
  epub_read_epub L file = Return book ->
  book_get_items book = Return items ->
  (forall i, In i items -> it_media_type i <> None) ->
  (first_with (fun i => is_image_item i && item_named_cover i) items it
   \/ (none_with (fun i => is_image_item i && item_named_cover i) items
       /\ first_with is_image_item items it)) ->
  ebooklib_path L input_file s
  = match match it_get_content it with
          | Return d => d
          | Raise _ => bytes_or (it_content it) (it_raw it)
          end with
    | None =>
        (Raise (Exn ValueError "Could not read image bytes from EbookLib item"),
         s)
    | Some d => bind (save_item_cover L input_file it d) (fun _ => ret true) s
    end.
Proof.
  intros Hfile Hread Hitems Hall Hchoice.
  pose proof (chosen_cover_item Hchoice) as Hit.
  unfold ebooklib_path.
  unfold bind at 1, read_file. rewrite Hfile.
  unfold bind at 1, lift at 1. rewrite Hread, Hitems.
  unfold bind at 1, lift at 1. rewrite (image_items_filter _ Hall), Hit.
  destruct (match it_get_content it with
            | Return d => d
            | Raise _ => bytes_or (it_content it) (it_raw it)
            end); reflexivity.
Qed.

(** With the bytes of the chosen item at hand, [extract_epub_cover] is the
    writing of the cover; the zip/OPF path takes over only when that
    raises. *)
Lemma extract_epub_cover_chosen L input_file file book items it data s :
  fs_lookup (st_fs s) input_file = Some file ->
  epub_read_epub L file = Return book ->
  book_get_items book = Return items ->
  (forall i, In i items -> it_media_type i <> None) ->
  (first_with (fun i => is_image_item i && item_named_cover i) items it
   \/ (none_with (fun i => is_image_item i && item_named_cover i) items
       /\ first_with is_image_item items it)) ->
  match it_get_content it with
  | Return d => d
  | Raise _ => bytes_or (it_content it) (it_raw it)
  end = Some data ->
  extract_epub_cover L input_file s = cover_from_item L input_file it data s.
Proof.
  intros Hfile Hread Hitems Hall Hchoice Hdata.
  unfold extract_epub_cover, cover_from_item.
  rewrite (bind_return _ _ _ (print_eq _ s)).
  unfold ebooklib_try. unfold bind at 1, try_except at 1.
  rewrite (@ebooklib_path_chosen L input_file file book items it
             (printed s ("Extracting cover photo from " ++ input_file ++ "..."))
             Hfile Hread Hitems Hall Hchoice).
  rewrite Hdata. unfold bind at 1.
  destruct (save_item_cover L input_file it data
              (printed s ("Extracting cover photo from " ++ input_file ++ "...")))
    as [[[]|e] s']; reflexivity.
Qed.

(** Without bytes the first [try] fails and the zip/OPF path takes over. *)
Lemma extract_epub_cover_no_bytes L input_file file book items it s :
  fs_lookup (st_fs s) input_file = Some file ->
  epub_read_epub L file = Return book ->
  book_get_items book = Return items ->
  (forall i, In i items -> it_media_type i <> None) ->
  (first_with (fun i => is_image_item i && item_named_cover i) items it
   \/ (none_with (fun i => is_image_item i && item_named_cover i) items
       /\ first_with is_image_item items it)) ->
  match it_get_content it with
  | Return d => d
  | Raise _ => bytes_or (it_content it) (it_raw it)
  end = None ->
  extract_epub_cover L input_file s
  = zip_try L input_file
      (MkState (st_fs s)
         (st_out s
          ++ ["Extracting cover photo from " ++ input_file ++ "...";
              "EbookLib extraction failed, falling back to zip parsing: Could not read image bytes from EbookLib item"])).
Proof.
  intros Hfile Hread Hitems Hall Hchoice Hdata.
  unfold extract_epub_cover.
  rewrite (bind_return _ _ _ (print_eq _ s)).
  unfold ebooklib_try. unfold bind at 1, try_except at 1.
  rewrite (@ebooklib_path_chosen L input_file file book items it
             (printed s ("Extracting cover photo from " ++ input_file ++ "..."))
             Hfile Hread Hitems Hall Hchoice).
  rewrite Hdata. run. cbn [st_fs st_out exn_str].
  now rewrite <- app_assoc.
Qed.

(** X13: when EbookLib reads the book.  An item whose media type is
    [None] makes line 115 raise: the first [try] ends with the line
    "EbookLib extraction failed, ...", nothing is written by it, and the
    zip/OPF path takes over.  When every item has a media type, the cover
    is taken from the first image item whose id or file name contains
    "cover" in any case, else from the first image item.  With its content
    at hand one file is written and the zip/OPF path is not entered: the
    PNG of the decoded image under the input's name with ".png", or, when
    Pillow cannot open the bytes, the bytes as they are under the
    extension of the item's file name (of its id when the file name is
    empty), else the one guessed from its media type, else ".img". *)
Theorem ebooklib_cover_saved :
  forall L input_file file book items s,
    fs_lookup (st_fs s) input_file = Some file ->
    epub_read_epub L file = Return book ->
    book_get_items book = Return items ->
    (forall i, In i items -> it_media_type i = None ->
        extract_epub_cover L input_file s
        = zip_try L input_file
            (MkState (st_fs s)
               (st_out s
                ++ ["Extracting cover photo from " ++ input_file ++ "...";
                    "EbookLib extraction failed, falling back to zip parsing: 'NoneType' object has no attribute 'startswith'"])))
    /\ ((forall i, In i items -> it_media_type i <> None) ->
        forall it data,
          (first_with (fun i => is_image_item i && item_named_cover i) items it
           \/ (none_with (fun i => is_image_item i && item_named_cover i) items
               /\ first_with is_image_item items it)) ->
          it_get_content it = Return (Some data) ->
          (forall img,
              open_for_png L data = Return img ->
              extract_epub_cover L input_file s
              = (Return tt,
                 MkState ((fst (posixpath.splitext input_file) ++ ".png",
                           pil_png L img) :: st_fs s)
                         (st_out s
                          ++ ["Extracting cover photo from " ++ input_file ++ "...";
                              "Done, your cover photo has been saved as "
                              ++ fst (posixpath.splitext input_file) ++ ".png"])))
          /\ (forall e name t,
                pil_open L data = Raise e ->
                item_name it = Some name ->
                it_media_type it = Some t ->
                let ext := if truthy (snd (posixpath.splitext name))
                           then snd (posixpath.splitext name)
                           else str_or (mt_extension_of L t) ".img" in
                extract_epub_cover L input_file s
                = (Return tt,
                   MkState ((fst (posixpath.splitext input_file) ++ ext, data)
                            :: st_fs s)
                           (st_out s
                            ++ ["Extracting cover photo from " ++ input_file ++ "...";
                                "Done, your cover photo has been saved as "
                                ++ (fst (posixpath.splitext input_file) ++ ext)
                                ++ " (raw bytes)"])))).
Proof.
  intros L input_file file book items s Hfile Hread Hitems. split.
  - intros i Hi Hnone.
    unfold extract_epub_cover.
    rewrite (bind_return _ _ _ (print_eq _ s)).
    unfold ebooklib_try, ebooklib_path. run. cbn [st_fs st_out].
    rewrite Hfile, Hread, Hitems, (image_items_raises _ _ Hi Hnone).
    cbn [st_fs st_out exn_str]. now rewrite <- app_assoc.
  - intros Hall it data Hchoice Hcontent.
    assert (Hdata : match it_get_content it with
                    | Return d => d
                    | Raise _ => bytes_or (it_content it) (it_raw it)
                    end = Some data) by now rewrite Hcontent.
    pose proof (@extract_epub_cover_chosen L input_file file book items it data s
                  Hfile Hread Hitems Hall Hchoice Hdata) as Hrun.
    split.
    + intros img Himg. rewrite Hrun.
      unfold cover_from_item, save_item_cover. run. rewrite Himg.
      cbn [st_fs st_out]. now rewrite <- app_assoc.
    + intros e name t He Hname Htype. cbv zeta. rewrite Hrun.
      unfold cover_from_item.
      rewrite (@save_item_cover_raw L input_file it name t data e
                 (printed s ("Extracting cover photo from " ++ input_file ++ "..."))
                 He Hname Htype).
      cbv zeta. unfold printed. cbn [st_fs st_out].
      now rewrite <- app_assoc.
Qed.

Lemma ebooklib_cover_saved_witness :
  extract_epub_cover Samples2.libs "lib.epub" Samples2.disk
  = (Return tt,
     MkState (("lib.png",
               pil_png Samples2.libs
                 (MkImage "RGB" 2 3 [Decoded Samples2.pixels]))
              :: st_fs Samples2.disk)
             ["Extracting cover photo from lib.epub...";
              "Done, your cover photo has been saved as lib.png"]).
Proof.
  refine (proj1 (proj2 (@ebooklib_cover_saved Samples2.libs "lib.epub"
                          (Samples.b "lib.epub")
                          (MkBook (Return Samples2.lib_items))
                          Samples2.lib_items Samples2.disk
                          eq_refl eq_refl eq_refl)
                   _
                   (MkItem (Some "img2") (Some "images/Cover.jpg")
                      (Some "image/jpeg")
                      (Return (Some Samples2.pixels)) None None)
                   Samples2.pixels _ eq_refl)
                (MkImage "RGB" 2 3 [Decoded Samples2.pixels]) eq_refl).
  - intros i [Hi|[Hi|[Hi|[]]]]; subst i; discriminate.
  - left. eexists [_; _], []. split; [reflexivity|]. split; [reflexivity|].
    intros y [Hy|[Hy|[]]]; subst y; reflexivity.
Defined.

(** ** Bringing an image to a mode PNG takes *)

(** X14: an image that is written as PNG has the mode RGB or RGBA: an
    image Pillow opens in one of these two modes is kept as it is, any
    other one is converted to RGBA, with its size and content kept. *)
Theorem open_for_png_mode :
  forall L data img,
    open_for_png L data = Return img ->
    (img_mode img = "RGB" \/ img_mode img = "RGBA")
    /\ exists img0,
         pil_open L data = Return img0
         /\ img_width img = img_width img0
         /\ img_height img = img_height img0
         /\ img_paint img = img_paint img0
         /\ (img_mode img0 = "RGB" \/ img_mode img0 = "RGBA" -> img = img0)
         /\ (img_mode img0 <> "RGB" -> img_mode img0 <> "RGBA" ->
             img_mode img = "RGBA").
Proof.
  intros L data img. unfold open_for_png.
  destruct (pil_open L data) as [img0|e]; [|discriminate].
  destruct (String.eqb (img_mode img0) "RGB") eqn:E1.
  - simpl. intros H. inversion H. subst img0.
    apply String.eqb_eq in E1. split; [now left|].
    exists img. repeat split; auto; try congruence.
  - destruct (String.eqb (img_mode img0) "RGBA") eqn:E2.
    + simpl. intros H. inversion H. subst img0.
      apply String.eqb_eq in E2. split; [now right|].
      exists img. repeat split; auto; try congruence.
    + simpl. intros H. inversion H. split; [now right|].
      apply String.eqb_neq in E1, E2.
      exists img0. repeat split; auto. intros [Hm|Hm]; contradiction.
Qed.

Lemma open_for_png_mode_witness :
  (img_mode (MkImage "RGB" 2 3 [Decoded Samples2.pixels]) = "RGB"
   \/ img_mode (MkImage "RGB" 2 3 [Decoded Samples2.pixels]) = "RGBA")
  /\ exists img0,
       pil_open Samples2.libs Samples2.pixels = Return img0
       /\ img_width (MkImage "RGB" 2 3 [Decoded Samples2.pixels]) = img_width img0
       /\ img_height (MkImage "RGB" 2 3 [Decoded Samples2.pixels]) = img_height img0
       /\ img_paint (MkImage "RGB" 2 3 [Decoded Samples2.pixels]) = img_paint img0
       /\ (img_mode img0 = "RGB" \/ img_mode img0 = "RGBA" ->
           MkImage "RGB" 2 3 [Decoded Samples2.pixels] = img0)
       /\ (img_mode img0 <> "RGB" -> img_mode img0 <> "RGBA" ->
           img_mode (MkImage "RGB" 2 3 [Decoded Samples2.pixels]) = "RGBA").
Proof.
  exact (@open_for_png_mode Samples2.libs Samples2.pixels
           (MkImage "RGB" 2 3 [Decoded Samples2.pixels]) eq_refl).
Defined.

(** ** The zip/OPF path, when the cover is found *)

(** X15: in the zip/OPF path, when the archive has an entry under the
    resolved cover href and Pillow opens its bytes, the cover is written as
    PNG under the input's name with ".png", one confirmation line is
    printed, and nothing else is written. *)
Theorem zip_cover_saved_as_png :
  forall L input_file s s1 z rootfile_path opf_data href image_data img,
    ebooklib_try L input_file
      (printed s ("Extracting cover photo from " ++ input_file ++ "..."))
    = (Return false, s1) ->
    package_at L s1 input_file z rootfile_path opf_data ->
    _find_cover_href L opf_data (posixpath.dirname rootfile_path)
    = Return (Some href) ->
    zipfile.read z (replace "\"%char "/"%char href) = Return image_data ->
    open_for_png L image_data = Return img ->
    extract_epub_cover L input_file s
    = (Return tt,
       MkState ((fst (posixpath.splitext input_file) ++ ".png", pil_png L img)
                :: st_fs s)
               (st_out s1
                ++ ["Done, your cover photo has been saved as "
                    ++ fst (posixpath.splitext input_file) ++ ".png"])).
Proof.
  intros L input_file s s1 z rootfile_path opf_data href image_data img
         Htry Hpkg Hfind Hread Himg.
  pose proof (find_cover_href_truthy _ _ _ Hfind) as Htruthy.
  pose proof (zip_path_located Hpkg Hfind) as Hpath.
  cbv beta iota in Hpath. rewrite Htruthy in Hpath.
  cbn [negb] in Hpath. cbv iota in Hpath.
  rewrite (extract_epub_cover_fallback _ _ _ Htry).
  unfold zip_try. apply try_except_return. rewrite Hpath.
  unfold bind at 1, lift at 1, read_cover. rewrite Hread.
  unfold save_zip_cover. run. rewrite Himg. cbn [st_fs st_out].
  now rewrite (ebooklib_try_false_fs _ _ _ Htry).
Qed.

Lemma zip_cover_saved_as_png_witness :
  extract_epub_cover Samples2.libs "good.epub" Samples2.disk
  = (Return tt,
     MkState (("good.png",
               pil_png Samples2.libs (MkImage "RGB" 2 3 [Decoded Samples2.pixels]))
              :: st_fs Samples2.disk)
             ["Extracting cover photo from good.epub...";
              "EbookLib extraction failed, falling back to zip parsing: Document is empty, line 1, column 1";
              "Done, your cover photo has been saved as good.png"]).
Proof.
  refine (@zip_cover_saved_as_png Samples2.libs "good.epub" Samples2.disk
            (MkState (st_fs Samples2.disk)
               ["Extracting cover photo from good.epub...";
                "EbookLib extraction failed, falling back to zip parsing: Document is empty, line 1, column 1"])
            (Samples.archive "<good/>"
               [("OEBPS/images/p1.png", Return (Samples.b "not an image"));
                ("OEBPS/images/cover.jpg", Return Samples2.pixels)])
            "OEBPS/content.opf" (Samples.b "<good/>")
            "OEBPS/images/cover.jpg" Samples2.pixels
            (MkImage "RGB" 2 3 [Decoded Samples2.pixels])
            eq_refl _ eq_refl eq_refl eq_refl).
  exists (Samples.b "good.epub"). repeat split; reflexivity.
Defined.

Lemma scan_names_some z cover_href names image_data name :
  scan_names z cover_href names = Return (Some (image_data, name)) ->
  first_with (names_like cover_href) names name
  /\ zipfile.read z name = Return image_data.
Proof.
  induction names as [|n names IH]; simpl; [discriminate|].
  destruct (endswith (lower n) (lower (posixpath.basename cover_href))) eqn:En.
  - destruct (zipfile.read z n) as [d|e] eqn:Er; [|discriminate].
    intros H. inversion H. subst d n. split; [|exact Er].
    exists [], names. repeat split; auto. intros y [].
  - intros H. destruct (IH H) as [(l1 & l2 & Hl & Hn & Hbefore) Hr].
    split; [|exact Hr].
    exists (n :: l1), l2. subst names. repeat split; auto.
    intros y [Hy|Hy]; [now subst y|now apply Hbefore].
Qed.

(** X16: the bytes of the cover always come from an entry of the archive:
    when lines 179-191 give bytes and a name, the bytes are what reading
    that name gives, and the name is the cover href itself or the first
    name of the archive that ends, whatever the case, with its basename. *)
Theorem read_cover_sound :
  forall z cover_href image_data name,
    read_cover z cover_href = Return (Some (image_data, name)) ->
    zipfile.read z name = Return image_data
    /\ (name = cover_href
        \/ first_with (names_like cover_href) (zipfile.namelist z) name).
Proof.
  intros z cover_href image_data name. unfold read_cover.
  destruct (zipfile.read z cover_href) as [d|e] eqn:Er.
  - intros H. inversion H. subst d name. split; [exact Er|now left].
  - destruct (is_class KeyError e); [|discriminate].
    intros H. apply scan_names_some in H as [Hfirst Hread].
    split; [exact Hread|now right].
Qed.

Lemma read_cover_sound_witness :
  zipfile.read
    (Samples.archive "<moved_href/>"
       [("OEBPS/Images/cover.jpg", Return (Samples.b "not an image"))])
    "OEBPS/Images/cover.jpg"
  = Return (Samples.b "not an image")
  /\ ("OEBPS/Images/cover.jpg" = "OEBPS/img/Cover.JPG"
      \/ first_with (names_like "OEBPS/img/Cover.JPG")
           (zipfile.namelist
              (Samples.archive "<moved_href/>"
                 [("OEBPS/Images/cover.jpg", Return (Samples.b "not an image"))]))
           "OEBPS/Images/cover.jpg").
Proof.
  exact (@read_cover_sound
           (Samples.archive "<moved_href/>"
              [("OEBPS/Images/cover.jpg", Return (Samples.b "not an image"))])
           "OEBPS/img/Cover.JPG" (Samples.b "not an image")
           "OEBPS/Images/cover.jpg" eq_refl).
Defined.

(** ** Short TXT files *)

Lemma length_rstrip_le p s : (String.length (rstrip p s) <= String.length s)%nat.
Proof.
  destruct (rstrip_prefix p s) as [q Hq].
  rewrite Hq at 2. rewrite length_append. lia.
Qed.

(** A file with fewer newlines than [max_lines] is read whole: the lines
    joined are the text, up to one final newline. *)
Lemma read_lines_whole max_lines : forall f,
  (count_char newline f < max_lines)%nat ->
  f = String.concat (String newline "") (read_lines max_lines f)
  \/ f = String.concat (String newline "") (read_lines max_lines f)
         ++ String newline "".
Proof.
  induction max_lines as [|k IH]; intros f Hcount; [lia|].
  simpl read_lines. destruct (readline f) as [line rest] eqn:E.
  destruct (readline_spec _ E) as [Hf Hline].
  destruct (truthy line) eqn:Et; cbn [negb]; cbv iota.
  - destruct Hline as [Hl|[Hl Hr]].
    + assert (Hrest : (count_char newline rest < k)%nat).
      { rewrite Hf, Hl, !count_char_append in Hcount.
        change (count_char newline (String newline "")) with 1%nat in Hcount.
        lia. }
      destruct (read_lines k rest) as [|l2 ls] eqn:E2.
      * assert (rest = "") as ->.
        { destruct k as [|k']; [lia|].
          destruct rest as [|c rest]; [reflexivity|].
          exfalso. apply (@read_lines_nonempty k' (String c rest));
            [discriminate|exact E2]. }
        right. simpl String.concat. rewrite Hf, append_nil_r. exact Hl.
      * destruct (IH rest Hrest) as [Hw|Hw]; rewrite E2 in Hw.
        -- left.
           change (String.concat (String newline "")
                     (rstrip (Ascii.eqb newline) line :: l2 :: ls))
             with (rstrip (Ascii.eqb newline) line ++ String newline ""
                   ++ String.concat (String newline "") (l2 :: ls)).
           rewrite Hf, Hl at 1. rewrite Hw at 1. now rewrite append_assoc.
        -- right.
           change (String.concat (String newline "")
                     (rstrip (Ascii.eqb newline) line :: l2 :: ls))
             with (rstrip (Ascii.eqb newline) line ++ String newline ""
                   ++ String.concat (String newline "") (l2 :: ls)).
           rewrite Hf, Hl at 1. rewrite Hw at 1. now rewrite !append_assoc.
    + subst rest. rewrite read_lines_eof. left. simpl String.concat.
      rewrite Hf, append_nil_r. exact Hl.
  - apply truthy_false in Et. subst line. simpl in Hf. left.
    destruct Hline as [Hl|[_ Hr]].
    + simpl in Hl. discriminate Hl.
    + now rewrite Hf, Hr.
Qed.

(** X17: a text with fewer than [max_lines] newlines and at most
    [max_chars] characters is rendered whole: the text handed to the
    wrapping is the text of the file, without its final newline when it
    ends with one.  Nothing is cut and no dots are added. *)
Theorem short_txt_is_kept :
  forall f max_lines max_chars,
    (count_char newline f < max_lines)%nat ->
    (String.length f <= max_chars)%nat ->
    f = cut_text max_chars (read_lines max_lines f)
    \/ f = cut_text max_chars (read_lines max_lines f) ++ String newline "".
Proof.
  intros f max_lines max_chars Hcount Hlen.
  assert (Hshort : (String.length
                      (String.concat (String newline "") (read_lines max_lines f))
                    <= max_chars)%nat).
  { destruct (read_lines_prefix max_lines f) as [rest Hrest].
    rewrite Hrest in Hlen at 1. rewrite length_append in Hlen. lia. }
  rewrite cut_text_short by exact Hshort.
  now apply read_lines_whole.
Qed.

Lemma short_txt_is_kept_witness :
  "Hello world" = cut_text 2000 (read_lines 20 "Hello world")
  \/ "Hello world"
     = cut_text 2000 (read_lines 20 "Hello world") ++ String newline "".
Proof.
  apply short_txt_is_kept.
  - vm_compute. lia.
  - vm_compute. lia.
Defined.

(** ** Where the lines are drawn *)

Lemma draw_lines_paint lines : forall img margin y0 line_height k,
  img_paint (draw_lines img margin (y0 + Z.of_nat k * line_height)%Z
                        line_height lines)
  = (img_paint img
     ++ map (fun p => Text margin (y0 + Z.of_nat (fst p) * line_height)%Z
                           (snd p) "black")
            (combine (seq k (List.length lines)) lines))%list.
Proof.
  induction lines as [|line lines IH]; intros img margin y0 line_height k.
  - simpl. now rewrite app_nil_r.
  - cbn [draw_lines List.length seq combine map].
    replace (y0 + Z.of_nat k * line_height + line_height)%Z
      with (y0 + Z.of_nat (S k) * line_height)%Z by lia.
    rewrite IH. unfold draw_text. cbn [img_paint fst snd].
    now rewrite <- app_assoc.
Qed.

(** X18: on the canvas of a text cover the wrapped lines are drawn after
    the white fill, in their order, in black, each at the left margin 40
    and at [40 + i * (char_h + 6)] for the line of index [i]; and with a
    glyph height that is not negative every line lies between the top and
    the bottom margin of the canvas. *)
Theorem text_lines_on_canvas :
  forall lines char_h,
    img_paint (draw_lines
                 (MkImage "RGBA" 1200
                    (canvas_height 40 char_h (List.length lines))
                    [Fill "white"])
                 40 40 (char_h + 6)%Z lines)
    = Fill "white"
      :: map (fun p => Text 40 (40 + Z.of_nat (fst p) * (char_h + 6))%Z
                            (snd p) "black")
             (combine (seq 0 (List.length lines)) lines)
    /\ ((0 <= char_h)%Z ->
        forall i, (i < List.length lines)%nat ->
          (40 <= 40 + Z.of_nat i * (char_h + 6))%Z
          /\ (40 + Z.of_nat i * (char_h + 6) + (char_h + 6)
              <= canvas_height 40 char_h (List.length lines) - 40)%Z).
Proof.
  intros lines char_h. split.
  - pose proof (draw_lines_paint lines
                  (MkImage "RGBA" 1200
                     (canvas_height 40 char_h (List.length lines))
                     [Fill "white"])
                  40%Z 40%Z (char_h + 6)%Z 0) as H.
    cbn [Z.of_nat] in H.
    replace (40 + 0 * (char_h + 6))%Z with 40%Z in H by lia.
    exact H.
  - intros Hh i Hi. unfold canvas_height. split; nia.
Qed.

Lemma text_lines_on_canvas_witness :
  (40 <= 40 + Z.of_nat 1 * (11 + 6))%Z
  /\ (40 + Z.of_nat 1 * (11 + 6) + (11 + 6)
      <= canvas_height 40 11 (List.length ["Hello"; "world"]) - 40)%Z.
Proof.
  apply (proj2 (text_lines_on_canvas ["Hello"; "world"] 11)).
  - lia.
  - simpl. lia.
Defined.

(** ** The width of a line in characters *)

(** X19: the number of characters per line is at least 40.  For a glyph
    width [w > 0], a full line fits the 1120 pixels between the margins
    exactly when [w <= 28]: for a wider glyph the floor of 40 characters
    makes a full line wider than the space.  A width of 0 is taken as 7,
    which gives 160; a negative width gives 40. *)
Theorem chars_per_line_bounds :
  forall w,
    (40 <= chars_per_line 1200 40 w)%Z
    /\ ((0 < w)%Z ->
        ((chars_per_line 1200 40 w * w <= 1200 - 2 * 40)%Z <-> (w <= 28)%Z))
    /\ (w = 0%Z -> chars_per_line 1200 40 w = 160%Z)
    /\ ((w < 0)%Z -> chars_per_line 1200 40 w = 40%Z).
Proof.
  intros w. unfold chars_per_line. repeat split.
  - lia.
  - intros Hfit.
    assert (Hw : (w =? 0)%Z = false) by (apply Z.eqb_neq; lia).
    rewrite Hw in Hfit. nia.
  - intros Hsmall.
    assert (Hw : (w =? 0)%Z = false) by (apply Z.eqb_neq; lia).
    rewrite Hw.
    assert (H40 : (40 <= (1200 - 2 * 40) / w)%Z)
      by (apply Z.div_le_lower_bound; lia).
    rewrite Z.max_r by exact H40.
    pose proof (Z.mul_div_le (1200 - 2 * 40) w H). lia.
  - intros ->. reflexivity.
  - intros Hneg.
    assert (Hw : (w =? 0)%Z = false) by (apply Z.eqb_neq; lia).
    rewrite Hw. apply Z.max_l.
    pose proof (Z.div_mod (1200 - 2 * 40) w ltac:(lia)) as Hdm.
    pose proof (Z.mod_neg_bound (1200 - 2 * 40) w Hneg) as Hb.
    nia.
Qed.

Lemma chars_per_line_bounds_witness :
  (chars_per_line 1200 40 6 * 6 <= 1200 - 2 * 40)%Z <-> (6 <= 28)%Z.
Proof.
  apply (proj1 (proj2 (chars_per_line_bounds 6))). lia.
Defined.

(** ** Where the output goes *)

Lemma rfind1_none c s : count_char c s = 0%nat -> rfind1 c s = 0%nat.
Proof.
  induction s as [|d s IH]; simpl; [reflexivity|].
  destruct (Ascii.eqb d c); [discriminate|].
  intros H. now rewrite (IH H).
Qed.

Lemma rfind1_app_none c a x :
  count_char c x = 0%nat -> rfind1 c (a ++ x) = rfind1 c a.
Proof.
  intros Hx. induction a as [|d a IH]; simpl.
  - now apply rfind1_none.
  - now rewrite IH.
Qed.

Lemma rfind1_le_length c s : (rfind1 c s <= String.length s)%nat.
Proof.
  induction s as [|d s IH]; simpl; [lia|].
  destruct (rfind1 c s); [destruct (Ascii.eqb d c)|]; lia.
Qed.

Lemma rfind1_take c s : forall n,
  (rfind1 c s <= n)%nat -> rfind1 c (take n s) = rfind1 c s.
Proof.
  induction s as [|d s IH]; intros n Hn.
  - now destruct n.
  - destruct n as [|n].
    + simpl. simpl in Hn. lia.
    + cbn [take rfind1] in *.
      destruct (rfind1 c s) as [|k] eqn:E.
      * now rewrite (IH n) by lia.
      * now rewrite (IH n) by lia.
Qed.

Lemma count_char_drop c s : forall n,
  (rfind1 c s <= n)%nat -> count_char c (drop n s) = 0%nat.
Proof.
  induction s as [|d s IH]; intros n Hn.
  - now destruct n.
  - destruct n as [|n].
    + cbn [drop count_char]. cbn [rfind1] in Hn.
      destruct (rfind1 c s) as [|k] eqn:E; [|lia].
      destruct (Ascii.eqb d c); [lia|].
      simpl. apply (IH 0%nat). lia.
    + cbn [drop]. apply IH. cbn [rfind1] in Hn.
      destruct (rfind1 c s); [|lia]. lia.
Qed.

Lemma take_app_le a x : forall i,
  (i <= String.length a)%nat -> take i (a ++ x) = take i a.
Proof.
  induction a as [|d a IH]; intros i Hi.
  - simpl in Hi. assert (i = 0)%nat as -> by lia. now destruct x.
  - destruct i as [|i]; [reflexivity|].
    simpl. rewrite IH; [reflexivity|]. simpl in Hi. lia.
Qed.

Lemma take_take s : forall i n, (i <= n)%nat -> take i (take n s) = take i s.
Proof.
  induction s as [|d s IH]; intros i n Hin.
  - destruct i, n; reflexivity.
  - destruct i as [|i]; [now destruct n|].
    destruct n as [|n]; [lia|].
    simpl. rewrite IH; [reflexivity|lia].
Qed.

Lemma take_all s : take (String.length s) s = s.
Proof. induction s as [|d s IH]; simpl; [reflexivity|now rewrite IH]. Qed.

Lemma drop_all s : drop (String.length s) s = "".
Proof. induction s as [|d s IH]; simpl; [reflexivity|exact IH]. Qed.

Lemma splitext_scan_cut p dotIndex fuel : forall filenameIndex,
  posixpath.splitext_scan p dotIndex filenameIndex fuel = (p, "")
  \/ posixpath.splitext_scan p dotIndex filenameIndex fuel
     = (take dotIndex p, drop dotIndex p).
Proof.
  induction fuel as [|k IH]; intros filenameIndex;
    cbn [posixpath.splitext_scan].
  - now left.
  - destruct (String.eqb (take 1 (drop filenameIndex p)) ".");
      [apply IH|now right].
Qed.

(** [splitext] cuts the path after its last slash. *)
Lemma splitext_cut p :
  exists n,
    (rfind1 posixpath.sep p <= n)%nat
    /\ posixpath.splitext p = (take n p, drop n p).
Proof.
  unfold posixpath.splitext.
  destruct (rfind1 posixpath.sep p <? rfind1 "." p)%nat eqn:E.
  - apply Nat.ltb_lt in E.
    destruct (splitext_scan_cut p (rfind1 "." p - 1)
                (rfind1 "." p - 1 - rfind1 posixpath.sep p)
                (rfind1 posixpath.sep p)) as [H|H]; rewrite H.
    + exists (String.length p). split; [apply rfind1_le_length|].
      now rewrite take_all, drop_all.
    + exists (rfind1 "." p - 1)%nat. split; [lia|reflexivity].
  - exists (String.length p). split; [apply rfind1_le_length|].
    now rewrite take_all, drop_all.
Qed.

(** The name of an input without its extension, followed by an extension
    without a slash, has the [dirname] of the input; and the extension
    [splitext] splits off holds no slash. *)
Lemma dirname_stem_ext input_file ext :
  count_char "/" ext = 0%nat ->
  posixpath.dirname (fst (posixpath.splitext input_file) ++ ext)
  = posixpath.dirname input_file.
Proof.
  intros Hext.
  destruct (splitext_cut input_file) as (n & Hn & Hsplit).
  rewrite Hsplit. cbn [fst snd].
  unfold posixpath.dirname.
  assert (Hi : rfind1 posixpath.sep (take n input_file ++ ext)
               = rfind1 posixpath.sep input_file).
  { unfold posixpath.sep. rewrite rfind1_app_none by exact Hext.
    now apply rfind1_take. }
  rewrite Hi.
  assert (Hhead : take (rfind1 posixpath.sep input_file)
                       (take n input_file ++ ext)
                  = take (rfind1 posixpath.sep input_file) input_file).
  { rewrite take_app_le.
    - now apply take_take.
    - rewrite <- (@rfind1_take posixpath.sep input_file n Hn) at 1.
      apply rfind1_le_length. }
  now rewrite Hhead.
Qed.

Lemma splitext_ext_no_slash path :
  count_char "/" (snd (posixpath.splitext path)) = 0%nat.
Proof.
  destruct (splitext_cut path) as (n & Hn & Hsplit).
  rewrite Hsplit. cbn [snd]. now apply count_char_drop.
Qed.

(** X20: every file a run writes lies in the directory of one of the
    input files, whatever the libraries do and however the run ends,
    provided no extension of the table of [mimetypes] holds a slash (the
    other extensions the script uses are ".png", ".img" and what
    [splitext] splits off a name, which never holds one). *)
Theorem output_beside_input :
  forall L files s o s',
    (forall t e, mt_extension_of L t = Some e -> count_char "/" e = 0%nat) ->
    main_loop L files s = (o, s') ->
    exists written,
      st_fs s' = (written ++ st_fs s)%list
      /\ forall w, In w written ->
           exists input_file,
             In input_file files
             /\ posixpath.dirname (fst w) = posixpath.dirname input_file.
Proof.
  intros L files s o s' Htable Hrun.
  destruct (@main_loop_writes L (fun ext => count_char "/" ext = 0%nat)
              eq_refl eq_refl splitext_ext_no_slash Htable files s o s' Hrun)
    as (written & Hfs & _ & Hnames & _).
  exists written. split; [exact Hfs|].
  intros w Hin. destruct (Hnames w Hin) as (f & Hf & ext & Hext & Hname).
  exists f. split; [exact Hf|].
  rewrite Hname. now apply dirname_stem_ext.
Qed.

Lemma output_beside_input_witness :
  exists written,
    st_fs (snd (main_loop Samples2.libs ["books/a.b/notes.txt"; "scan.pdf"]
                  Samples2.disk))
    = (written ++ st_fs Samples2.disk)%list
    /\ forall w, In w written ->
         exists input_file,
           In input_file ["books/a.b/notes.txt"; "scan.pdf"]
           /\ posixpath.dirname (fst w) = posixpath.dirname input_file.
Proof.
  refine (@output_beside_input Samples2.libs ["books/a.b/notes.txt"; "scan.pdf"]
            Samples2.disk _ _ _ (surjective_pairing _)).
  intros t e. simpl. unfold Samples.extension_of.
  destruct (String.eqb t "image/jpeg"); [intros H; now inversion H|].
  destruct (String.eqb t "image/png"); [intros H; now inversion H|].
  discriminate.
Defined.

(** ** The content of an EbookLib item *)

(** X21: when [get_content()] of the chosen item raises, the script takes
    the bytes of the item's [content] attribute when it is there and not
    empty, else those of its [raw] attribute, and writes the cover from
    them: the PNG of the image Pillow decodes from them, when it does.
    With [content] absent or empty and no [raw], the first [try] ends with
    "Could not read image bytes from EbookLib item" in the line it prints,
    nothing is written by it, and the zip/OPF path takes over. *)
Theorem ebooklib_content_fallback :
  forall L input_file file book items it e0 s,
    fs_lookup (st_fs s) input_file = Some file ->
    epub_read_epub L file = Return book ->
    book_get_items book = Return items ->
    (forall i, In i items -> it_media_type i <> None) ->
    (first_with (fun i => is_image_item i && item_named_cover i) items it
     \/ (none_with (fun i => is_image_item i && item_named_cover i) items
         /\ first_with is_image_item items it)) ->
    it_get_content it = Raise e0 ->
    (forall c cs,
        it_content it = Some (c :: cs) ->
        extract_epub_cover L input_file s
        = cover_from_item L input_file it (c :: cs) s)
    /\ (forall data,
          it_content it = None \/ it_content it = Some [] ->
          it_raw it = Some data ->
          extract_epub_cover L input_file s
          = cover_from_item L input_file it data s)
    /\ (it_content it = None \/ it_content it = Some [] ->
        it_raw it = None ->
        extract_epub_cover L input_file s
        = zip_try L input_file
            (MkState (st_fs s)
               (st_out s
                ++ ["Extracting cover photo from " ++ input_file ++ "...";
                    "EbookLib extraction failed, falling back to zip parsing: Could not read image bytes from EbookLib item"])))
    /\ (forall data img,
          open_for_png L data = Return img ->
          cover_from_item L input_file it data s
          = (Return tt,
             MkState ((fst (posixpath.splitext input_file) ++ ".png",
                       pil_png L img) :: st_fs s)
                     (st_out s
                      ++ ["Extracting cover photo from " ++ input_file ++ "...";
                          "Done, your cover photo has been saved as "
                          ++ fst (posixpath.splitext input_file) ++ ".png"]))).
Proof.
  intros L input_file file book items it e0 s
         Hfile Hread Hitems Hall Hchoice Hcontent.
  split; [|split; [|split]].
  4:{ intros data img Himg.
      unfold cover_from_item, save_item_cover. run. rewrite Himg.
      cbn [st_fs st_out]. now rewrite <- app_assoc. }
  - intros c cs Hc.
    apply (@extract_epub_cover_chosen L input_file file book items it (c :: cs) s
             Hfile Hread Hitems Hall Hchoice).
    now rewrite Hcontent, Hc.
  - intros data Hc Hraw.
    apply (@extract_epub_cover_chosen L input_file file book items it data s
             Hfile Hread Hitems Hall Hchoice).
    rewrite Hcontent. destruct Hc as [Hc|Hc]; now rewrite Hc.
  - intros Hc Hraw.
    apply (@extract_epub_cover_no_bytes L input_file file book items it s
             Hfile Hread Hitems Hall Hchoice).
    rewrite Hcontent. destruct Hc as [Hc|Hc]; now rewrite Hc.
Qed.

Lemma ebooklib_content_fallback_witness :
  extract_epub_cover Samples2.libs_stored "lib.epub" Samples2.disk
  = (Return tt,
     MkState (("lib.png",
               pil_png Samples2.libs_stored
                 (MkImage "RGB" 2 3 [Decoded Samples2.pixels]))
              :: st_fs Samples2.disk)
             ["Extracting cover photo from lib.epub...";
              "Done, your cover photo has been saved as lib.png"]).
Proof.
  refine (proj1 (@ebooklib_content_fallback Samples2.libs_stored "lib.epub"
                   (Samples.b "lib.epub")
                   (MkBook (Return [Samples2.stored_item]))
                   [Samples2.stored_item] Samples2.stored_item
                   (Exn OtherError "broken item") Samples2.disk
                   eq_refl eq_refl eq_refl _ _ eq_refl)
                Byte.x00
                [Byte.x00; Byte.x01; Byte.x00; Byte.x00; Byte.x00] eq_refl).
  - intros i [Hi|[]]. subst i. discriminate.
  - right. split.
    + intros y [Hy|[]]. subst y. reflexivity.
    + eexists [], []. split; [reflexivity|]. split; [reflexivity|].
      intros y [].
Defined.

(** ** Names the scan accepts *)

Lemma lower_app a b : lower (a ++ b) = lower a ++ lower b.
Proof. induction a as [|c a IH]; simpl; [reflexivity|now rewrite IH]. Qed.

Lemma endswith_refl s : endswith s s = true.
Proof. destruct s; simpl; [reflexivity|]. now rewrite Ascii.eqb_refl, String.eqb_refl. Qed.

Lemma endswith_app a b : endswith (a ++ b) b = true.
Proof.
  induction a as [|c a IH]; simpl.
  - apply endswith_refl.
  - rewrite IH. apply orb_true_r.
Qed.

Lemma lower_drop s : forall n, lower (drop n s) = drop n (lower s).
Proof.
  induction s as [|c s IH]; intros [|n]; simpl; try reflexivity. apply IH.
Qed.

(** X22: a cover stored under another case or in another folder keeps
    the scan from failing.  When the archive has no entry under the cover
    href itself but one of its names is the href up to the case of the
    letters, or is, up to case, some directory followed by the basename
    of the href, then the scan accepts that name, lines 179-191 do not end
    without bytes (the could-not-read message is not reached): the entry
    read is the first name of the archive that ends, whatever the case,
    with the basename, which is that name when no name before it in the
    archive ends so. *)
Theorem scan_accepts_other_case_and_folder :
  forall z cover_href name,
    zipfile.getinfo (zip_entries z) cover_href = None ->
    In name (zipfile.namelist z) ->
    (lower name = lower cover_href
     \/ exists dir, lower name = lower (dir ++ posixpath.basename cover_href)) ->
    names_like cover_href name = true
    /\ read_cover z cover_href <> Return None
    /\ exists found,
         first_with (names_like cover_href) (zipfile.namelist z) found
         /\ read_cover z cover_href
            = match zipfile.read z found with
              | Return image_data => Return (Some (image_data, found))
              | Raise e => Raise e
              end
         /\ (forall l1 l2,
               zipfile.namelist z = (l1 ++ name :: l2)%list ->
               none_with (names_like cover_href) l1 ->
               found = name).
Proof.
  intros z cover_href name Hmissing Hin Hname.
  assert (Hlike : names_like cover_href name = true).
  { unfold names_like. destruct Hname as [Hcase|[dir Hdir]].
    - rewrite Hcase. unfold posixpath.basename. rewrite lower_drop.
      rewrite <- (take_drop (rfind1 posixpath.sep cover_href) (lower cover_href)) at 1.
      apply endswith_app.
    - rewrite Hdir, lower_app. apply endswith_app. }
  destruct (find (names_like cover_href) (zipfile.namelist z)) as [found|] eqn:Efind.
  2:{ pose proof (find_none _ _ Efind name Hin) as Hno. congruence. }
  pose proof (find_some_first_with _ _ Efind) as Hfirst.
  assert (Hread : read_cover z cover_href
                  = match zipfile.read z found with
                    | Return image_data => Return (Some (image_data, found))
                    | Raise e => Raise e
                    end).
  { rewrite (read_cover_scans _ _ Hmissing). exact (scan_names_first z Hfirst). }
  split; [exact Hlike|]. split.
  - rewrite Hread. destruct (zipfile.read z found); discriminate.
  - exists found. split; [exact Hfirst|]. split; [exact Hread|].
    intros l1 l2 Hsplit Hnone.
    assert (Hname_first : first_with (names_like cover_href) (zipfile.namelist z) name)
      by (exists l1, l2; auto).
    apply find_first_with in Hname_first. congruence.
Qed.

Lemma scan_accepts_other_case_and_folder_witness :
  names_like "OEBPS/img/Cover.JPG" "OEBPS/Images/cover.jpg" = true
  /\ read_cover
       (Samples.archive "<moved_href/>"
          [("OEBPS/ch1.xhtml", Return (Samples.b "<html/>"));
           ("OEBPS/Images/cover.jpg", Return (Samples.b "not an image"));
           ("cover.jpg", Return (Samples.b "another"))])
       "OEBPS/img/Cover.JPG"
     <> Return None
  /\ exists found,
       first_with (names_like "OEBPS/img/Cover.JPG")
         (zipfile.namelist
            (Samples.archive "<moved_href/>"
               [("OEBPS/ch1.xhtml", Return (Samples.b "<html/>"));
                ("OEBPS/Images/cover.jpg", Return (Samples.b "not an image"));
                ("cover.jpg", Return (Samples.b "another"))]))
         found
       /\ read_cover
            (Samples.archive "<moved_href/>"
               [("OEBPS/ch1.xhtml", Return (Samples.b "<html/>"));
                ("OEBPS/Images/cover.jpg", Return (Samples.b "not an image"));
                ("cover.jpg", Return (Samples.b "another"))])
            "OEBPS/img/Cover.JPG"
          = match zipfile.read
                    (Samples.archive "<moved_href/>"
                       [("OEBPS/ch1.xhtml", Return (Samples.b "<html/>"));
                        ("OEBPS/Images/cover.jpg", Return (Samples.b "not an image"));
                        ("cover.jpg", Return (Samples.b "another"))])
                    found
            with
            | Return image_data => Return (Some (image_data, found))
            | Raise e => Raise e
            end
       /\ (forall l1 l2,
             zipfile.namelist
               (Samples.archive "<moved_href/>"
                  [("OEBPS/ch1.xhtml", Return (Samples.b "<html/>"));
                   ("OEBPS/Images/cover.jpg", Return (Samples.b "not an image"));
                   ("cover.jpg", Return (Samples.b "another"))])
             = (l1 ++ "OEBPS/Images/cover.jpg" :: l2)%list ->
             none_with (names_like "OEBPS/img/Cover.JPG") l1 ->
             found = "OEBPS/Images/cover.jpg").
Proof.
  apply scan_accepts_other_case_and_folder.
  - reflexivity.
  - vm_compute. tauto.
  - right. exists "OEBPS/Images/". reflexivity.
Defined.
